(** * PowerMonitorCSVS: power_monitor.py

    A shallow embedding of [src/current_dc/code/code/power_monitor.py]
    together with the properties the specification states about it.

    The numeric code is written once, over an interface [PyFloat] of the
    operations Python's [float] offers, and read at two instances:
      - [float], Rocq's primitive binary64 numbers, which is what CPython
        computes with (NaN, infinities, rounding): the properties of
        the program are stated for every instance or for this one;
      - [R], exact real arithmetic, which the program does not run in:
        it is used to tell what the formulas of the specification say
        (division by [sqrt 2], monotonicity) apart from what rounding
        does to them. *)

From Stdlib Require Import ZArith List String Bool Lia.
From Stdlib Require Import Reals Lra.
From Stdlib Require Import Floats.
From Stdlib Require Import Permutation.
Import ListNotations.

Set Warnings "-inexact-float".
Local Open Scope Z_scope.

(* ------------------------------------------------------------------ *)
(** * Python values, exceptions                                        *)
(* ------------------------------------------------------------------ *)

(** The exceptions the modelled statements can raise. *)
Inductive exn : Type :=
| ZeroDivisionError   (* float division by zero, [sum([]) / len([])]     *)
| OverflowError       (* int too large for a float; time.sleep: too long *)
| ValueError          (* DictWriter: unknown field; time.sleep: negative *)
| OSError.            (* open() or mkdir() refused                       *)

(** A pure computation that returns or raises. *)
Inductive res (A : Type) : Type :=
| Ok (a : A)
| Raise (e : exn).
Arguments Ok {A} a.
Arguments Raise {A} e.

Definition res_bind {A B} (r : res A) (k : A -> res B) : res B :=
  match r with
  | Ok a => k a
  | Raise e => Raise e
  end.

Declare Scope res_scope.
Delimit Scope res_scope with res.
Notation "'let?' x ':=' r 'in' k" := (res_bind r (fun x => k))
  (at level 10, x pattern, r at level 100, k at level 200) : res_scope.

(** The operations of Python's [float] the program uses. [f_of_Z] is the
    int-to-float coercion ([f_fits] tells whether CPython performs it or
    raises [OverflowError]); [f_div] is the quotient CPython computes once
    it has checked that the divisor is not zero; [f_int_div a b] is the
    float CPython gives for [a / b] on two ints, [b] not zero: the one
    nearest to the exact quotient, and [None] where that is too large
    for a float ([OverflowError]). *)
Class PyFloat (F : Type) : Type := {
  f_add  : F -> F -> F;
  f_mul  : F -> F -> F;
  f_div  : F -> F -> F;
  f_sqrt : F -> F;
  f_ltb  : F -> F -> bool;
  f_eqb  : F -> F -> bool;
  f_of_Z : Z -> F;
  f_fits : Z -> bool;
  f_int_div : Z -> Z -> option F
}.

Declare Scope pyfloat_scope.
Delimit Scope pyfloat_scope with py.
Infix "+" := f_add : pyfloat_scope.
Infix "*" := f_mul : pyfloat_scope.
Infix "<?" := f_ltb : pyfloat_scope.
Notation "x >? y" := (f_ltb y x) (only parsing) : pyfloat_scope.

Section PythonArithmetic.
Context {F : Type} `{PyFloat F}.

(** [float(n)] for a Python int [n]. *)
Definition float_of_int (n : Z) : res F :=
  if f_fits n then Ok (f_of_Z n) else Raise OverflowError.

(** [a / b] on floats: CPython raises on a zero divisor (of either sign). *)
Definition truediv (a b : F) : res F :=
  if f_eqb b (f_of_Z 0) then Raise ZeroDivisionError else Ok (f_div a b).

(** [sum(xs)]: the running total starts at the int [0] and the items
    are added from left to right. (CPython 3.12 and later carry a
    compensation term along when the items are floats, which can change
    the last bits of a binary64 result; in exact arithmetic the two
    agree.) *)
Definition py_sum (xs : list F) : F :=
  fold_left f_add xs (f_of_Z 0).
End PythonArithmetic.

(* ------------------------------------------------------------------ *)
(** * Core mathematical logic: class PowerMath                         *)
(* ------------------------------------------------------------------ *)

Module PowerMath.
Section PowerMath.
Context {F : Type} `{PyFloat F}.
Local Open Scope res_scope.

(** The attributes set by [__init__]. *)
Record t : Type := init {
  gain : F;
  ct_range : F;
  line_voltage : F;
  phases : Z
}.

(** [ONE_OVER_SQRT2 = 1 / math.sqrt(2)], evaluated once, when the class
    is created (the divisor is not zero). *)
Definition ONE_OVER_SQRT2 : F := f_div (f_of_Z 1) (f_sqrt (f_of_Z 2)).

Definition calculate (self : t) (avg_adc_voltage : F) : res (F * F) :=
  let? amplifier_voltage_in := truediv avg_adc_voltage (gain self) in
  let clamp_current := (amplifier_voltage_in * ct_range self)%py in
  let rms_current := (clamp_current * ONE_OVER_SQRT2)%py in
  let? phases_f := float_of_int (phases self) in
  let power_w := (phases_f * rms_current * line_voltage self)%py in
  Ok (rms_current, power_w).
End PowerMath.
Arguments t F : clear implicits.
End PowerMath.

(* ------------------------------------------------------------------ *)
(** * Machine state classification: class StateClassifier             *)
(* ------------------------------------------------------------------ *)

Module StateClassifier.
Section StateClassifier.
Context {F : Type} `{PyFloat F}.

Record t : Type := init {
  idle_threshold : F;
  fault_threshold : F
}.

Definition classify (self : t) (current_rms : F) : string :=
  if (current_rms <? idle_threshold self)%py then "idle"%string
  else if (current_rms >? fault_threshold self)%py then "fault"%string
  else "running"%string.
End StateClassifier.
Arguments t F : clear implicits.
End StateClassifier.

(* ------------------------------------------------------------------ *)
(** * The two readings of [float]                                      *)
(* ------------------------------------------------------------------ *)

(** binary64: an int is converted by rounding to nearest, ties to even;
    CPython raises [OverflowError] where that rounding overflows. *)
Definition float_of_Z (n : Z) : float :=
  SF2Prim (binary_normalize prec emax n 0 false).

Definition is_finite_or_nan (x : float) : bool :=
  negb (PrimFloat.is_infinity x).

(** The quotient of two ints, [b] not zero, rounded once: to nearest,
    ties to even, from the exact quotient, whatever the size of the two
    ints. A zero takes the sign of the divisor. *)
Definition int_quotient (a b : Z) : spec_float :=
  match a with
  | Z0 => S754_zero (b <? 0)
  | _ =>
      SFdiv prec emax
        (S754_finite (a <? 0) (Z.to_pos (Z.abs a)) 0)
        (S754_finite (b <? 0) (Z.to_pos (Z.abs b)) 0)
  end.

Definition int_div_binary64 (a b : Z) : option float :=
  match int_quotient a b with
  | S754_infinity _ => None
  | q => Some (SF2Prim q)
  end.

#[export] Instance PyFloat_binary64 : PyFloat float := {
  f_add := PrimFloat.add;
  f_mul := PrimFloat.mul;
  f_div := PrimFloat.div;
  f_sqrt := PrimFloat.sqrt;
  f_ltb := PrimFloat.ltb;
  f_eqb := PrimFloat.eqb;
  f_of_Z := float_of_Z;
  f_fits := fun n => is_finite_or_nan (float_of_Z n);
  f_int_div := int_div_binary64
}.

(** Exact arithmetic. *)
Definition Rltb (x y : R) : bool := if Rlt_dec x y then true else false.
Definition Reqb (x y : R) : bool := if Req_dec_T x y then true else false.

#[export] Instance PyFloat_real : PyFloat R := {
  f_add := Rplus;
  f_mul := Rmult;
  f_div := Rdiv;
  f_sqrt := R_sqrt.sqrt;
  f_ltb := Rltb;
  f_eqb := Reqb;
  f_of_Z := IZR;
  f_fits := fun _ => true;
  f_int_div := fun a b => Some (IZR a / IZR b)%R
}.

(* ------------------------------------------------------------------ *)
(** * Statements with effects                                          *)
(* ------------------------------------------------------------------ *)

(** A statement runs on a state [S] (object attributes and the outside
    world), returns or raises, and leaves a state behind in both cases:
    what was mutated before an exception stays mutated. *)
Definition M (S A : Type) : Type := S -> res A * S.

Definition ret {S A} (a : A) : M S A := fun s => (Ok a, s).

Definition bind {S A B} (m : M S A) (k : A -> M S B) : M S B :=
  fun s =>
    match m s with
    | (Ok a, s') => k a s'
    | (Raise e, s') => (Raise e, s')
    end.

Definition raise {S A} (e : exn) : M S A := fun s => (Raise e, s).
Definition lift_res {S A} (r : res A) : M S A := fun s => (r, s).
Definition gets {S A} (f : S -> A) : M S A := fun s => (Ok (f s), s).
Definition modify {S} (f : S -> S) : M S unit := fun s => (Ok tt, f s).

(** Run a statement of a component on the part of the state it owns. *)
Definition zoom {S T A} (get : S -> T) (set : T -> S -> S) (m : M T A)
  : M S A :=
  fun s => let (r, t') := m (get s) in (r, set t' s).

Declare Scope stmt_scope.
Delimit Scope stmt_scope with stmt.
Notation "x <- m ;; k" := (bind m (fun x => k))
  (at level 61, m at next level, right associativity) : stmt_scope.
Notation "m ;; k" := (bind m (fun _ => k))
  (at level 61, right associativity) : stmt_scope.

(** [for x in xs: body x]. *)
Fixpoint for_each {S A} (xs : list A) (body : A -> M S unit) : M S unit :=
  match xs with
  | [] => ret tt
  | x :: xs' => (body x ;; for_each xs' body)%stmt
  end.

(* ------------------------------------------------------------------ *)
(** * Records, the CSV file, the outside world                         *)
(* ------------------------------------------------------------------ *)

Section World.
Context {F : Type}.

(** A value held in a record or written in a CSV cell. *)
Inductive pyval : Type :=
| VStr (s : string)
| VFloat (x : F).

(** A dict with string keys, in insertion order. *)
Definition pydict : Type := list (string * pyval).

(** One line of the CSV file: its cells in column order. *)
Definition row : Type := list pyval.

(** A duration handed to [time.sleep]: an int or a float. *)
Inductive pynum : Type :=
| NInt (n : Z)
| NFloat (x : F).

Inductive banner : Type :=
| START
| INFO
| END (total_written : Z).

(** What the process does to the outside, in the order it does it. *)
Inductive event : Type :=
| Ev_readData (channel : Z) (raw : Z)   (* adc.readData(channel) -> raw *)
| Ev_sleep (seconds : pynum)             (* time.sleep(seconds)          *)
| Ev_open (path : string) (mode : string)
| Ev_print (b : banner).

(** The outside world: the files by path ([None]: no such file), whether
    the file system refuses what is asked of it ([open], and making a
    directory), how many ADC and clock readings were taken, the events
    so far (oldest first), and for a path whether the directory it lies
    in is missing (it is not when the file is there). *)
Record world : Type := mkWorld {
  fs : string -> option (list row);
  fs_denied : bool;
  adc_calls : nat;
  clock_calls : nat;
  trace : list event;
  dir_missing : string -> bool
}.

Definition emit (e : event) : M world unit :=
  modify (fun w => mkWorld (fs w) (fs_denied w) (adc_calls w)
                           (clock_calls w) (trace w ++ [e])
                           (dir_missing w)).

Definition fs_put (p : string) (content : list row) : M world unit :=
  modify (fun w =>
    mkWorld (fun q => if String.eqb q p then Some content else fs w q)
            (fs_denied w) (adc_calls w) (clock_calls w) (trace w)
            (dir_missing w)).

(** [path.parent.mkdir(parents=True, exist_ok=True)]: nothing to do when
    the directory is there, as it is when the file is; a missing
    directory is made, or [OSError] is raised when the file system
    refuses. *)
Definition mkdir_parent (p : string) : M world unit :=
  (present <- gets (fun w => match fs w p with
                             | Some _ => true
                             | None => negb (dir_missing w p)
                             end) ;;
   if present : bool then ret tt
   else
     denied <- gets fs_denied ;;
     if denied : bool then raise OSError
     else modify (fun w =>
            mkWorld (fs w) (fs_denied w) (adc_calls w) (clock_calls w)
                    (trace w)
                    (fun q => if String.eqb q p then false
                              else dir_missing w q)))%stmt.

(** [path.exists()]. *)
Definition path_exists (p : string) : M world bool :=
  gets (fun w => match fs w p with Some _ => true | None => false end).

(** [open(path, "w")]: the file is created or truncated. *)
Definition open_w (p : string) : M world unit :=
  (emit (Ev_open p "w") ;;
   denied <- gets fs_denied ;;
   if denied : bool then raise OSError else fs_put p [])%stmt.

(** [open(path, "a")]: the file is created when absent, kept otherwise. *)
Definition open_a (p : string) : M world unit :=
  (emit (Ev_open p "a") ;;
   denied <- gets fs_denied ;;
   if denied : bool then raise OSError
   else
     old <- gets (fun w => fs w p) ;;
     match old with
     | Some _ => ret tt
     | None => fs_put p []
     end)%stmt.

(** One line written through an open file. *)
Definition write_line (p : string) (r : row) : M world unit :=
  (old <- gets (fun w => fs w p) ;;
   fs_put p (match old with Some c => c | None => [] end ++ [r]))%stmt.
End World.
Arguments pyval F : clear implicits.
Arguments pydict F : clear implicits.
Arguments row F : clear implicits.
Arguments pynum F : clear implicits.
Arguments event F : clear implicits.
Arguments world F : clear implicits.

(** What the program takes from outside its own code: the value the ADC
    returns at its k-th reading, the text [isoformat] gives for the k-th
    clock reading, and the builtin [round(x, ndigits)]. *)
Record Env (F : Type) : Type := mkEnv {
  adc_readData : nat -> Z;
  utcnow_isoformat : nat -> string;
  round : F -> Z -> F
}.
Arguments mkEnv {F}.
Arguments adc_readData {F} e k.
Arguments utcnow_isoformat {F} e k.
Arguments round {F} e x ndigits.

(* ------------------------------------------------------------------ *)
(** * Configuration: class Config                                      *)
(* ------------------------------------------------------------------ *)

Module Config.
Record t (F : Type) : Type := mk {
  DEVICE_ID : string;
  MACHINE_ID : string;
  AMPLIFIER_GAIN : F;
  CT_RANGE_AMPS : F;
  LINE_VOLTAGE : F;
  PHASES : Z;
  SAMPLE_RATE_HZ : Z;
  AVERAGING_WINDOW : Z;
  SLEEP_BETWEEN_WINDOWS_S : Z;
  IDLE_THRESHOLD : F;
  FAULT_THRESHOLD : F;
  CSV_PATH : string;
  CSV_FLUSH_INTERVAL : Z;
  MAX_RECORDS : Z
}.
Arguments mk {F}.
Arguments DEVICE_ID {F} t.
Arguments MACHINE_ID {F} t.
Arguments AMPLIFIER_GAIN {F} t.
Arguments CT_RANGE_AMPS {F} t.
Arguments LINE_VOLTAGE {F} t.
Arguments PHASES {F} t.
Arguments SAMPLE_RATE_HZ {F} t.
Arguments AVERAGING_WINDOW {F} t.
Arguments SLEEP_BETWEEN_WINDOWS_S {F} t.
Arguments IDLE_THRESHOLD {F} t.
Arguments FAULT_THRESHOLD {F} t.
Arguments CSV_PATH {F} t.
Arguments CSV_FLUSH_INTERVAL {F} t.
Arguments MAX_RECORDS {F} t.
End Config.

(* ------------------------------------------------------------------ *)
(** * time.sleep                                                       *)
(* ------------------------------------------------------------------ *)

Section Time.
Context {F : Type} `{PyFloat F}.

(** The largest number of seconds whose nanoseconds fit the C type of
    a time, 64 bits with a sign: [(2 ^ 63 - 1) / 10 ^ 9]. *)
Definition max_sleep_s : Z := 9223372036.

(** What [time.sleep(d)] raises, if anything. The duration is first
    converted to nanoseconds in 64 bits: an int must lie within
    [max_sleep_s] of zero, a float times [1e9] within [2 ^ 63] of zero,
    or [OverflowError] is raised; a NaN raises [ValueError]. Then a
    negative duration raises [ValueError]; so does the float whose
    nanoseconds are [2 ^ 63] exactly, which wraps to a negative number
    in the conversion (CPython 3.11 on x86-64). *)
Definition sleep_error (d : pynum F) : option exn :=
  match d with
  | NInt n =>
      if (n <? - max_sleep_s) || (max_sleep_s <? n) then Some OverflowError
      else if n <? 0 then Some ValueError
      else None
  | NFloat x =>
      if negb (f_eqb x x) then Some ValueError
      else
        let ns := (x * f_of_Z (10 ^ 9))%py in
        if (f_of_Z (2 ^ 63) <? ns)%py || (ns <? f_of_Z (- 2 ^ 63))%py
        then Some OverflowError
        else if f_eqb ns (f_of_Z (2 ^ 63)) then Some ValueError
        else if (x <? f_of_Z 0)%py then Some ValueError
        else None
  end.

(** [time.sleep(d)]. *)
Definition time_sleep (d : pynum F) : M (world F) unit :=
  match sleep_error d with
  | Some e => raise e
  | None => emit (Ev_sleep d)
  end.
End Time.

(* ------------------------------------------------------------------ *)
(** * ADC driver: class MCP3008ADC                                     *)
(* ------------------------------------------------------------------ *)

Module MCP3008ADC.
Section MCP3008ADC.
Context {F : Type} `{PyFloat F}.
Local Open Scope res_scope.

Record t : Type := mk {
  channel : Z;
  _adc_max : Z;
  _vref : F
}.

(** The literal [3.3]: the float nearest to 33/10, which is what the
    correctly rounded quotient of the two ints is. *)
Definition lit_3_3 : F := f_div (f_of_Z 33) (f_of_Z 10).

Definition init (channel : Z) : t := mk channel (2 ^ 10 - 1) lit_3_3.

(** [a / b] on two ints: one correctly rounded quotient, not the
    quotient of the two ints converted to floats. *)
Definition int_truediv (a b : Z) : res F :=
  if b =? 0 then Raise ZeroDivisionError
  else
    match f_int_div a b with
    | Some q => Ok q
    | None => Raise OverflowError
    end.

(** [(raw / self._adc_max) * self._vref]. *)
Definition to_voltage (self : t) (raw : Z) : res F :=
  let? q := int_truediv raw (_adc_max self) in
  Ok (q * _vref self)%py.

Definition sample_voltage (env : Env F) (self : t) : M (world F) F :=
  (k <- gets adc_calls ;;
   let raw := adc_readData env k in
   modify (fun w => mkWorld (fs w) (fs_denied w) (S (adc_calls w))
                            (clock_calls w) (trace w) (dir_missing w)) ;;
   emit (Ev_readData (channel self) raw) ;;
   lift_res (to_voltage self raw))%stmt.
End MCP3008ADC.
Arguments t F : clear implicits.
End MCP3008ADC.

(* ------------------------------------------------------------------ *)
(** * CSV logger (buffered): class CSVLogger                           *)
(* ------------------------------------------------------------------ *)

Module CSVLogger.
Section CSVLogger.
Context {F : Type}.
Local Open Scope stmt_scope.

Definition HEADERS : list string :=
  ["timestamp"; "device_id"; "machine_id"; "current_rms"; "voltage";
   "power_w"; "state"]%string.

Record t : Type := mk {
  path : string;
  flush_interval : Z;
  buffer : list (pydict F);
  total_written : Z
}.

Definition self_ : Type := (t * world F)%type.

Definition on_world {A} (m : M (world F) A) : M self_ A :=
  zoom snd (fun w s => (fst s, w)) m.
Definition on_self (f : t -> t) : M self_ unit :=
  modify (fun s => (f (fst s), snd s)).

Definition mem_str (k : string) (ks : list string) : bool :=
  existsb (String.eqb k) ks.

Fixpoint dict_get (d : pydict F) (k : string) (default : pyval F)
  : pyval F :=
  match d with
  | [] => default
  | (k', v) :: d' => if String.eqb k' k then v else dict_get d' k default
  end.

(** [csv.DictWriter._dict_to_list] with the defaults
    [extrasaction="raise"], [restval=""]: a key outside the field names
    raises [ValueError]; a missing field is written empty. *)
Definition _dict_to_list (fieldnames : list string) (rowdict : pydict F)
  : res (row F) :=
  if existsb (fun kv => negb (mem_str (fst kv) fieldnames)) rowdict
  then Raise ValueError
  else Ok (map (fun key => dict_get rowdict key (VStr "")) fieldnames).

(** [csv.DictWriter.writerows]: the rows are converted and written one
    after the other, so the lines before a refused row are in the file. *)
Definition writerows (p : string) (fieldnames : list string)
           (rowdicts : list (pydict F)) : M (world F) unit :=
  for_each rowdicts (fun d =>
    r <- lift_res (_dict_to_list fieldnames d) ;;
    write_line p r).

(** [csv.DictWriter.writeheader]. *)
Definition writeheader (p : string) (fieldnames : list string)
  : M (world F) unit :=
  write_line p (map VStr fieldnames).

Definition _write_headers (self : t) : M (world F) unit :=
  open_w (path self) ;;
  writeheader (path self) HEADERS.

(** [CSVLogger(path, flush_interval)]. *)
Definition init (path : string) (flush_interval : Z) : M (world F) t :=
  let self := mk path flush_interval [] 0 in
  mkdir_parent path ;;
  ex <- path_exists path ;;
  if negb ex then (_write_headers self ;; ret self) else ret self.

Definition flush : M self_ unit :=
  self <- gets fst ;;
  match buffer self with
  | [] => ret tt
  | _ :: _ =>
      on_world (open_a (path self) ;;
                writerows (path self) HEADERS (buffer self)) ;;
      on_self (fun l => mk (path l) (flush_interval l) (buffer l)
                 (total_written l + Z.of_nat (List.length (buffer l)))) ;;
      on_self (fun l => mk (path l) (flush_interval l) []
                 (total_written l))
  end.

Definition log (record : pydict F) : M self_ unit :=
  on_self (fun l => mk (path l) (flush_interval l)
             (buffer l ++ [record]) (total_written l)) ;;
  self <- gets fst ;;
  if Z.of_nat (List.length (buffer self)) >=? flush_interval self
  then flush
  else ret tt.
End CSVLogger.
Arguments t F : clear implicits.
Arguments self_ F : clear implicits.
End CSVLogger.

(* ------------------------------------------------------------------ *)
(** * Collector loop: class Collector                                  *)
(* ------------------------------------------------------------------ *)

Module Collector.
Section Collector.
Context {F : Type} `{PyFloat F}.
Variable env : Env F.
Local Open Scope stmt_scope.

Record t : Type := mk {
  cfg : Config.t F;
  adc : MCP3008ADC.t F;
  math : PowerMath.t F;
  classifier : StateClassifier.t F;
  logger : CSVLogger.t F;
  record_count : Z
}.

Definition self_ : Type := (t * world F)%type.

Definition on_world {A} (m : M (world F) A) : M self_ A :=
  zoom snd (fun w s => (fst s, w)) m.

Definition on_logger {A} (m : M (CSVLogger.self_ F) A) : M self_ A :=
  zoom (fun s => (logger (fst s), snd s))
       (fun lw s =>
          let c := fst s in
          (mk (cfg c) (adc c) (math c) (classifier c) (fst lw)
              (record_count c), snd lw))
       m.

(** [Collector(cfg)]. *)
Definition init (cfg : Config.t F) : M (world F) t :=
  let adc := MCP3008ADC.init 0 in
  let math := PowerMath.init (Config.AMPLIFIER_GAIN cfg)
                (Config.CT_RANGE_AMPS cfg) (Config.LINE_VOLTAGE cfg)
                (Config.PHASES cfg) in
  let classifier := StateClassifier.init (Config.IDLE_THRESHOLD cfg)
                      (Config.FAULT_THRESHOLD cfg) in
  logger <- CSVLogger.init (Config.CSV_PATH cfg)
              (Config.CSV_FLUSH_INTERVAL cfg) ;;
  ret (mk cfg adc math classifier logger 0).

(** [x / n] for a float [x] and an int [n]: [n] is converted first. *)
Definition truediv_int (x : F) (n : Z) : res F :=
  (let? y := float_of_int n in truediv x y)%res.

(** The body of [for _ in range(AVERAGING_WINDOW)], [n] rounds to go. *)
Fixpoint sample_loop (self : t) (interval : F) (n : nat)
         (samples : list F) : M (world F) (list F) :=
  match n with
  | O => ret samples
  | S n' =>
      v <- MCP3008ADC.sample_voltage env (adc self) ;;
      let samples := samples ++ [v] in
      time_sleep (NFloat interval) ;;
      sample_loop self interval n' samples
  end.

Definition sample_window (self : t) : M (world F) F :=
  interval <- lift_res
    (truediv_int (f_of_Z 1) (Config.SAMPLE_RATE_HZ (cfg self))) ;;
  samples <- sample_loop self interval
    (Z.to_nat (Config.AVERAGING_WINDOW (cfg self))) [] ;;
  lift_res (truediv_int (py_sum samples) (Z.of_nat (List.length samples))).

(** [datetime.utcnow().isoformat(timespec="milliseconds") + "Z"]. *)
Definition utc_timestamp : M (world F) string :=
  k <- gets clock_calls ;;
  modify (fun w => mkWorld (fs w) (fs_denied w) (adc_calls w)
                           (S (clock_calls w)) (trace w)
                           (dir_missing w)) ;;
  ret (utcnow_isoformat env k ++ "Z")%string.

(** Lines 190-203: one pass of the loop body up to the counter. *)
Definition cycle : M self_ unit :=
  self <- gets fst ;;
  avg_v <- on_world (sample_window self) ;;
  cp <- lift_res (PowerMath.calculate (math self) avg_v) ;;
  let (current_rms, power_w) := cp : F * F in
  let state := StateClassifier.classify (classifier self) current_rms in
  timestamp <- on_world utc_timestamp ;;
  let record : pydict F :=
    [("timestamp", VStr timestamp);
     ("device_id", VStr (Config.DEVICE_ID (cfg self)));
     ("machine_id", VStr (Config.MACHINE_ID (cfg self)));
     ("current_rms", VFloat (round env current_rms 4));
     ("voltage", VFloat (round env (Config.LINE_VOLTAGE (cfg self)) 1));
     ("power_w", VFloat (round env power_w 2));
     ("state", VStr state)]%string in
  on_logger (CSVLogger.log record) ;;
  modify (fun s =>
    let c := fst s in
    (mk (cfg c) (adc c) (math c) (classifier c) (logger c)
        (record_count c + 1), snd s)).

(** [while True: ...]: [Some tt] when the loop is left by [break],
    [None] when [fuel] passes were made and it is still running. *)
Fixpoint loop (fuel : nat) : M self_ (option unit) :=
  match fuel with
  | O => ret None
  | S fuel' =>
      cycle ;;
      self <- gets fst ;;
      let max_records := Config.MAX_RECORDS (cfg self) in
      if negb (max_records =? 0) && (record_count self >=? max_records)
      then ret (Some tt)
      else
        (let pause := Config.SLEEP_BETWEEN_WINDOWS_S (cfg self) in
         if pause >? 0 then on_world (time_sleep (NInt pause))
         else ret tt) ;;
        loop fuel'
  end.

Definition run (fuel : nat) : M self_ (option unit) :=
  on_world (emit (Ev_print START)) ;;
  on_world (emit (Ev_print INFO)) ;;
  left <- loop fuel ;;
  match left with
  | None => ret None
  | Some _ =>
      on_logger CSVLogger.flush ;;
      self <- gets fst ;;
      on_world (emit (Ev_print (END (CSVLogger.total_written (logger self))))) ;;
      ret (Some tt)
  end.

(** [main()], from a given world. *)
Definition main (cfg : Config.t F) (fuel : nat)
  : M (world F) (option unit) :=
  self <- init cfg ;;
  fun w => let (r, s) := run fuel (self, w) in (r, snd s).
End Collector.
Arguments t F : clear implicits.
Arguments self_ F : clear implicits.
End Collector.

(* ------------------------------------------------------------------ *)
(** * Concrete configurations and worlds                               *)
(* ------------------------------------------------------------------ *)

(** The class attributes of [Config] as they stand in the source. *)
Definition source_config : Config.t float :=
  Config.mk "pi-001" "machine-A"
    100%float 50%float 230%float 3
    50 20 0
    0.5%float 100%float
    "/home/pi/power_monitoring/readings.csv" 10
    0.

(** A world with no file and no directory, where nothing is refused
    and nothing has run. *)
Definition empty_world {F} : world F :=
  mkWorld (fun _ => None) false 0 0 [] (fun _ => true).

(** [n / d] rounded to an integer, a tie going to the even one
    ([n] not negative, [d] positive). *)
Definition half_even (n d : Z) : Z :=
  let q := n / d in
  match 2 * (n mod d) ?= d with
  | Lt => q
  | Gt => q + 1
  | Eq => if Z.even q then q else q + 1
  end.

(** The builtin [round(x, ndigits)] on a binary64 float: the exact
    value of [x] is rounded to [ndigits] decimals, a tie going to the
    even digit, and the decimal number so found is converted to the
    nearest float. A NaN, an infinity and a zero are returned as they
    are, and so is [x] when [ndigits] is above 323. (With a negative
    [ndigits] the result can be too large for a float, where CPython
    raises; the program rounds to 4, 1 and 2 decimals.) *)
Definition py_round (x : float) (ndigits : Z) : float :=
  match Prim2SF x with
  | S754_finite s m e =>
      if 323 <? ndigits then x
      else if ndigits <? -308 then SF2Prim (S754_zero s)
      else
        let k := half_even
                   (Z.pos m * 2 ^ Z.max e 0 * 10 ^ Z.max ndigits 0)
                   (2 ^ Z.max (- e) 0 * 10 ^ Z.max (- ndigits) 0) in
        match k with
        | Z0 => SF2Prim (S754_zero s)
        | _ =>
            SF2Prim
              (int_quotient
                 ((if s then -1 else 1) * k * 10 ^ Z.max (- ndigits) 0)
                 (10 ^ Z.max ndigits 0))
        end
  | _ => x
  end.

(** A stub environment: the ADC always reads 310 (1.0 V at a 3.3 V
    reference), the clock reading [k] prints as a text that grows with
    [k], and [round] is the builtin. *)
Definition stub_env : Env float :=
  mkEnv (fun _ => 310)
        (fun k => String.concat "" (repeat "I" k) ++ "ms")%string
        py_round.

(* ------------------------------------------------------------------ *)
(** * What is observed of a run                                        *)
(* ------------------------------------------------------------------ *)

Section Observations.
Context {F : Type}.

(** The lines of the file at [p] (none when there is no file). *)
Definition file_at (w : world F) (p : string) : list (row F) :=
  match fs w p with
  | Some c => c
  | None => []
  end.

Definition is_open (p mode : string) (e : event F) : bool :=
  match e with
  | Ev_open q m => String.eqb q p && String.eqb m mode
  | _ => false
  end.

(** How many times [p] was opened in [mode] along a trace. *)
Definition opens (p mode : string) (tr : list (event F)) : nat :=
  List.length (filter (is_open p mode) tr).

Definition header_row : row F := map VStr CSVLogger.HEADERS.

(** A record the DictWriter accepts: no key outside the field names. *)
Definition accepted (d : pydict F) : bool :=
  negb (existsb
          (fun kv => negb (CSVLogger.mem_str (fst kv) CSVLogger.HEADERS))
          d).

(** The line written for an accepted record. *)
Definition to_row (d : pydict F) : row F :=
  map (fun key => CSVLogger.dict_get d key (VStr "")) CSVLogger.HEADERS.

(** The lines [writerows] gets into the file: those of the records
    before the first one it refuses. *)
Fixpoint written_prefix (ds : list (pydict F)) : list (row F) :=
  match ds with
  | [] => []
  | d :: ds' => if accepted d then to_row d :: written_prefix ds' else []
  end.

(** [for r in records: logger.log(r)]. *)
Definition log_all (records : list (pydict F))
  : M (CSVLogger.self_ F) unit :=
  for_each records CSVLogger.log.

(** A call made on a logger. *)
Inductive call : Type :=
| Log (record : pydict F)
| Flush.

Definition do_call (c : call) : M (CSVLogger.self_ F) unit :=
  match c with
  | Log r => CSVLogger.log r
  | Flush => CSVLogger.flush
  end.

(** The records handed to [log] among the calls [cs], in order. *)
Fixpoint records_of (cs : list call) : list (pydict F) :=
  match cs with
  | [] => []
  | Log r :: cs' => r :: records_of cs'
  | Flush :: cs' => records_of cs'
  end.

(** One life of a process: the logger is opened on [p], then the calls
    are made in order, up to the first that raises. Only the world
    outlives the process. *)
Definition session (p : string) (s : Z * list call) (w : world F)
  : world F :=
  match CSVLogger.init p (fst s) w with
  | (Ok self, w1) => snd (snd (for_each (snd s) do_call (self, w1)))
  | (Raise _, w1) => w1
  end.

(** The store reopened once per element of [ss]. *)
Definition sessions (p : string) (ss : list (Z * list call))
           (w : world F) : world F :=
  fold_left (fun w s => session p s w) ss w.
End Observations.

(** [w'] differs from [w] at most in the file at [p] and in the trace. *)
Definition frame {F : Type} (p : string) (w w' : world F) : Prop :=
  fs_denied w' = fs_denied w
  /\ adc_calls w' = adc_calls w
  /\ clock_calls w' = clock_calls w
  /\ forall q, q <> p -> fs w' q = fs w q.

(** What a store that exists keeps through the calls on a logger: its
    lines, in place, with what is appended after them; and no call
    opens it for writing from the start. *)
Definition extends {F : Type} (p : string) (w w' : world F) : Prop :=
  frame p w w'
  /\ opens p "w" (trace w') = opens p "w" (trace w)
  /\ forall c, fs w p = Some c -> exists extra, fs w' p = Some (c ++ extra).

(** The logger once its whole buffer has been written. *)
Definition flushed {F : Type} (l : CSVLogger.t F) : CSVLogger.t F :=
  CSVLogger.mk (CSVLogger.path l) (CSVLogger.flush_interval l) []
    (CSVLogger.total_written l + Z.of_nat (List.length (CSVLogger.buffer l))).

(** The logger with one more record in its buffer. *)
Definition appended {F : Type} (l : CSVLogger.t F) (r : pydict F)
  : CSVLogger.t F :=
  CSVLogger.mk (CSVLogger.path l) (CSVLogger.flush_interval l)
    (CSVLogger.buffer l ++ [r]) (CSVLogger.total_written l).

(** Two records for the examples: one with known fields only, one with a
    field the header does not have. *)
Definition record_ok : pydict float :=
  [("timestamp", VStr "t0"); ("state", VStr "idle")]%string.
Definition record_extra : pydict float :=
  [("timestamp", VStr "t1"); ("note", VStr "x")]%string.

(** A world whose file at "readings.csv" holds the header line only. *)
Definition header_only_world : world float :=
  mkWorld (fun q => if String.eqb q "readings.csv"
                    then Some [header_row] else None)
          false 0 0 [] (fun _ => false).

(* ------------------------------------------------------------------ *)
(** * Conditions under which a cycle raises nothing                    *)
(* ------------------------------------------------------------------ *)

Section Conditions.
Context {F : Type} `{PyFloat F}.

(** The sampling of a window goes through: [1.0 / SAMPLE_RATE_HZ] is
    computed, to [interval], which [time.sleep] accepts; every ADC
    reading converts to a voltage, [volt k] for the k-th; the window has
    a sample at least, and its length converts to a float, [len], that
    is not zero. *)
Record sampling_ok (env : Env F) (adc : MCP3008ADC.t F) (cfg : Config.t F)
       (interval : F) (volt : nat -> F) (len : F) : Prop := {
  so_interval :
    Collector.truediv_int (f_of_Z 1) (Config.SAMPLE_RATE_HZ cfg)
    = Ok interval;
  so_sleep : sleep_error (NFloat interval) = None;
  so_volt :
    forall k, MCP3008ADC.to_voltage adc (adc_readData env k) = Ok (volt k);
  so_window : 1 <= Config.AVERAGING_WINDOW cfg;
  so_len : float_of_int (Config.AVERAGING_WINDOW cfg) = Ok len;
  so_len_nz : f_eqb len (f_of_Z 0) = false
}.

(** The transform goes through: the gain is not zero and the phase
    count converts to a float. *)
Record transform_ok (cfg : Config.t F) : Prop := {
  to_gain : f_eqb (Config.AMPLIFIER_GAIN cfg) (f_of_Z 0) = false;
  to_phases : f_fits (Config.PHASES cfg) = true
}.

(** The events of one window of [n] samples that starts at the [k0]-th
    reading of the ADC: each reading, then the sleep that follows it. *)
Definition window_events (env : Env F) (adc : MCP3008ADC.t F)
           (interval : F) (k0 n : nat) : list (event F) :=
  flat_map (fun k => [Ev_readData (MCP3008ADC.channel adc)
                                  (adc_readData env k);
                      Ev_sleep (NFloat interval)])
           (seq k0 n).

(** The world after one more reading of the clock. *)
Definition ticked (w : world F) : world F :=
  mkWorld (fs w) (fs_denied w) (adc_calls w) (S (clock_calls w)) (trace w)
          (dir_missing w).

(** The world after [n] more samples were taken and [evs] happened. *)
Definition sampled (w : world F) (n : nat) (evs : list (event F))
  : world F :=
  mkWorld (fs w) (fs_denied w) (adc_calls w + n) (clock_calls w)
          (trace w ++ evs) (dir_missing w).
End Conditions.

(** The collector built from [cfg], with [l] as its logger and [k] as
    its record counter. *)
Definition collector_of {F : Type} `{PyFloat F} (cfg : Config.t F)
           (l : CSVLogger.t F) (k : Z) : Collector.t F :=
  Collector.mk cfg (MCP3008ADC.init 0)
    (PowerMath.init (Config.AMPLIFIER_GAIN cfg) (Config.CT_RANGE_AMPS cfg)
       (Config.LINE_VOLTAGE cfg) (Config.PHASES cfg))
    (StateClassifier.init (Config.IDLE_THRESHOLD cfg)
       (Config.FAULT_THRESHOLD cfg))
    l k.

(** The state of a collector that has completed [k] cycles without an
    exception, over a store that held [base] when it started: every
    record made so far is in the file or in the buffer, and the two
    counters agree with that. *)
Definition after_cycles {F : Type} `{PyFloat F} (cfg : Config.t F)
           (base : list (row F)) (a0 : nat) (k : nat)
           (s : Collector.self_ F) : Prop :=
  exists (l : CSVLogger.t F) (rows : list (row F)),
    fst s = collector_of cfg l (Z.of_nat k)
    /\ CSVLogger.path l = Config.CSV_PATH cfg
    /\ forallb accepted (CSVLogger.buffer l) = true
    /\ CSVLogger.total_written l
       + Z.of_nat (List.length (CSVLogger.buffer l)) = Z.of_nat k
    /\ fs_denied (snd s) = false
    /\ adc_calls (snd s)
       = (a0 + k * Z.to_nat (Config.AVERAGING_WINDOW cfg))%nat
    /\ List.length rows = k
    /\ file_at (snd s) (Config.CSV_PATH cfg)
       ++ map to_row (CSVLogger.buffer l)
       = base ++ rows.

(** The scenario of the specification: at most 3 records, windows of
    one sample, the rest as in the source. *)
Definition scenario_config : Config.t float :=
  Config.mk "pi-001" "machine-A" 100%float 50%float 230%float 3
            50 1 0
            0.5%float 100%float
            "readings.csv" 10
            3.

(** A configuration whose fault threshold is below its idle threshold;
    one record at most, windows of one sample. *)
Definition inverted_config : Config.t float :=
  Config.mk "pi-001" "machine-A" 100%float 50%float 230%float 3
            50 1 0
            0.5%float 0.1%float
            "readings.csv" 10
            1.

(* ------------------------------------------------------------------ *)
(** * Further notions used in the properties                           *)
(* ------------------------------------------------------------------ *)

(** The readings a 10-bit converter can return. *)
Definition ten_bit_readings : list Z := map Z.of_nat (seq 0 1024).

(** The voltage of a reading lies between 0 and the 3.3 V reference
    (binary64). *)
Definition voltage_in_range (raw : Z) : bool :=
  match MCP3008ADC.to_voltage (MCP3008ADC.init 0) raw with
  | Ok v => PrimFloat.leb 0 v && PrimFloat.leb v 3.3
  | Raise _ => false
  end.

(** The voltages of the 10-bit readings, in the order of the readings. *)
Definition ten_bit_voltages : list (res float) :=
  map (MCP3008ADC.to_voltage (MCP3008ADC.init 0)) ten_bit_readings.

Definition res_ltb (a b : res float) : bool :=
  match a, b with
  | Ok x, Ok y => PrimFloat.ltb x y
  | _, _ => false
  end.

(** Every element is below all the elements after it. *)
Fixpoint all_increasing (l : list (res float)) : bool :=
  match l with
  | [] => true
  | x :: l' => forallb (res_ltb x) l' && all_increasing l'
  end.

(** The order of the state labels: idle, running, fault. *)
Definition label_rank (label : string) : nat :=
  if String.eqb label "idle" then 0
  else if String.eqb label "running" then 1
  else 2.

(** The laws of comparison the statements below rely on. They hold of
    exact arithmetic and of binary64 alike (where [-0.0 == 0.0], and a
    NaN is neither below, above nor equal to anything). *)
Class PyFloatLaws (F : Type) `{PyFloat F} : Prop := {
  f_eqb_ltb_l : forall x y z, f_eqb x y = true -> f_ltb x z = f_ltb y z;
  f_eqb_ltb_r : forall x y z, f_eqb x y = true -> f_ltb z x = f_ltb z y;
  f_ltb_irrefl : forall x, f_ltb x x = false;
  f_ltb_asym : forall x y, f_ltb x y = true -> f_ltb y x = false;
  f_fits_0 : f_fits 0 = true;
  f_zero_eqb : f_eqb (f_of_Z 0) (f_of_Z 0) = true
}.

(** [n] calls of [flush] in a row, each on the state the one before
    left, whether it raised or not. *)
Definition flush_again {F : Type} (n : nat) (s : CSVLogger.self_ F)
  : CSVLogger.self_ F :=
  Nat.iter n (fun s => snd (CSVLogger.flush s)) s.

(** A world with no file and no directory, where everything is
    refused. *)
Definition locked_world : world float :=
  mkWorld (fun _ => None) true 0 0 [] (fun _ => true).

(** A world with no file, where the directories are there and [open]
    is refused. *)
Definition locked_store_world : world float :=
  mkWorld (fun _ => None) true 0 0 [] (fun _ => false).

(** An environment whose ADC reads 0, 310, 620, 930, 0, 310 and so
    on, and the voltages of these readings. *)
Definition ramp_env : Env float :=
  mkEnv (fun k => 310 * Z.of_nat (k mod 4))
        (fun k => String.concat "" (repeat "I" k) ++ "ms")%string
        py_round.

Definition ramp_volt (k : nat) : float :=
  nth (k mod 4) [0; 1; 2; 2.9999999999999996]%float 0%float.

(** The scenario with windows of four samples. *)
Definition ramp_config : Config.t float :=
  Config.mk "pi-001" "machine-A" 100%float 50%float 230%float 3
            50 4 0
            0.5%float 100%float
            "readings.csv" 10
            3.

(** The scenario with a sample rate of -50. *)
Definition negative_rate_config : Config.t float :=
  Config.mk "pi-001" "machine-A" 100%float 50%float 230%float 3
            (-50) 1 0
            0.5%float 100%float
            "readings.csv" 10
            3.

(** The scenario with a gain of zero. *)
Definition zero_gain_config : Config.t float :=
  Config.mk "pi-001" "machine-A" 0%float 50%float 230%float 3
            50 1 0
            0.5%float 100%float
            "readings.csv" 10
            3.

(** The scenario with a negative maximum, windows of two samples and a
    pause of one second. *)
Definition negative_max_config : Config.t float :=
  Config.mk "pi-001" "machine-A" 100%float 50%float 230%float 3
            50 2 1
            0.5%float 100%float
            "readings.csv" 10
            (-5).

(** The scenario with windows of two samples, a pause of one second and
    a flush at every second record. *)
Definition paused_config : Config.t float :=
  Config.mk "pi-001" "machine-A" 100%float 50%float 230%float 3
            50 2 1
            0.5%float 100%float
            "readings.csv" 2
            3.

(** The scenario with a flush at every record. *)
Definition eager_config : Config.t float :=
  Config.mk "pi-001" "machine-A" 100%float 50%float 230%float 3
            50 1 0
            0.5%float 100%float
            "readings.csv" 1
            3.

(** A world whose file at "readings.csv" holds the header line only and
    where [open] is refused. *)
Definition readonly_world : world float :=
  mkWorld (fun q => if String.eqb q "readings.csv"
                    then Some [header_row] else None)
          true 0 0 [] (fun _ => false).

Section CycleRecords.
Context {F : Type} `{PyFloat F}.

(** The record a cycle builds from the mean [avg_v] of its window, when
    the clock is read for the [stamp]-th time. *)
Definition record_of (env : Env F) (cfg : Config.t F) (avg_v : F)
           (stamp : nat) : pydict F :=
  match PowerMath.calculate
          (PowerMath.init (Config.AMPLIFIER_GAIN cfg)
             (Config.CT_RANGE_AMPS cfg) (Config.LINE_VOLTAGE cfg)
             (Config.PHASES cfg)) avg_v with
  | Ok (current_rms, power_w) =>
      [("timestamp", VStr (utcnow_isoformat env stamp ++ "Z"));
       ("device_id", VStr (Config.DEVICE_ID cfg));
       ("machine_id", VStr (Config.MACHINE_ID cfg));
       ("current_rms", VFloat (round env current_rms 4));
       ("voltage", VFloat (round env (Config.LINE_VOLTAGE cfg) 1));
       ("power_w", VFloat (round env power_w 2));
       ("state",
        VStr (StateClassifier.classify
                (StateClassifier.init (Config.IDLE_THRESHOLD cfg)
                   (Config.FAULT_THRESHOLD cfg)) current_rms))]%string
  | Raise _ => []
  end.

(** The mean of the [n] voltages from the [a]-th reading on, as it is
    computed: the voltages are added one by one, from the left,
    starting from zero, and the total is divided by [len]. *)
Definition window_mean (volt : nat -> F) (len : F) (a n : nat) : F :=
  f_div (fold_left f_add (map volt (seq a n)) (f_of_Z 0)) len.

(** The records of the first [k] cycles of a run that starts at the
    [a0]-th reading of the ADC and the [c0]-th reading of the clock:
    cycle [i] has the readings [a0 + i * W] to [a0 + i * W + W - 1] and
    the clock reading [c0 + i]. *)
Definition cycle_records (env : Env F) (cfg : Config.t F)
           (volt : nat -> F) (len : F) (a0 c0 k : nat)
  : list (pydict F) :=
  map (fun i =>
         record_of env cfg
           (window_mean volt len
              (a0 + i * Z.to_nat (Config.AVERAGING_WINDOW cfg))
              (Z.to_nat (Config.AVERAGING_WINDOW cfg)))
           (c0 + i))
      (seq 0 k).

(** The pauses between windows: the sleeps for an int duration. *)
Definition is_pause (e : event F) : bool :=
  match e with
  | Ev_sleep (NInt _) => true
  | _ => false
  end.

Definition pauses (tr : list (event F)) : nat :=
  List.length (filter is_pause tr).

(** The state after [k] cycles, in full: besides [after_cycles], the
    clock was read [k] times, the store and the buffer hold the records
    of the cycles in order, and [pz] pauses were made. *)
Definition after_cycles_exact (env : Env F) (cfg : Config.t F)
           (volt : nat -> F) (len : F) (base : list (row F))
           (a0 c0 : nat) (k pz : nat) (s : Collector.self_ F) : Prop :=
  after_cycles cfg base a0 k s
  /\ clock_calls (snd s) = (c0 + k)%nat
  /\ file_at (snd s) (Config.CSV_PATH cfg)
     ++ map to_row (CSVLogger.buffer (Collector.logger (fst s)))
     = base ++ map to_row (cycle_records env cfg volt len a0 c0 k)
  /\ pauses (trace (snd s)) = pz.

(** The number of records at which the loop is left: MAX_RECORDS when
    it is positive, 1 when it is negative (the test of line 205 holds
    after the first record). *)
Definition stop_count (cfg : Config.t F) : nat :=
  Z.to_nat (Z.max 1 (Config.MAX_RECORDS cfg)).
End CycleRecords.

(** The transform as the specification writes it:
    [amplifier_voltage_in = v_avg / gain],
    [clamp_current = amplifier_voltage_in * ct_range],
    [rms_current = clamp_current / sqrt(2)],
    [power_w = phases * rms_current * line_voltage]. *)
Definition SignalTransform {F : Type} `{PyFloat F} (pm : PowerMath.t F)
           (v_avg : F) : F * F :=
  let amplifier_voltage_in := f_div v_avg (PowerMath.gain pm) in
  let clamp_current := (amplifier_voltage_in * PowerMath.ct_range pm)%py in
  let rms_current := f_div clamp_current (f_sqrt (f_of_Z 2)) in
  let power_w :=
    (f_of_Z (PowerMath.phases pm) * rms_current
     * PowerMath.line_voltage pm)%py in
  (rms_current, power_w).

(** The transform with the constants of the source. *)
Definition source_math : PowerMath.t float :=
  PowerMath.init (Config.AMPLIFIER_GAIN source_config)
    (Config.CT_RANGE_AMPS source_config)
    (Config.LINE_VOLTAGE source_config) (Config.PHASES source_config).

(** A reading of the converter, converted and transformed. *)
Definition reading_transform (raw : Z) : res (float * float) :=
  (let? v := MCP3008ADC.to_voltage (MCP3008ADC.init 0) raw in
   PowerMath.calculate source_math v)%res.

Definition ten_bit_currents : list (res float) :=
  map (fun raw => (let? cp := reading_transform raw in Ok (fst cp))%res)
      ten_bit_readings.

Definition ten_bit_powers : list (res float) :=
  map (fun raw => (let? cp := reading_transform raw in Ok (snd cp))%res)
      ten_bit_readings.

(** Two floats that are equal or next to each other. *)
Definition last_place (x y : float) : bool :=
  PrimFloat.eqb x y || PrimFloat.eqb (next_up x) y
  || PrimFloat.eqb (next_down x) y.

(** For a reading: the current the code computes is the one the
    formula of the specification gives, to the last place. *)
Definition current_last_place (raw : Z) : bool :=
  match MCP3008ADC.to_voltage (MCP3008ADC.init 0) raw with
  | Ok v =>
      match PowerMath.calculate source_math v with
      | Ok (rms_current, _) =>
          last_place rms_current (fst (SignalTransform source_math v))
      | Raise _ => false
      end
  | Raise _ => false
  end.

(** Comparison is a strict order on the values that are not NaN (those
    equal to themselves): transitive, and any two are comparable. *)
Class PyFloatOrder (F : Type) `{PyFloatLaws F} : Prop := {
  f_ltb_trans :
    forall x y z, f_ltb x y = true -> f_ltb y z = true -> f_ltb x z = true;
  f_total :
    forall x y, f_eqb x x = true -> f_eqb y y = true ->
                f_ltb x y = true \/ f_eqb x y = true \/ f_ltb y x = true;
  f_ltb_not_nan :
    forall x y, f_ltb x y = true -> f_eqb x x = true /\ f_eqb y y = true
}.

(* ================================================================== *)
(** * Properties                                                       *)
(* ================================================================== *)

(* ------------------------------------------------------------------ *)
(** ** Comparison in binary64 and in exact arithmetic                  *)
(* ------------------------------------------------------------------ *)

Lemma SFcompare_finite_eq sx mx ex sy my ey :
  SFcompare (S754_finite sx mx ex) (S754_finite sy my ey) = Some Eq ->
  S754_finite sx mx ex = S754_finite sy my ey.
Proof.
  simpl. change (Pos.compare_cont Eq mx my) with (Pos.compare mx my).
  destruct sx, sy; try discriminate;
    destruct (Z.compare_spec ex ey); try discriminate;
    destruct (Pos.compare_spec mx my); try discriminate;
    subst; reflexivity.
Qed.

Lemma SFcompare_eq_l (x y z : spec_float) :
  SFcompare x y = Some Eq -> SFcompare x z = SFcompare y z.
Proof.
  destruct x as [sx|sx| |sx mx ex], y as [sy|sy| |sy my ey]; intros Hc;
    try (rewrite (SFcompare_finite_eq _ _ _ _ _ _ Hc); reflexivity);
    simpl in Hc; try discriminate Hc;
    repeat match goal with s : bool |- _ => destruct s end;
    try discriminate Hc; reflexivity.
Qed.

Lemma SFcompare_eq_r (x y z : spec_float) :
  SFcompare x y = Some Eq -> SFcompare z x = SFcompare z y.
Proof.
  destruct x as [sx|sx| |sx mx ex], y as [sy|sy| |sy my ey]; intros Hc;
    try (rewrite (SFcompare_finite_eq _ _ _ _ _ _ Hc); reflexivity);
    simpl in Hc; try discriminate Hc;
    repeat match goal with s : bool |- _ => destruct s end;
    try discriminate Hc; reflexivity.
Qed.

Lemma SFltb_irrefl (x : spec_float) : SFltb x x = false.
Proof.
  unfold SFltb.
  destruct x as [s|s| |s m e]; simpl; try reflexivity.
  - destruct s; reflexivity.
  - rewrite Z.compare_refl.
    change (Pos.compare_cont Eq m m) with (Pos.compare m m).
    rewrite Pos.compare_refl. destruct s; reflexivity.
Qed.

Lemma SFltb_asym (x y : spec_float) :
  SFltb x y = true -> SFltb y x = false.
Proof.
  unfold SFltb.
  destruct x as [sx|sx| |sx mx ex], y as [sy|sy| |sy my ey]; simpl;
    try discriminate; try reflexivity;
    try (destruct sx; try discriminate; reflexivity);
    try (destruct sy; try discriminate; reflexivity);
    try (destruct sx, sy; try discriminate; reflexivity).
  change (Pos.compare_cont Eq mx my) with (Pos.compare mx my).
  change (Pos.compare_cont Eq my mx) with (Pos.compare my mx).
  rewrite (Z.compare_antisym ex ey), (Pos.compare_antisym mx my).
  destruct sx, sy; try discriminate; try reflexivity;
    destruct (ex ?= ey); simpl; try discriminate; try reflexivity;
    destruct (mx ?= my)%positive; simpl; try discriminate; reflexivity.
Qed.

Lemma SFeqb_Some_Eq (x y : spec_float) :
  SFeqb x y = true -> SFcompare x y = Some Eq.
Proof.
  unfold SFeqb. destruct (SFcompare x y) as [[]|]; try discriminate.
  reflexivity.
Qed.

#[export] Instance PyFloatLaws_binary64 : PyFloatLaws float.
Proof.
  constructor; simpl.
  - intros x y z Hxy. rewrite eqb_spec in Hxy.
    rewrite !ltb_spec. unfold SFltb.
    now rewrite (SFcompare_eq_l _ _ _ (SFeqb_Some_Eq _ _ Hxy)).
  - intros x y z Hxy. rewrite eqb_spec in Hxy.
    rewrite !ltb_spec. unfold SFltb.
    now rewrite (SFcompare_eq_r _ _ _ (SFeqb_Some_Eq _ _ Hxy)).
  - intros x. rewrite ltb_spec. apply SFltb_irrefl.
  - intros x y. rewrite !ltb_spec. apply SFltb_asym.
  - reflexivity.
  - reflexivity.
Qed.

Lemma Rltb_true (x y : R) : Rltb x y = true <-> (x < y)%R.
Proof. unfold Rltb. destruct (Rlt_dec x y); split; auto; discriminate. Qed.

Lemma Rltb_false (x y : R) : Rltb x y = false <-> (y <= x)%R.
Proof.
  unfold Rltb. destruct (Rlt_dec x y); split; intros; try lra; auto.
Qed.

Lemma Reqb_true (x y : R) : Reqb x y = true <-> x = y.
Proof. unfold Reqb. destruct (Req_dec_T x y); split; auto; discriminate. Qed.

Lemma Reqb_false (x y : R) : Reqb x y = false <-> x <> y.
Proof.
  unfold Reqb. destruct (Req_dec_T x y); split; auto; try discriminate.
  intros Hn. contradiction.
Qed.

#[export] Instance PyFloatLaws_real : PyFloatLaws R.
Proof.
  constructor; simpl.
  - intros x y z Hxy. apply Reqb_true in Hxy. now subst.
  - intros x y z Hxy. apply Reqb_true in Hxy. now subst.
  - intros x. apply Rltb_false. lra.
  - intros x y Hxy. apply Rltb_true in Hxy. apply Rltb_false. lra.
  - reflexivity.
  - apply Reqb_true. reflexivity.
Qed.

(* ------------------------------------------------------------------ *)
(** ** PowerMath.calculate                                             *)
(* ------------------------------------------------------------------ *)

(** In each of the three ways [calculate] can end, for any float
    semantics: a zero gain raises first, then a phase count too large
    for a float, and otherwise the two results are returned. *)
Lemma calculate_outcomes {F : Type} `{PyFloat F} (pm : PowerMath.t F)
      (v : F) :
  PowerMath.calculate pm v
  = if f_eqb (PowerMath.gain pm) (f_of_Z 0) then Raise ZeroDivisionError
    else if f_fits (PowerMath.phases pm)
         then Ok (f_mul (f_mul (f_div v (PowerMath.gain pm))
                               (PowerMath.ct_range pm))
                        PowerMath.ONE_OVER_SQRT2,
                  f_mul (f_mul (f_of_Z (PowerMath.phases pm))
                               (f_mul (f_mul (f_div v (PowerMath.gain pm))
                                             (PowerMath.ct_range pm))
                                      PowerMath.ONE_OVER_SQRT2))
                        (PowerMath.line_voltage pm))
         else Raise OverflowError.
Proof.
  unfold PowerMath.calculate, truediv, float_of_int.
  destruct (f_eqb _ _); [reflexivity|]. simpl.
  destruct (f_fits _); reflexivity.
Qed.

Lemma truediv_real (a b : R) :
  b <> 0%R -> truediv a b = Ok (a / b)%R.
Proof.
  intros Hb. unfold truediv. simpl.
  now rewrite (proj2 (Reqb_false b 0%R) Hb).
Qed.

Lemma sqrt2_pos : (0 < R_sqrt.sqrt 2)%R.
Proof. apply sqrt_lt_R0. lra. Qed.

(** In exact arithmetic [calculate] returns whenever the gain is not
    zero, and what it returns is the closed formula. *)
Lemma calculate_real (pm : PowerMath.t R) (v : R) :
  PowerMath.gain pm <> 0%R ->
  PowerMath.calculate pm v =
    Ok ((v / PowerMath.gain pm * PowerMath.ct_range pm / R_sqrt.sqrt 2)%R,
        (IZR (PowerMath.phases pm)
         * (v / PowerMath.gain pm * PowerMath.ct_range pm / R_sqrt.sqrt 2)
         * PowerMath.line_voltage pm)%R).
Proof.
  intros Hg. unfold PowerMath.calculate.
  rewrite (truediv_real _ _ Hg). simpl.
  unfold PowerMath.ONE_OVER_SQRT2. simpl.
  pose proof sqrt2_pos as Hs.
  f_equal. f_equal; field; lra.
Qed.

(** The worked example of the specification, in binary64: the two
    values CPython computes, and where they lie. *)
Lemma calculate_example_binary64 :
  PowerMath.calculate (PowerMath.init 100 50 230 3)%float 1%float
  = Ok (0.35355339059327373, 243.95183950935888)%float
  /\ (0.353550 <? 0.35355339059327373)%float = true
  /\ (0.35355339059327373 <? 0.353555)%float = true
  /\ (243.945 <? 243.95183950935888)%float = true
  /\ (243.95183950935888 <? 243.955)%float = true.
Proof. repeat split; vm_compute; reflexivity. Qed.

(** The literal [3.3] of the driver, in binary64. *)
Lemma lit_3_3_binary64 : @MCP3008ADC.lit_3_3 float _ = 3.3%float.
Proof. vm_compute. reflexivity. Qed.


(* ------------------------------------------------------------------ *)
(** ** StateClassifier.classify                                        *)
(* ------------------------------------------------------------------ *)

Section Classify.
Context {F : Type} `{PyFloat F}.
Variable sc : StateClassifier.t F.
Abbreviation idle := (StateClassifier.idle_threshold sc).
Abbreviation fault := (StateClassifier.fault_threshold sc).

Lemma classify_idle (x : F) :
  StateClassifier.classify sc x = "idle"%string <-> f_ltb x idle = true.
Proof.
  unfold StateClassifier.classify.
  destruct (f_ltb x idle); [tauto|].
  destruct (f_ltb fault x); split; discriminate.
Qed.

Lemma classify_fault (x : F) :
  StateClassifier.classify sc x = "fault"%string
  <-> f_ltb x idle = false /\ f_ltb fault x = true.
Proof.
  unfold StateClassifier.classify.
  destruct (f_ltb x idle), (f_ltb fault x); split;
    try discriminate; try tauto; intros []; discriminate.
Qed.

Lemma classify_running (x : F) :
  StateClassifier.classify sc x = "running"%string
  <-> f_ltb x idle = false /\ f_ltb fault x = false.
Proof.
  unfold StateClassifier.classify.
  destruct (f_ltb x idle), (f_ltb fault x); split;
    try discriminate; try tauto; intros []; discriminate.
Qed.

Lemma classify_range (x : F) :
  In (StateClassifier.classify sc x) ["idle"; "running"; "fault"]%string.
Proof.
  unfold StateClassifier.classify.
  destruct (f_ltb x idle); [simpl; auto|].
  destruct (f_ltb fault x); simpl; auto.
Qed.
End Classify.

Lemma classify_examples_binary64 :
  map (StateClassifier.classify (StateClassifier.init 0.5 100)%float)
      [0.5; 0.4999; 100; 100.0001]%float
  = ["running"; "idle"; "running"; "fault"]%string.
Proof. vm_compute. reflexivity. Qed.

Lemma classify_examples_real :
  map (StateClassifier.classify (StateClassifier.init 0.5 100)%R)
      [0.5; 0.4999; 100; 100.0001]%R
  = ["running"; "idle"; "running"; "fault"]%string.
Proof.
  unfold map, StateClassifier.classify. simpl.
  rewrite (proj2 (Rltb_false 0.5 0.5)) by lra.
  rewrite (proj2 (Rltb_false 100 0.5)) by lra.
  rewrite (proj2 (Rltb_true 0.4999 0.5)) by lra.
  rewrite (proj2 (Rltb_false 100 100)) by lra.
  rewrite (proj2 (Rltb_false 100.0001 0.5)) by lra.
  rewrite (proj2 (Rltb_true 100 100.0001)) by lra.
  reflexivity.
Qed.

(** C3. With [idle_threshold < fault_threshold], [classify] returns
    "idle" exactly when the current is below the idle threshold, else
    "fault" exactly when it is above the fault threshold, else
    "running"; a current equal to either threshold is "running". With
    thresholds 0.5 and 100.0 the values 0.5, 0.4999, 100.0 and 100.0001
    give running, idle, running and fault, in binary64 and in exact
    arithmetic. *)
Theorem classify_thresholds {F : Type} `{PyFloatLaws F}
        (sc : StateClassifier.t F) (rms_current : F) :
  f_ltb (StateClassifier.idle_threshold sc)
        (StateClassifier.fault_threshold sc) = true ->
  (StateClassifier.classify sc rms_current = "idle"%string
   <-> f_ltb rms_current (StateClassifier.idle_threshold sc) = true)
  /\ (StateClassifier.classify sc rms_current = "fault"%string
      <-> f_ltb rms_current (StateClassifier.idle_threshold sc) = false
          /\ f_ltb (StateClassifier.fault_threshold sc) rms_current = true)
  /\ (StateClassifier.classify sc rms_current = "running"%string
      <-> f_ltb rms_current (StateClassifier.idle_threshold sc) = false
          /\ f_ltb (StateClassifier.fault_threshold sc) rms_current = false)
  /\ (f_eqb rms_current (StateClassifier.idle_threshold sc) = true ->
      StateClassifier.classify sc rms_current = "running"%string)
  /\ (f_eqb rms_current (StateClassifier.fault_threshold sc) = true ->
      StateClassifier.classify sc rms_current = "running"%string)
  /\ map (StateClassifier.classify (StateClassifier.init 0.5 100)%float)
         [0.5; 0.4999; 100; 100.0001]%float
     = ["running"; "idle"; "running"; "fault"]%string
  /\ map (StateClassifier.classify (StateClassifier.init 0.5 100)%R)
         [0.5; 0.4999; 100; 100.0001]%R
     = ["running"; "idle"; "running"; "fault"]%string.
Proof.
  intros Hlt.
  split; [apply classify_idle|].
  split; [apply classify_fault|].
  split; [apply classify_running|].
  split; [|split; [|split]].
  - intros He. apply classify_running. split.
    + rewrite (f_eqb_ltb_l _ _ _ He). apply f_ltb_irrefl.
    + rewrite (f_eqb_ltb_r _ _ _ He). apply f_ltb_asym, Hlt.
  - intros He. apply classify_running. split.
    + rewrite (f_eqb_ltb_l _ _ _ He). apply f_ltb_asym, Hlt.
    + rewrite (f_eqb_ltb_r _ _ _ He). apply f_ltb_irrefl.
  - exact classify_examples_binary64.
  - exact classify_examples_real.
Qed.

Lemma classify_thresholds_witness :
  StateClassifier.classify (StateClassifier.init 0.5 100)%float 100%float
  = "running"%string.
Proof.
  refine (proj1 (proj2 (proj2 (proj2 (proj2
    (classify_thresholds (StateClassifier.init 0.5 100)%float 100%float
       _))))) _);
    vm_compute; reflexivity.
Defined.

Lemma is_nan_Prim2SF (x : float) :
  PrimFloat.is_nan x = true -> Prim2SF x = S754_nan.
Proof.
  unfold PrimFloat.is_nan. rewrite eqb_spec.
  destruct (Prim2SF x) as [s|s| |s m e]; unfold SFeqb; simpl;
    try discriminate; try reflexivity.
  - destruct s; discriminate.
  - rewrite Z.compare_refl.
    change (Pos.compare_cont Eq m m) with (Pos.compare m m).
    rewrite Pos.compare_refl. destruct s; discriminate.
Qed.

Lemma ltb_nan (x y : float) :
  PrimFloat.is_nan x = true ->
  PrimFloat.ltb x y = false /\ PrimFloat.ltb y x = false.
Proof.
  intros Hx. rewrite !ltb_spec, (is_nan_Prim2SF x Hx).
  unfold SFltb. simpl. split; [reflexivity|].
  destruct (Prim2SF y); reflexivity.
Qed.

(** C10. On binary64, [classify] returns for every input and every
    pair of thresholds, and what it returns is one of "idle", "running"
    and "fault"; a NaN current is "running"; and a current below the
    idle threshold is "idle" whatever the fault threshold is, also when
    the two thresholds are the wrong way round. *)
Theorem classify_total (sc : StateClassifier.t float) (rms_current : float) :
  In (StateClassifier.classify sc rms_current)
     ["idle"; "running"; "fault"]%string
  /\ (PrimFloat.is_nan rms_current = true ->
      StateClassifier.classify sc rms_current = "running"%string)
  /\ StateClassifier.classify sc nan = "running"%string
  /\ (PrimFloat.ltb rms_current (StateClassifier.idle_threshold sc) = true ->
      StateClassifier.classify sc rms_current = "idle"%string)
  /\ StateClassifier.classify (StateClassifier.init 100 0.5)%float 50%float
     = "idle"%string.
Proof.
  split; [apply classify_range|].
  split; [|split; [|split]].
  - intros Hn. apply classify_running.
    destruct (ltb_nan rms_current (StateClassifier.idle_threshold sc) Hn)
      as [H1 _].
    destruct (ltb_nan rms_current (StateClassifier.fault_threshold sc) Hn)
      as [_ H2].
    split; assumption.
  - apply classify_running.
    destruct (ltb_nan nan (StateClassifier.idle_threshold sc) eq_refl)
      as [H1 _].
    destruct (ltb_nan nan (StateClassifier.fault_threshold sc) eq_refl)
      as [_ H2].
    split; assumption.
  - intros Hlt. apply classify_idle. exact Hlt.
  - vm_compute. reflexivity.
Qed.

Lemma classify_total_witness :
  StateClassifier.classify (StateClassifier.init 0.5 0.1)%float 0.3%float
  = "idle"%string.
Proof.
  refine (proj1 (proj2 (proj2 (proj2
    (classify_total (StateClassifier.init 0.5 0.1)%float 0.3%float)))) _).
  vm_compute. reflexivity.
Defined.

(* ------------------------------------------------------------------ *)
(** ** The CSV file and the logger                                     *)
(* ------------------------------------------------------------------ *)

Section LoggerFacts.
Context {F : Type}.
Implicit Types (w : world F) (l : CSVLogger.t F) (p : string).

Lemma frame_refl p w : frame p w w.
Proof. repeat split. Qed.

Lemma frame_trans p w1 w2 w3 :
  frame p w1 w2 -> frame p w2 w3 -> frame p w1 w3.
Proof.
  intros (Hd & Ha & Hc & Hf) (Hd' & Ha' & Hc' & Hf').
  repeat split; try congruence.
  intros q Hq. rewrite (Hf' q Hq). apply Hf, Hq.
Qed.

Lemma file_at_fs p w c : fs w p = Some c -> file_at w p = c.
Proof. unfold file_at. now intros ->. Qed.

Lemma dict_to_list_accepted (d : pydict F) :
  CSVLogger._dict_to_list CSVLogger.HEADERS d
  = if accepted d then Ok (to_row d) else Raise ValueError.
Proof.
  unfold CSVLogger._dict_to_list, accepted, to_row.
  destruct (existsb _ d); reflexivity.
Qed.

Lemma write_line_spec p (r : row F) w :
  exists w', write_line p r w = (Ok tt, w')
    /\ frame p w w' /\ trace w' = trace w
    /\ fs w' p = Some (file_at w p ++ [r]).
Proof.
  eexists. split; [reflexivity|]. simpl.
  split; [|split; [reflexivity|]].
  - repeat split. intros q Hq. simpl.
    apply String.eqb_neq in Hq. now rewrite Hq.
  - rewrite String.eqb_refl. reflexivity.
Qed.

Lemma for_each_cons {S A} (x : A) (xs : list A) (body : A -> M S unit)
      (s : S) :
  for_each (x :: xs) body s
  = match body x s with
    | (Ok _, s') => for_each xs body s'
    | (Raise e, s') => (Raise e, s')
    end.
Proof. reflexivity. Qed.

Lemma bind_run {S A B} (m : M S A) (k : A -> M S B) (s : S) :
  bind m k s
  = match m s with
    | (Ok a, s') => k a s'
    | (Raise e, s') => (Raise e, s')
    end.
Proof. reflexivity. Qed.

Lemma lift_res_run {S A} (r : res A) (s : S) : lift_res r s = (r, s).
Proof. reflexivity. Qed.

Lemma ret_run {S A} (a : A) (s : S) : ret a s = (Ok a, s).
Proof. reflexivity. Qed.

Lemma gets_run {S A} (f : S -> A) (s : S) : gets f s = (Ok (f s), s).
Proof. reflexivity. Qed.

Lemma modify_run {S} (f : S -> S) (s : S) : modify f s = (Ok tt, f s).
Proof. reflexivity. Qed.

Lemma writerows_spec p (ds : list (pydict F)) : forall w,
  exists w',
    CSVLogger.writerows p CSVLogger.HEADERS ds w
    = (if forallb accepted ds then Ok tt else Raise ValueError, w')
    /\ frame p w w' /\ trace w' = trace w
    /\ fs w' p = match written_prefix ds with
                 | [] => fs w p
                 | rows => Some (file_at w p ++ rows)
                 end.
Proof.
  unfold CSVLogger.writerows.
  induction ds as [|d ds IH]; intros w.
  - exists w. repeat split.
  - rewrite for_each_cons, bind_run, lift_res_run.
    rewrite dict_to_list_accepted. simpl forallb. simpl written_prefix.
    destruct (accepted d) eqn:Hd.
    + destruct (write_line_spec p (to_row d) w)
        as (w1 & Hw & Hf1 & Ht1 & Hfs1).
      rewrite Hw.
      destruct (IH w1) as (w' & Hrun & Hf & Ht & Hfs).
      rewrite Hrun.
      exists w'. split; [reflexivity|].
      split; [eapply frame_trans; eassumption|].
      split; [congruence|].
      rewrite Hfs, (file_at_fs _ _ _ Hfs1), Hfs1.
      destruct (written_prefix ds); [reflexivity|].
      now rewrite <- app_assoc.
    + exists w. repeat split.
Qed.
Lemma open_a_spec p w :
  exists w',
    open_a p w = (if fs_denied w then Raise OSError else Ok tt, w')
    /\ frame p w w'
    /\ trace w' = trace w ++ [Ev_open p "a"]
    /\ fs w' p = if fs_denied w then fs w p else Some (file_at w p).
Proof.
  unfold open_a, file_at. rewrite bind_run. simpl.
  rewrite bind_run. simpl.
  destruct (fs_denied w) eqn:Hd; simpl.
  - eexists. split; [reflexivity|]. simpl. repeat split; simpl; congruence.
  - rewrite bind_run. simpl. destruct (fs w p) eqn:Hp; simpl.
    + eexists. split; [reflexivity|]. simpl.
      repeat split; simpl; congruence.
    + eexists. split; [reflexivity|]. simpl.
      rewrite String.eqb_refl. repeat split; simpl; try congruence.
      intros q Hq. apply String.eqb_neq in Hq. now rewrite Hq.
Qed.

Lemma open_w_spec p w :
  exists w',
    open_w p w = (if fs_denied w then Raise OSError else Ok tt, w')
    /\ frame p w w'
    /\ trace w' = trace w ++ [Ev_open p "w"]
    /\ fs w' p = if fs_denied w then fs w p else Some [].
Proof.
  unfold open_w. rewrite bind_run. simpl. rewrite bind_run. simpl.
  destruct (fs_denied w) eqn:Hd; simpl.
  - eexists. split; [reflexivity|]. simpl. repeat split; simpl; congruence.
  - eexists. split; [reflexivity|]. simpl.
    rewrite String.eqb_refl. repeat split; simpl; try congruence.
    intros q Hq. apply String.eqb_neq in Hq. now rewrite Hq.
Qed.

Lemma write_headers_spec l w :
  exists w',
    CSVLogger._write_headers l w
    = (if fs_denied w then Raise OSError else Ok tt, w')
    /\ frame (CSVLogger.path l) w w'
    /\ trace w' = trace w ++ [Ev_open (CSVLogger.path l) "w"]
    /\ fs w' (CSVLogger.path l)
       = if fs_denied w then fs w (CSVLogger.path l)
         else Some [header_row].
Proof.
  unfold CSVLogger._write_headers. rewrite bind_run.
  destruct (open_w_spec (CSVLogger.path l) w) as (w1 & Ho & Hf1 & Ht1 & Hfs1).
  rewrite Ho. destruct (fs_denied w) eqn:Hd.
  - exists w1. auto.
  - unfold CSVLogger.writeheader.
    destruct (write_line_spec (CSVLogger.path l) header_row w1)
      as (w2 & Hw & Hf2 & Ht2 & Hfs2).
    unfold header_row in Hw. rewrite Hw.
    exists w2. split; [reflexivity|].
    split; [eapply frame_trans; eassumption|].
    split; [congruence|].
    now rewrite Hfs2, (file_at_fs _ _ _ Hfs1).
Qed.

(** Where the file is, so is its directory. *)
Lemma mkdir_existing p w c :
  fs w p = Some c -> mkdir_parent p w = (Ok tt, w).
Proof.
  intros Hp. unfold mkdir_parent. rewrite bind_run, gets_run, Hp.
  reflexivity.
Qed.

(** Where the file is not, a missing directory is made, if it can. *)
Lemma mkdir_fresh p w :
  fs w p = None ->
  exists w',
    mkdir_parent p w
    = (if fs_denied w && dir_missing w p then Raise OSError else Ok tt, w')
    /\ frame p w w'
    /\ trace w' = trace w
    /\ fs w' p = None
    /\ (fs_denied w = true -> w' = w).
Proof.
  intros Hp. unfold mkdir_parent. rewrite bind_run, gets_run, Hp.
  destruct (dir_missing w p) eqn:Hm; cbn [negb].
  - rewrite bind_run, gets_run.
    destruct (fs_denied w) eqn:Hd; cbn [andb].
    + exists w. unfold raise. repeat split; auto.
    + rewrite modify_run. eexists. split; [reflexivity|].
      repeat split; auto. discriminate.
  - exists w. rewrite andb_false_r, ret_run. repeat split; auto.
Qed.

(** Opening the logger on a path that holds a file touches nothing. *)
Lemma init_existing p fi w c :
  fs w p = Some c ->
  CSVLogger.init p fi w = (Ok (CSVLogger.mk p fi [] 0), w).
Proof.
  intros Hp. unfold CSVLogger.init, path_exists.
  rewrite bind_run, (mkdir_existing p w c Hp).
  rewrite bind_run, gets_run, Hp. reflexivity.
Qed.

(** Opening it where there is none makes the directory and writes the
    header line, if it can: a refusal comes from [mkdir] when the
    directory is missing, from [open] otherwise. *)
Lemma init_fresh p fi w :
  fs w p = None ->
  exists w',
    CSVLogger.init p fi w
    = (if fs_denied w then Raise OSError
       else Ok (CSVLogger.mk p fi [] 0), w')
    /\ frame p w w'
    /\ trace w'
       = trace w ++ (if fs_denied w && dir_missing w p then []
                     else [Ev_open p "w"])
    /\ fs w' p = if fs_denied w then None else Some [header_row].
Proof.
  intros Hp. unfold CSVLogger.init, path_exists.
  rewrite bind_run.
  destruct (mkdir_fresh p w Hp) as (w0 & Hm & Hf0 & Ht0 & Hfs0 & Hsame).
  rewrite Hm.
  destruct (fs_denied w && dir_missing w p) eqn:Hrefused.
  - apply andb_true_iff in Hrefused. destruct Hrefused as [Hd _].
    rewrite Hd. exists w0. rewrite app_nil_r. auto.
  - rewrite bind_run, gets_run, Hfs0.
    change (negb false) with true. cbv iota.
    rewrite bind_run.
    destruct (write_headers_spec (CSVLogger.mk p fi [] 0) w0)
      as (w' & Hh & Hf & Ht & Hfs).
    simpl in Hh, Hf, Ht, Hfs. rewrite Hh.
    destruct Hf0 as (Hd0 & Ha0 & Hc0 & Hq0).
    exists w'. rewrite Hfs0, Hd0 in Hfs. rewrite Hd0.
    split; [destruct (fs_denied w); reflexivity|].
    split; [eapply frame_trans; [|exact Hf]; repeat split; auto|].
    split; [congruence|exact Hfs].
Qed.

Lemma on_world_run {A} (m : M (world F) A) l w :
  CSVLogger.on_world m (l, w) = (fst (m w), (l, snd (m w))).
Proof. unfold CSVLogger.on_world, zoom. simpl. now destruct (m w). Qed.

Lemma flush_empty l w :
  CSVLogger.buffer l = [] -> CSVLogger.flush (l, w) = (Ok tt, (l, w)).
Proof.
  intros Hb. unfold CSVLogger.flush.
  rewrite bind_run, gets_run. cbv beta. cbn [fst]. rewrite Hb. reflexivity.
Qed.

(** A flush of a buffer that is not empty, in all its outcomes. *)
Lemma flush_nonempty l w :
  CSVLogger.buffer l <> [] ->
  exists w',
    CSVLogger.flush (l, w)
    = (if fs_denied w then (Raise OSError, (l, w'))
       else if forallb accepted (CSVLogger.buffer l)
            then (Ok tt, (flushed l, w'))
            else (Raise ValueError, (l, w')))
    /\ frame (CSVLogger.path l) w w'
    /\ trace w' = trace w ++ [Ev_open (CSVLogger.path l) "a"]
    /\ fs w' (CSVLogger.path l)
       = if fs_denied w then fs w (CSVLogger.path l)
         else Some (file_at w (CSVLogger.path l)
                    ++ written_prefix (CSVLogger.buffer l)).
Proof.
  intros Hb. unfold CSVLogger.flush.
  rewrite bind_run, gets_run. cbv beta. cbn [fst].
  destruct (CSVLogger.buffer l) as [|d ds] eqn:Hbuf; [congruence|].
  rewrite <- Hbuf. clear Hb.
  rewrite bind_run, on_world_run, bind_run.
  destruct (open_a_spec (CSVLogger.path l) w) as (w1 & Ho & Hf1 & Ht1 & Hfs1).
  rewrite Ho.
  destruct (fs_denied w) eqn:Hd.
  - exists w1. simpl. auto.
  - destruct (writerows_spec (CSVLogger.path l) (CSVLogger.buffer l) w1)
      as (w2 & Hw & Hf2 & Ht2 & Hfs2).
    rewrite Hw. exists w2.
    split.
    + destruct (forallb accepted (CSVLogger.buffer l)); simpl; [|reflexivity].
      rewrite bind_run. reflexivity.
    + split; [eapply frame_trans; eassumption|].
      split; [congruence|].
      rewrite Hfs2, Hfs1, (file_at_fs _ _ _ Hfs1).
      destruct (written_prefix (CSVLogger.buffer l));
        [now rewrite app_nil_r|reflexivity].
Qed.
Lemma written_prefix_accepted (ds : list (pydict F)) :
  forallb accepted ds = true -> written_prefix ds = map to_row ds.
Proof.
  induction ds as [|d ds IH]; simpl; [reflexivity|].
  intros H. apply andb_prop in H as [Hd Hds].
  now rewrite Hd, IH.
Qed.

Lemma log_run (r : pydict F) l w :
  CSVLogger.log r (l, w)
  = if Z.of_nat (List.length (CSVLogger.buffer l ++ [r]))
       >=? CSVLogger.flush_interval l
    then CSVLogger.flush (appended l r, w)
    else (Ok tt, (appended l r, w)).
Proof.
  unfold CSVLogger.log, CSVLogger.on_self.
  rewrite bind_run, modify_run, bind_run, gets_run.
  cbv beta. cbn [fst snd CSVLogger.buffer CSVLogger.flush_interval].
  fold (appended l r).
  destruct (_ >=? _); reflexivity.
Qed.

(** C2, amended. [flush] on an empty buffer changes nothing. On a buffer
    that is not empty it opens the file once, to append. When the open
    is granted and every record is accepted, all buffered records are
    in the file after what it held, in insertion order, the counter has
    grown by their number and the buffer is empty. When the open is
    refused, or a record is refused, the exception is raised and the
    logger object (buffer and counter) is as before; in the second case
    the lines of the records before the refused one are in the file. *)
Theorem flush_outcomes l w :
  (CSVLogger.buffer l = [] -> CSVLogger.flush (l, w) = (Ok tt, (l, w)))
  /\ (CSVLogger.buffer l <> [] ->
      exists w',
        frame (CSVLogger.path l) w w'
        /\ trace w' = trace w ++ [Ev_open (CSVLogger.path l) "a"]
        /\ (fs_denied w = false ->
            forallb accepted (CSVLogger.buffer l) = true ->
            CSVLogger.flush (l, w)
            = (Ok tt,
               (CSVLogger.mk (CSVLogger.path l) (CSVLogger.flush_interval l)
                  []
                  (CSVLogger.total_written l
                   + Z.of_nat (List.length (CSVLogger.buffer l))),
                w'))
            /\ fs w' (CSVLogger.path l)
               = Some (file_at w (CSVLogger.path l)
                       ++ map to_row (CSVLogger.buffer l)))
        /\ (fs_denied w = true ->
            CSVLogger.flush (l, w) = (Raise OSError, (l, w'))
            /\ fs w' (CSVLogger.path l) = fs w (CSVLogger.path l))
        /\ (fs_denied w = false ->
            forallb accepted (CSVLogger.buffer l) = false ->
            CSVLogger.flush (l, w) = (Raise ValueError, (l, w'))
            /\ fs w' (CSVLogger.path l)
               = Some (file_at w (CSVLogger.path l)
                       ++ written_prefix (CSVLogger.buffer l)))).
Proof.
  split; [apply flush_empty|].
  intros Hb.
  destruct (flush_nonempty l w Hb) as (w' & Hrun & Hf & Ht & Hfs).
  exists w'. split; [exact Hf|]. split; [exact Ht|].
  split; [|split].
  - intros Hd Ha. rewrite Hd, Ha in Hrun. rewrite Hd in Hfs.
    split; [exact Hrun|].
    now rewrite Hfs, (written_prefix_accepted _ Ha).
  - intros Hd. rewrite Hd in Hrun, Hfs. split; assumption.
  - intros Hd Ha. rewrite Hd, Ha in Hrun. rewrite Hd in Hfs.
    split; assumption.
Qed.
Lemma opens_app p mode (t1 t2 : list (event F)) :
  opens p mode (t1 ++ t2) = (opens p mode t1 + opens p mode t2)%nat.
Proof. unfold opens. now rewrite filter_app, length_app. Qed.

Lemma opens_one p mode :
  opens p mode [Ev_open p mode : event F] = 1%nat.
Proof. unfold opens. simpl. now rewrite !String.eqb_refl. Qed.

Lemma log_all_cons (r : pydict F) rs (s : CSVLogger.self_ F) :
  log_all (r :: rs) s
  = match CSVLogger.log r s with
    | (Ok _, s') => log_all rs s'
    | (Raise e, s') => (Raise e, s')
    end.
Proof. reflexivity. Qed.

(** The state after a run of [log] calls, by counting: [q] flushes were
    made, each of a full buffer; [done] is what they wrote. *)
Lemma log_all_counts (rs : list (pydict F)) : forall l w,
  1 <= CSVLogger.flush_interval l ->
  (List.length (CSVLogger.buffer l)
   < Z.to_nat (CSVLogger.flush_interval l))%nat ->
  fs_denied w = false ->
  forallb accepted (CSVLogger.buffer l) = true ->
  forallb accepted rs = true ->
  exists l' w' (q : nat) (done : list (pydict F)),
    log_all rs (l, w) = (Ok tt, (l', w'))
    /\ CSVLogger.path l' = CSVLogger.path l
    /\ CSVLogger.flush_interval l' = CSVLogger.flush_interval l
    /\ (List.length (CSVLogger.buffer l')
        < Z.to_nat (CSVLogger.flush_interval l))%nat
    /\ CSVLogger.buffer l ++ rs = done ++ CSVLogger.buffer l'
    /\ List.length done = (q * Z.to_nat (CSVLogger.flush_interval l))%nat
    /\ CSVLogger.total_written l'
       = CSVLogger.total_written l + Z.of_nat (List.length done)
    /\ frame (CSVLogger.path l) w w'
    /\ file_at w' (CSVLogger.path l)
       = file_at w (CSVLogger.path l) ++ map to_row done
    /\ opens (CSVLogger.path l) "a" (trace w')
       = (opens (CSVLogger.path l) "a" (trace w) + q)%nat.
Proof.
  induction rs as [|r rs IH]; intros l w Hfi Hlen Hden Hbuf Hrs.
  - exists l, w, 0%nat, []. rewrite app_nil_r. simpl.
    repeat split; auto; try lia.
    now rewrite app_nil_r.
  - simpl in Hrs. apply andb_prop in Hrs as [Hr Hrs].
    rewrite log_all_cons, log_run.
    set (Fn := Z.to_nat (CSVLogger.flush_interval l)) in *.
    assert (HFn : Z.of_nat Fn = CSVLogger.flush_interval l)
      by (unfold Fn; lia).
    rewrite length_app. simpl List.length.
    destruct (Z.geb_spec
                (Z.of_nat (List.length (CSVLogger.buffer l) + 1))
                (CSVLogger.flush_interval l)) as [Hge|Hlt].
    + (* the buffer is full: flush *)
      assert (Hfull : (List.length (CSVLogger.buffer l) + 1)%nat = Fn) by lia.
      assert (Hne : CSVLogger.buffer (appended l r) <> [])
        by (simpl; destruct (CSVLogger.buffer l); discriminate).
      destruct (flush_nonempty (appended l r) w Hne)
        as (w1 & Hrun & Hf1 & Ht1 & Hfs1).
      assert (Hacc : forallb accepted (CSVLogger.buffer (appended l r))
                     = true).
      { simpl. rewrite forallb_app, Hbuf. simpl. now rewrite Hr. }
      rewrite Hden, Hacc in Hrun. rewrite Hden in Hfs1.
      rewrite (written_prefix_accepted _ Hacc) in Hfs1.
      rewrite Hrun. simpl in Hf1, Ht1, Hfs1.
      destruct (IH (flushed (appended l r)) w1) as
          (l' & w' & q & done & Hrun' & Hp & Hi & Hlen' & Happ & Hdone
           & Htw & Hf & Hfile & Hop); simpl; auto; try lia.
      { destruct Hf1 as (Hd1 & _). congruence. }
      simpl in *.
      exists l', w', (S q), ((CSVLogger.buffer l ++ [r]) ++ done).
      split; [exact Hrun'|]. split; [exact Hp|]. split; [exact Hi|].
      split; [exact Hlen'|].
      split.
      { rewrite <- !app_assoc. simpl. f_equal. f_equal. exact Happ. }
      split.
      { rewrite length_app, length_app, Hdone. simpl. fold Fn. lia. }
      split.
      { rewrite Htw, !length_app. simpl. lia. }
      split; [eapply frame_trans; eassumption|].
      split.
      { rewrite Hfile, (file_at_fs _ _ _ Hfs1).
        rewrite !map_app, !app_assoc. reflexivity. }
      rewrite Hop, Ht1, opens_app, opens_one. lia.
    + (* still room: the record waits in the buffer *)
      destruct (IH (appended l r) w) as
          (l' & w' & q & done & Hrun' & Hp & Hi & Hlen' & Happ & Hdone
           & Htw & Hf & Hfile & Hop); simpl; auto.
      { rewrite length_app. simpl. fold Fn. lia. }
      { rewrite forallb_app, Hbuf. simpl. now rewrite Hr. }
      simpl in *.
      exists l', w', q, done.
      rewrite <- app_assoc in Happ. simpl in Happ.
      repeat split; auto; destruct Hf as (? & ? & ? & ?); auto.
Qed.
Lemma forallb_firstn {A} (f : A -> bool) (k : nat) (xs : list A) :
  forallb f xs = true -> forallb f (firstn k xs) = true.
Proof.
  intros Hxs. rewrite <- (firstn_skipn k xs), forallb_app in Hxs.
  now apply andb_prop in Hxs.
Qed.

(** A flush after a run of [log] calls leaves nothing behind. *)
Lemma final_flush l w :
  fs_denied w = false ->
  forallb accepted (CSVLogger.buffer l) = true ->
  exists l' w',
    CSVLogger.flush (l, w) = (Ok tt, (l', w'))
    /\ CSVLogger.buffer l' = []
    /\ CSVLogger.total_written l'
       = CSVLogger.total_written l
         + Z.of_nat (List.length (CSVLogger.buffer l))
    /\ file_at w' (CSVLogger.path l)
       = file_at w (CSVLogger.path l) ++ map to_row (CSVLogger.buffer l).
Proof.
  intros Hden Hacc.
  destruct (CSVLogger.buffer l) as [|d ds] eqn:Hb.
  - exists l, w. rewrite (flush_empty l w Hb). simpl.
    rewrite app_nil_r, Z.add_0_r. auto.
  - assert (Hne : CSVLogger.buffer l <> []) by (rewrite Hb; discriminate).
    destruct (flush_nonempty l w Hne) as (w' & Hrun & _ & _ & Hfs).
    rewrite Hden in Hrun, Hfs. rewrite Hb in Hrun, Hfs.
    rewrite Hacc in Hrun. rewrite (written_prefix_accepted _ Hacc) in Hfs.
    exists (flushed l), w'. rewrite Hrun. unfold flushed. simpl.
    rewrite Hb, (file_at_fs _ _ _ Hfs). auto.
Qed.

(** C4. From a logger with an empty buffer and a flush interval F >= 1,
    on a store that can be opened, logging N accepted records opens the
    store to append exactly N / F times, leaves the last N mod F
    records in the buffer, and a flush after that brings the records
    written to exactly N, all of them in the store in order; after each
    of the calls the buffer is shorter than F, so it holds F records at
    most at the moment a flush is triggered. *)
Theorem log_flush_cadence (records : list (pydict F)) l w :
  CSVLogger.buffer l = [] ->
  1 <= CSVLogger.flush_interval l ->
  fs_denied w = false ->
  forallb accepted records = true ->
  exists l' w',
    log_all records (l, w) = (Ok tt, (l', w'))
    /\ Z.of_nat (opens (CSVLogger.path l) "a" (trace w'))
       = Z.of_nat (opens (CSVLogger.path l) "a" (trace w))
         + Z.of_nat (List.length records) / CSVLogger.flush_interval l
    /\ Z.of_nat (List.length (CSVLogger.buffer l'))
       = Z.of_nat (List.length records) mod CSVLogger.flush_interval l
    /\ CSVLogger.buffer l'
       = skipn (List.length records - List.length (CSVLogger.buffer l'))
               records
    /\ file_at w' (CSVLogger.path l)
       = file_at w (CSVLogger.path l)
         ++ map to_row
              (firstn (List.length records
                       - List.length (CSVLogger.buffer l')) records)
    /\ (exists l'' w'',
          CSVLogger.flush (l', w') = (Ok tt, (l'', w''))
          /\ CSVLogger.buffer l'' = []
          /\ CSVLogger.total_written l''
             = CSVLogger.total_written l + Z.of_nat (List.length records)
          /\ file_at w'' (CSVLogger.path l)
             = file_at w (CSVLogger.path l) ++ map to_row records)
    /\ (forall k : nat,
          exists lk wk,
            log_all (firstn k records) (l, w) = (Ok tt, (lk, wk))
            /\ Z.of_nat (List.length (CSVLogger.buffer lk))
               < CSVLogger.flush_interval l).
Proof.
  intros Hb Hfi Hden Hacc.
  set (Fn := Z.to_nat (CSVLogger.flush_interval l)).
  assert (HFn : Z.of_nat Fn = CSVLogger.flush_interval l)
    by (unfold Fn; lia).
  assert (Hlen0 : (List.length (CSVLogger.buffer l) < Fn)%nat)
    by (rewrite Hb; simpl; unfold Fn; lia).
  assert (Hacc0 : forallb accepted (CSVLogger.buffer l) = true)
    by (rewrite Hb; reflexivity).
  destruct (log_all_counts records l w Hfi Hlen0 Hden Hacc0 Hacc)
    as (l' & w' & q & done & Hrun & Hp & Hi & Hlen & Happ & Hdone
        & Htw & Hf & Hfile & Hop).
  rewrite Hb in Happ. simpl in Happ. fold Fn in Hlen, Hdone.
  assert (HN : List.length records
               = (Fn * q + List.length (CSVLogger.buffer l'))%nat).
  { rewrite Happ at 1. rewrite length_app, Hdone. lia. }
  assert (Hq : q = (List.length records / Fn)%nat)
    by (apply (Nat.div_unique _ _ _ _ Hlen HN)).
  assert (Hm : List.length (CSVLogger.buffer l')
               = (List.length records mod Fn)%nat)
    by (apply (Nat.mod_unique _ _ _ _ Hlen HN)).
  assert (Hd : (List.length records - List.length (CSVLogger.buffer l'))%nat
               = List.length done) by lia.
  exists l', w'. split; [exact Hrun|].
  split.
  { rewrite Hop, Hq, Nat2Z.inj_add, Nat2Z.inj_div, HFn. reflexivity. }
  split.
  { rewrite Hm, Nat2Z.inj_mod, HFn. reflexivity. }
  split.
  { rewrite Hd. rewrite Happ.
    rewrite skipn_app, skipn_all, Nat.sub_diag. reflexivity. }
  split.
  { rewrite Hd. rewrite Happ.
    rewrite firstn_app, firstn_all, Nat.sub_diag. simpl.
    now rewrite app_nil_r. }
  split.
  { destruct (final_flush l' w') as (l'' & w'' & Hfl & Hb'' & Htw'' & Hfile'').
    - destruct Hf as (Hd' & _). congruence.
    - rewrite Happ, forallb_app in Hacc. now apply andb_prop in Hacc.
    - exists l'', w''. split; [exact Hfl|]. split; [exact Hb''|].
      split.
      + rewrite Htw'', Htw. rewrite Happ. rewrite length_app. lia.
      + rewrite Hp in Hfile''. rewrite Hfile'', Hfile.
        rewrite Happ. now rewrite map_app, app_assoc. }
  intros k.
  destruct (log_all_counts (firstn k records) l w Hfi Hlen0 Hden Hacc0
              (forallb_firstn _ k _ Hacc))
    as (lk & wk & qk & donek & Hrunk & _ & _ & Hlenk & _).
  exists lk, wk. split; [exact Hrunk|]. fold Fn in Hlenk. lia.
Qed.
Lemma opens_other_mode p (m1 m2 : string) :
  m1 <> m2 -> opens p m2 [Ev_open p m1 : event F] = 0%nat.
Proof.
  intros Hm. unfold opens. simpl.
  apply String.eqb_neq in Hm. now rewrite Hm, andb_false_r.
Qed.

Lemma extends_refl p w : extends p w w.
Proof.
  split; [apply frame_refl|]. split; [reflexivity|].
  intros c Hc. exists []. now rewrite app_nil_r.
Qed.

Lemma extends_trans p w1 w2 w3 :
  extends p w1 w2 -> extends p w2 w3 -> extends p w1 w3.
Proof.
  intros (Hf & Ho & He) (Hf' & Ho' & He').
  split; [eapply frame_trans; eassumption|]. split; [congruence|].
  intros c Hc. destruct (He c Hc) as (e1 & H1).
  destruct (He' _ H1) as (e2 & H2).
  exists (e1 ++ e2). now rewrite app_assoc.
Qed.

Lemma flush_extends l w :
  exists r l' w',
    CSVLogger.flush (l, w) = (r, (l', w'))
    /\ CSVLogger.path l' = CSVLogger.path l
    /\ extends (CSVLogger.path l) w w'.
Proof.
  destruct (CSVLogger.buffer l) as [|d ds] eqn:Hb.
  - exists (Ok tt), l, w. rewrite (flush_empty l w Hb).
    split; [reflexivity|]. split; [reflexivity|]. apply extends_refl.
  - assert (Hne : CSVLogger.buffer l <> []) by (rewrite Hb; discriminate).
    destruct (flush_nonempty l w Hne) as (w' & Hrun & Hf & Ht & Hfs).
    assert (He : extends (CSVLogger.path l) w w').
    { split; [exact Hf|]. split.
      - rewrite Ht, opens_app, opens_other_mode by discriminate. lia.
      - intros c Hc. rewrite Hfs, (file_at_fs _ _ _ Hc).
        destruct (fs_denied w); [|eauto].
        exists []. now rewrite app_nil_r. }
    destruct (fs_denied w);
      [|destruct (forallb accepted (CSVLogger.buffer l))];
      eexists _, _, _; (split; [exact Hrun|]); split; auto.
Qed.

Lemma do_call_extends (c : call) l w :
  exists r l' w',
    do_call c (l, w) = (r, (l', w'))
    /\ CSVLogger.path l' = CSVLogger.path l
    /\ extends (CSVLogger.path l) w w'.
Proof.
  destruct c as [r|]; simpl; [|apply flush_extends].
  rewrite log_run. destruct (_ >=? _).
  - apply (flush_extends (appended l r) w).
  - exists (Ok tt), (appended l r), w.
    split; [reflexivity|]. split; [reflexivity|]. apply extends_refl.
Qed.

Lemma calls_extend (cs : list call) : forall l w,
  exists r l' w',
    for_each cs do_call (l, w) = (r, (l', w'))
    /\ extends (CSVLogger.path l) w w'.
Proof.
  induction cs as [|c cs IH]; intros l w.
  - exists (Ok tt), l, w. split; [reflexivity|]. apply extends_refl.
  - rewrite for_each_cons.
    destruct (do_call_extends c l w) as (r & l1 & w1 & Hrun & Hp & He).
    rewrite Hrun. destruct r as [[]|e].
    + destruct (IH l1 w1) as (r' & l' & w' & Hrun' & He').
      rewrite Hp in He'.
      exists r', l', w'. split; [exact Hrun'|].
      eapply extends_trans; eassumption.
    + exists (Raise e), l1, w1. split; [reflexivity|]. exact He.
Qed.

(** A process that finds the store in place appends to it at most. *)
Lemma session_existing p (s : Z * list call) w c :
  fs w p = Some c -> extends p w (session p s w).
Proof.
  intros Hc. unfold session. rewrite (init_existing p (fst s) w c Hc).
  destruct (calls_extend (snd s) (CSVLogger.mk p (fst s) [] 0) w)
    as (r & l' & w' & Hrun & He).
  rewrite Hrun. exact He.
Qed.

(** A process that finds no store writes the header, then appends. *)
Lemma session_fresh p (s : Z * list call) w :
  fs w p = None -> fs_denied w = false ->
  exists data,
    fs (session p s w) p = Some (header_row :: data)
    /\ fs_denied (session p s w) = false
    /\ opens p "w" (trace (session p s w))
       = S (opens p "w" (trace w)).
Proof.
  intros Hn Hd. unfold session.
  destruct (init_fresh p (fst s) w Hn) as (w1 & Hi & Hf1 & Ht1 & Hfs1).
  rewrite Hd in Hi, Hfs1, Ht1. cbn [andb] in Ht1. rewrite Hi.
  destruct (calls_extend (snd s) (CSVLogger.mk p (fst s) [] 0) w1)
    as (r & l' & w' & Hrun & (Hf & Ho & He)).
  rewrite Hrun. simpl in *.
  destruct (He _ Hfs1) as (extra & Hfs).
  exists extra. split; [exact Hfs|]. split.
  - destruct Hf as (-> & _). destruct Hf1 as (-> & _). exact Hd.
  - rewrite Ho, Ht1, opens_app, opens_one. lia.
Qed.

Lemma sessions_existing p (ss : list (Z * list call)) : forall w c,
  fs w p = Some c -> extends p w (sessions p ss w).
Proof.
  induction ss as [|s ss IH]; intros w c Hc; [apply extends_refl|].
  unfold sessions. simpl. fold (sessions p ss (session p s w)).
  pose proof (session_existing p s w c Hc) as He.
  destruct He as (Hf & Ho & Hx). destruct (Hx c Hc) as (extra & Hc').
  eapply extends_trans; [|apply (IH _ _ Hc')].
  split; [exact Hf|]. split; [exact Ho|exact Hx].
Qed.

(** C6. Opening the logger where the store does not exist yet writes
    the header line as the first line of the file; opening it where the
    store exists changes nothing in the world. So, from a world without
    the store, after any number of processes that each open the logger
    and log and flush as they like, the file is the header line followed
    by data lines, it was opened for writing (the header) exactly once,
    and each later process finds the lines of the earlier ones in place
    and at most appends to them. *)
Theorem header_once p (fi : Z) (ss : list (Z * list call)) w :
  fs w p = None ->
  fs_denied w = false ->
  (exists w1,
      CSVLogger.init p fi w = (Ok (CSVLogger.mk p fi [] 0), w1)
      /\ fs w1 p = Some [header_row]
      /\ trace w1 = trace w ++ [Ev_open p "w"])
  /\ (forall w0 c fi0,
        fs w0 p = Some c ->
        CSVLogger.init p fi0 w0 = (Ok (CSVLogger.mk p fi0 [] 0), w0))
  /\ (ss <> [] ->
      exists data,
        fs (sessions p ss w) p = Some (header_row :: data)
        /\ opens p "w" (trace (sessions p ss w))
           = S (opens p "w" (trace w)))
  /\ (forall w0 c ss0,
        fs w0 p = Some c ->
        exists extra, fs (sessions p ss0 w0) p = Some (c ++ extra)).
Proof.
  intros Hn Hd. split; [|split; [|split]].
  - destruct (init_fresh p fi w Hn) as (w1 & Hi & _ & Ht & Hfs).
    rewrite Hd in Hi, Hfs, Ht. exists w1. auto.
  - intros w0 c fi0 Hc. apply (init_existing p fi0 w0 c Hc).
  - destruct ss as [|s ss]; [congruence|]. intros _.
    destruct (session_fresh p s w Hn Hd) as (data & Hfs & Hd1 & Ho).
    unfold sessions. simpl. fold (sessions p ss (session p s w)).
    destruct (sessions_existing p ss _ _ Hfs) as (_ & Ho' & He).
    destruct (He _ Hfs) as (extra & Hfs').
    exists (data ++ extra). split; [exact Hfs'|]. congruence.
  - intros w0 c ss0 Hc.
    destruct (sessions_existing p ss0 w0 c Hc) as (_ & _ & He).
    apply He, Hc.
Qed.
End LoggerFacts.

Lemma header_once_witness :
  exists data,
    fs (sessions "readings.csv"
          [(2, [Log record_ok; Log record_ok; Log record_ok]);
           (10, [Log record_ok; Flush]);
           (10, [])]
          empty_world) "readings.csv"%string
    = Some (@header_row float :: data)
    /\ opens "readings.csv" "w"
         (trace (sessions "readings.csv"
                   [(2, [Log record_ok; Log record_ok; Log record_ok]);
                    (10, [Log record_ok; Flush]);
                    (10, [])]
                   empty_world))
       = 1%nat.
Proof.
  refine (proj1 (proj2 (proj2
    (header_once "readings.csv" 10
       [(2, [Log record_ok; Log record_ok; Log record_ok]);
        (10, [Log record_ok; Flush]);
        (10, [])]
       empty_world eq_refl eq_refl))) _).
  discriminate.
Defined.

Lemma log_flush_cadence_witness :
  exists l' w',
    log_all [record_ok; record_ok; record_ok; record_ok; record_ok]
            (CSVLogger.mk "readings.csv" 2 [] 0, header_only_world)
    = (Ok tt, (l', w'))
    /\ Z.of_nat (opens "readings.csv" "a" (trace w')) = 0 + 5 / 2
    /\ Z.of_nat (List.length (CSVLogger.buffer l')) = 5 mod 2.
Proof.
  destruct (log_flush_cadence
              [record_ok; record_ok; record_ok; record_ok; record_ok]
              (CSVLogger.mk "readings.csv" 2 [] 0) header_only_world
              eq_refl ltac:(simpl; lia) eq_refl eq_refl)
    as (l' & w' & Hrun & Hop & Hlen & _).
  exists l', w'. repeat split; assumption.
Defined.

Lemma flush_outcomes_witness :
  exists w',
    CSVLogger.flush
      (CSVLogger.mk "readings.csv" 10 [record_ok; record_ok] 0,
       header_only_world)
    = (Ok tt, (CSVLogger.mk "readings.csv" 10 [] 2, w'))
    /\ fs w' "readings.csv"%string
       = Some [header_row; to_row record_ok; to_row record_ok].
Proof.
  destruct (proj2 (flush_outcomes
                     (CSVLogger.mk "readings.csv" 10 [record_ok; record_ok] 0)
                     header_only_world) ltac:(discriminate))
    as (w' & _ & _ & Hok & _).
  exists w'. apply Hok; reflexivity.
Defined.

(** A flush that fails half way: the second record has an unknown field,
    [ValueError] is raised, buffer and counter are as before, and the
    line of the first record is in the file all the same. *)
Lemma flush_partial_write :
  fs header_only_world "readings.csv"%string = Some [header_row]
  /\ fst (CSVLogger.flush
            (CSVLogger.mk "readings.csv" 10 [record_ok; record_extra] 0,
             header_only_world))
     = Raise ValueError
  /\ fst (snd (CSVLogger.flush
            (CSVLogger.mk "readings.csv" 10 [record_ok; record_extra] 0,
             header_only_world)))
     = CSVLogger.mk "readings.csv" 10 [record_ok; record_extra] 0
  /\ fs (snd (snd (CSVLogger.flush
            (CSVLogger.mk "readings.csv" 10 [record_ok; record_extra] 0,
             header_only_world)))) "readings.csv"%string
     = Some [header_row; to_row record_ok]
  /\ fs (snd (snd (CSVLogger.flush
            (CSVLogger.mk "readings.csv" 10 [record_ok; record_extra] 0,
             header_only_world)))) "readings.csv"%string
     <> fs header_only_world "readings.csv"%string.
Proof. repeat split. discriminate. Qed.

(* ------------------------------------------------------------------ *)
(** ** The sampling window                                             *)
(* ------------------------------------------------------------------ *)

Section WindowFacts.
Context {F : Type} `{PyFloat F}.
Variable env : Env F.

Lemma sampled_0 (w : world F) : sampled w 0 [] = w.
Proof.
  unfold sampled. rewrite Nat.add_0_r, app_nil_r. now destruct w.
Qed.

Lemma sample_voltage_run (adc : MCP3008ADC.t F) (w : world F) :
  MCP3008ADC.sample_voltage env adc w
  = (MCP3008ADC.to_voltage adc (adc_readData env (adc_calls w)),
     sampled w 1 [Ev_readData (MCP3008ADC.channel adc)
                              (adc_readData env (adc_calls w))]).
Proof.
  unfold MCP3008ADC.sample_voltage, sampled.
  rewrite bind_run, gets_run, bind_run, modify_run, bind_run. simpl.
  rewrite lift_res_run, Nat.add_1_r. reflexivity.
Qed.

Lemma emit_run (e : event F) (w : world F) :
  emit e w = (Ok tt, sampled w 0 [e]).
Proof. unfold emit, sampled. now rewrite modify_run, Nat.add_0_r. Qed.

Lemma time_sleep_run (d : pynum F) (w : world F) :
  sleep_error d = None ->
  time_sleep d w = (Ok tt, sampled w 0 [Ev_sleep d]).
Proof.
  intros Hd. unfold time_sleep. rewrite Hd. apply emit_run.
Qed.

Lemma time_sleep_raises (d : pynum F) (w : world F) e :
  sleep_error d = Some e -> time_sleep d w = (Raise e, w).
Proof. intros Hd. unfold time_sleep. now rewrite Hd. Qed.

(** An int that is not negative is slept for when it is at most
    [max_sleep_s], and raises [OverflowError] when it is more. *)
Lemma sleep_error_int (n : Z) :
  0 <= n ->
  sleep_error (NInt n : pynum F)
  = if max_sleep_s <? n then Some OverflowError else None.
Proof.
  intros Hn. unfold sleep_error.
  replace (n <? - max_sleep_s) with false
    by (symmetry; apply Z.ltb_ge; unfold max_sleep_s; lia).
  cbn [orb]. destruct (max_sleep_s <? n); [reflexivity|].
  replace (n <? 0) with false by (symmetry; apply Z.ltb_ge; lia).
  reflexivity.
Qed.

Lemma sampled_sampled (w : world F) n1 e1 n2 e2 :
  sampled (sampled w n1 e1) n2 e2 = sampled w (n1 + n2) (e1 ++ e2).
Proof.
  unfold sampled. simpl. now rewrite Nat.add_assoc, app_assoc.
Qed.

(** [n] rounds of the loop: [n] readings, each followed by its sleep. *)
Lemma sample_loop_run (self : Collector.t F) (interval : F)
      (volt : nat -> F) :
  sleep_error (NFloat interval) = None ->
  (forall k, MCP3008ADC.to_voltage (Collector.adc self) (adc_readData env k)
             = Ok (volt k)) ->
  forall (n : nat) (samples : list F) (w : world F),
    Collector.sample_loop env self interval n samples w
    = (Ok (samples ++ map volt (seq (adc_calls w) n)),
       sampled w n (window_events env (Collector.adc self) interval
                                  (adc_calls w) n)).
Proof.
  intros Hneg Hvolt. induction n as [|n IH]; intros samples w.
  - simpl. unfold window_events. simpl.
    now rewrite app_nil_r, sampled_0.
  - cbn [Collector.sample_loop].
    rewrite bind_run, sample_voltage_run, Hvolt, bind_run.
    rewrite (time_sleep_run _ _ Hneg), IH, !sampled_sampled.
    cbn [adc_calls sampled]. rewrite <- app_assoc.
    unfold window_events. cbn [seq flat_map map].
    rewrite Nat.add_1_r. rewrite Nat.add_0_r. repeat f_equal.
Qed.

(** One window, when nothing in it raises. *)
Lemma sample_window_run (self : Collector.t F) (w : world F)
      (interval : F) (volt : nat -> F) (len : F) :
  sampling_ok env (Collector.adc self) (Collector.cfg self)
              interval volt len ->
  Collector.sample_window env self w
  = (Ok (f_div
           (fold_left f_add
              (map volt
                 (seq (adc_calls w)
                    (Z.to_nat
                       (Config.AVERAGING_WINDOW (Collector.cfg self)))))
              (f_of_Z 0))
           len),
     sampled w (Z.to_nat (Config.AVERAGING_WINDOW (Collector.cfg self)))
       (window_events env (Collector.adc self) interval (adc_calls w)
          (Z.to_nat (Config.AVERAGING_WINDOW (Collector.cfg self))))).
Proof.
  intros [Hint Hneg Hvolt Hwin Hlen Hnz].
  change (fold_left f_add ?xs (f_of_Z 0)) with (py_sum xs).
  unfold Collector.sample_window.
  rewrite bind_run, lift_res_run, Hint, bind_run.
  rewrite (sample_loop_run self interval volt Hneg Hvolt).
  rewrite lift_res_run. cbn [app].
  rewrite length_map, length_seq, Z2Nat.id by lia.
  unfold Collector.truediv_int. rewrite Hlen. simpl.
  unfold truediv. rewrite Hnz. reflexivity.
Qed.

(** The events of a window, one by one: the reading number [i] of the
    window comes first, then the sleep that follows it. *)
Lemma window_events_nth (adc : MCP3008ADC.t F) (interval : F) (n : nat) :
  forall (k0 i : nat),
    (i < n)%nat ->
    nth_error (window_events env adc interval k0 n) (2 * i)
    = Some (Ev_readData (MCP3008ADC.channel adc)
                        (adc_readData env (k0 + i)))
    /\ nth_error (window_events env adc interval k0 n) (S (2 * i))
       = Some (Ev_sleep (NFloat interval)).
Proof.
  unfold window_events.
  induction n as [|n IH]; intros k0 i Hi; [lia|].
  cbn [seq flat_map app]. destruct i as [|i].
  - rewrite Nat.add_0_r. split; reflexivity.
  - replace (2 * S i)%nat with (S (S (2 * i))) by lia.
    cbn [nth_error].
    replace (k0 + S i)%nat with (S k0 + i)%nat by lia.
    apply IH. lia.
Qed.

Lemma window_events_length (adc : MCP3008ADC.t F) (interval : F) (n : nat) :
  forall k0 : nat,
    List.length (window_events env adc interval k0 n) = (2 * n)%nat.
Proof.
  unfold window_events.
  induction n as [|n IH]; intros k0; [reflexivity|].
  cbn [seq flat_map app List.length]. rewrite IH. lia.
Qed.

(** C7. When the interval [1.0 / SAMPLE_RATE_HZ] is computed and is one
    [time.sleep] accepts, the readings convert and the window size is
    1 at least (and converts to a float that is not zero), one call of
    [sample_window] takes exactly [AVERAGING_WINDOW] readings from the
    ADC, the next ones in the order the ADC gives them; what happens
    is a reading, a sleep of the interval, a reading, a sleep of the
    interval, and so on, starting with a reading (and ending with the
    sleep after the last one); and it returns the mean of exactly
    those samples as floats give it: the voltages added one by one
    from the left, starting from zero, and the total divided by the
    float of the window size. *)
Theorem sample_window_mean (self : Collector.t F) (w : world F)
        (interval : F) (volt : nat -> F) (len : F) :
  sampling_ok env (Collector.adc self) (Collector.cfg self)
              interval volt len ->
  exists (n : nat) (samples : list F) (evs : list (event F)),
    Z.of_nat n = Config.AVERAGING_WINDOW (Collector.cfg self)
    /\ List.length samples = n
    /\ (forall i, (i < n)%nat ->
          MCP3008ADC.to_voltage (Collector.adc self)
            (adc_readData env (adc_calls w + i))
          = Ok (nth i samples (f_of_Z 0)))
    /\ float_of_int (Z.of_nat (List.length samples)) = Ok len
    /\ Collector.truediv_int (f_of_Z 1)
         (Config.SAMPLE_RATE_HZ (Collector.cfg self)) = Ok interval
    /\ Collector.sample_window env self w
       = (Ok (f_div (fold_left f_add samples (f_of_Z 0)) len),
          sampled w n evs)
    /\ List.length evs = (2 * n)%nat
    /\ (forall i, (i < n)%nat ->
          nth_error evs (2 * i)
          = Some (Ev_readData (MCP3008ADC.channel (Collector.adc self))
                              (adc_readData env (adc_calls w + i)))
          /\ nth_error evs (S (2 * i)) = Some (Ev_sleep (NFloat interval))).
Proof.
  intros Hs. pose proof (sample_window_run self w _ _ _ Hs) as Hrun.
  destruct Hs as [Hint Hneg Hvolt Hwin Hlen Hnz].
  exists (Z.to_nat (Config.AVERAGING_WINDOW (Collector.cfg self))),
         (map volt
            (seq (adc_calls w)
               (Z.to_nat (Config.AVERAGING_WINDOW (Collector.cfg self))))),
         (window_events env (Collector.adc self) interval (adc_calls w)
            (Z.to_nat (Config.AVERAGING_WINDOW (Collector.cfg self)))).
  split; [lia|].
  split; [now rewrite length_map, length_seq|].
  split.
  { intros i Hi. rewrite Hvolt. f_equal.
    rewrite (nth_indep _ _ (volt 0%nat))
      by (rewrite length_map, length_seq; exact Hi).
    rewrite (map_nth volt), seq_nth by exact Hi. reflexivity. }
  split.
  { rewrite length_map, length_seq, Z2Nat.id by lia. exact Hlen. }
  split; [exact Hint|].
  split; [exact Hrun|].
  split; [apply window_events_length|].
  intros i Hi. now apply window_events_nth.
Qed.
End WindowFacts.

(* ------------------------------------------------------------------ *)
(** ** The collector loop                                              *)
(* ------------------------------------------------------------------ *)

Section LoopFacts.
Context {F : Type} `{PyFloat F}.
Variable env : Env F.

(** One [log] of an accepted record on a store that can be opened: the
    record is in the buffer or, with the rest of the buffer, in the
    file. *)
Lemma log_ok (r : pydict F) (l : CSVLogger.t F) (w : world F) :
  fs_denied w = false ->
  forallb accepted (CSVLogger.buffer l) = true ->
  accepted r = true ->
  exists l' w',
    CSVLogger.log r (l, w) = (Ok tt, (l', w'))
    /\ CSVLogger.path l' = CSVLogger.path l
    /\ forallb accepted (CSVLogger.buffer l') = true
    /\ CSVLogger.total_written l'
       + Z.of_nat (List.length (CSVLogger.buffer l'))
       = CSVLogger.total_written l
         + Z.of_nat (List.length (CSVLogger.buffer l)) + 1
    /\ frame (CSVLogger.path l) w w'
    /\ file_at w' (CSVLogger.path l) ++ map to_row (CSVLogger.buffer l')
       = file_at w (CSVLogger.path l)
         ++ map to_row (CSVLogger.buffer l) ++ [to_row r].
Proof.
  intros Hden Hbuf Hr.
  assert (Hacc : forallb accepted (CSVLogger.buffer l ++ [r]) = true).
  { rewrite forallb_app, Hbuf. simpl. now rewrite Hr. }
  rewrite log_run. destruct (_ >=? _).
  - assert (Hne : CSVLogger.buffer (appended l r) <> [])
      by (simpl; destruct (CSVLogger.buffer l); discriminate).
    destruct (flush_nonempty (appended l r) w Hne)
      as (w' & Hrun & Hf & _ & Hfs).
    simpl in Hrun, Hf, Hfs. rewrite Hden, Hacc in Hrun.
    rewrite Hden, (written_prefix_accepted _ Hacc) in Hfs.
    exists (flushed (appended l r)), w'.
    split; [exact Hrun|]. simpl.
    rewrite (file_at_fs _ _ _ Hfs), app_nil_r, map_app, length_app.
    simpl. repeat split; auto; try lia; apply Hf.
  - exists (appended l r), w. simpl.
    rewrite length_app, map_app. simpl.
    repeat split; auto; lia.
Qed.

Lemma collector_on_world_run {A} (m : M (world F) A)
      (c : Collector.t F) (w : world F) :
  Collector.on_world m (c, w) = (fst (m w), (c, snd (m w))).
Proof. unfold Collector.on_world, zoom. simpl. now destruct (m w). Qed.

Lemma collector_on_logger_run {A} (m : M (CSVLogger.self_ F) A)
      (cfg : Config.t F) (l : CSVLogger.t F) (k : Z) (w : world F) :
  Collector.on_logger m (collector_of cfg l k, w)
  = (fst (m (l, w)),
     (collector_of cfg (fst (snd (m (l, w)))) k, snd (snd (m (l, w))))).
Proof.
  unfold Collector.on_logger, zoom. simpl. now destruct (m (l, w)).
Qed.

Lemma calculate_ok (pm : PowerMath.t F) (v : F) :
  f_eqb (PowerMath.gain pm) (f_of_Z 0) = false ->
  f_fits (PowerMath.phases pm) = true ->
  exists rms power, PowerMath.calculate pm v = Ok (rms, power).
Proof.
  intros Hg Hp. unfold PowerMath.calculate, truediv, float_of_int.
  rewrite Hg, Hp. simpl. eauto.
Qed.

Lemma utc_timestamp_run (w : world F) :
  Collector.utc_timestamp env w
  = (Ok (utcnow_isoformat env (clock_calls w) ++ "Z")%string, ticked w).
Proof. reflexivity. Qed.

Lemma file_at_sampled (w : world F) n evs p :
  file_at (sampled w n evs) p = file_at w p.
Proof. reflexivity. Qed.

(** One more cycle, when sampling and transform go through. *)
Lemma cycle_step (cfg : Config.t F) base a0 k (s : Collector.self_ F)
      interval volt len :
  sampling_ok env (MCP3008ADC.init 0) cfg interval volt len ->
  transform_ok cfg ->
  after_cycles cfg base a0 k s ->
  exists s',
    Collector.cycle env s = (Ok tt, s')
    /\ after_cycles cfg base a0 (S k) s'.
Proof.
  intros Hs [Hg Hp] (l & rows & Hc & Hpath & Hbuf & Htw & Hden & Hadc
                     & Hrows & Hfile).
  destruct s as [c w]. simpl in Hc, Hden, Hadc, Hfile. subst c.
  unfold Collector.cycle.
  rewrite bind_run, gets_run. cbv beta. cbn [fst].
  rewrite bind_run, collector_on_world_run.
  rewrite (sample_window_run env (collector_of cfg l (Z.of_nat k)) w
             interval volt len Hs).
  cbn [fst snd].
  set (avg_v := f_div _ len).
  set (w1 := sampled w _ _).
  rewrite bind_run, lift_res_run.
  destruct (calculate_ok
              (Collector.math (collector_of cfg l (Z.of_nat k))) avg_v
              Hg Hp) as (rms & power & Hcalc).
  rewrite Hcalc.
  rewrite bind_run, collector_on_world_run.
  rewrite utc_timestamp_run. cbn [fst snd].
  set (w2 := ticked w1).
  set (record := (_ :: _) : pydict F).
  assert (Hr : accepted record = true) by reflexivity.
  assert (Hden2 : fs_denied w2 = false) by exact Hden.
  destruct (log_ok record l w2 Hden2 Hbuf Hr)
    as (l' & w' & Hlog & Hp' & Hbuf' & Htw' & Hf & Hfile').
  rewrite bind_run, collector_on_logger_run, Hlog. cbn [fst snd].
  rewrite modify_run. cbn [fst snd].
  eexists. split; [reflexivity|].
  exists l', (rows ++ [to_row record]).
  cbn [fst snd].
  split.
  { replace (Z.of_nat (S k)) with (Z.of_nat k + 1) by lia. reflexivity. }
  split; [congruence|]. split; [exact Hbuf'|].
  split; [lia|].
  destruct Hf as (Hd & Ha & _ & _).
  split; [congruence|].
  split.
  { rewrite Ha. unfold w2, w1. simpl. rewrite Hadc. lia. }
  split; [rewrite length_app; simpl; lia|].
  rewrite <- Hpath, Hfile'.
  change (file_at w2 (CSVLogger.path l)) with (file_at w (CSVLogger.path l)).
  rewrite Hpath, !app_assoc, Hfile. reflexivity.
Qed.

Lemma after_cycles_sampled (cfg : Config.t F) base a0 k
      (c : Collector.t F) (w : world F) evs :
  after_cycles cfg base a0 k (c, w) ->
  after_cycles cfg base a0 k (c, sampled w 0 evs).
Proof.
  intros (l & rows & Hc & Hpath & Hbuf & Htw & Hden & Hadc & Hrows & Hfile).
  exists l, rows. cbn [fst snd] in *.
  rewrite file_at_sampled. cbn [sampled adc_calls fs_denied].
  rewrite Nat.add_0_r. auto 10.
Qed.

(** The pause between two windows, when it is one [time.sleep]
    accepts. *)
Lemma pause_run (cfg : Config.t F) base a0 k (s : Collector.self_ F) :
  Config.SLEEP_BETWEEN_WINDOWS_S cfg <= max_sleep_s ->
  after_cycles cfg base a0 k s ->
  exists s',
    (if Config.SLEEP_BETWEEN_WINDOWS_S cfg >? 0
     then Collector.on_world
            (time_sleep (NInt (Config.SLEEP_BETWEEN_WINDOWS_S cfg)))
     else ret tt) s = (Ok tt, s')
    /\ after_cycles cfg base a0 k s'.
Proof.
  intros Hmax Hs. destruct s as [c w].
  destruct (Z.gtb_spec (Config.SLEEP_BETWEEN_WINDOWS_S cfg) 0) as [Hp|Hp].
  - rewrite collector_on_world_run, time_sleep_run.
    + eexists. split; [reflexivity|]. now apply after_cycles_sampled.
    + rewrite sleep_error_int by lia.
      destruct (Z.ltb_spec max_sleep_s (Config.SLEEP_BETWEEN_WINDOWS_S cfg));
        [lia|reflexivity].
  - exists (c, w). split; [reflexivity|exact Hs].
Qed.

Lemma loop_S (fuel : nat) (s : Collector.self_ F) :
  Collector.loop env (S fuel) s
  = match Collector.cycle env s with
    | (Ok _, s1) =>
        let cfg := Collector.cfg (fst s1) in
        if negb (Config.MAX_RECORDS cfg =? 0)
           && (Collector.record_count (fst s1) >=? Config.MAX_RECORDS cfg)
        then (Ok (Some tt), s1)
        else
          match (if Config.SLEEP_BETWEEN_WINDOWS_S cfg >? 0
                 then Collector.on_world
                        (time_sleep
                           (NInt (Config.SLEEP_BETWEEN_WINDOWS_S cfg)))
                 else ret tt) s1 with
          | (Ok _, s2) => Collector.loop env fuel s2
          | (Raise e, s2) => (Raise e, s2)
          end
    | (Raise e, s1) => (Raise e, s1)
    end.
Proof.
  cbn [Collector.loop]. rewrite bind_run.
  destruct (Collector.cycle env s) as [[[]|e] s1]; [|reflexivity].
  rewrite bind_run, gets_run. cbv beta zeta.
  destruct (negb _ && _); reflexivity.
Qed.

Lemma run_unfold (fuel : nat) (c : Collector.t F) (w : world F) :
  Collector.run env fuel (c, w)
  = match Collector.loop env fuel
            (c, sampled (sampled w 0 [Ev_print START]) 0
                        [Ev_print INFO]) with
    | (Ok None, s') => (Ok None, s')
    | (Ok (Some _), s') =>
        match Collector.on_logger CSVLogger.flush s' with
        | (Ok _, s'') =>
            (Ok (Some tt),
             (fst s'',
              sampled (snd s'') 0
                [Ev_print (END (CSVLogger.total_written
                                  (Collector.logger (fst s''))))]))
        | (Raise e, s'') => (Raise e, s'')
        end
    | (Raise e, s') => (Raise e, s')
    end.
Proof.
  unfold Collector.run.
  rewrite bind_run, collector_on_world_run, emit_run. cbn [fst snd].
  rewrite bind_run, collector_on_world_run, emit_run. cbn [fst snd].
  rewrite bind_run.
  destruct (Collector.loop env fuel _) as [[[[]|]|e] s']; try reflexivity.
  rewrite bind_run.
  destruct (Collector.on_logger CSVLogger.flush s') as [[[]|e] [c'' w'']];
    try reflexivity.
  rewrite bind_run, gets_run. cbv beta. cbn [fst].
  rewrite bind_run, collector_on_world_run, emit_run. reflexivity.
Qed.

(** A cycle whose sampling raises ends there: nothing is logged. *)
Lemma cycle_sampling_raises (c : Collector.t F) (w w1 : world F) e :
  Collector.sample_window env c w = (Raise e, w1) ->
  Collector.cycle env (c, w) = (Raise e, (c, w1)).
Proof.
  intros Hw. unfold Collector.cycle.
  rewrite bind_run, gets_run. cbv beta. cbn [fst].
  rewrite bind_run, collector_on_world_run, Hw. reflexivity.
Qed.

Lemma run_first_cycle_raises (fuel : nat) (c : Collector.t F)
      (w w1 : world F) e :
  Collector.sample_window env c
    (sampled (sampled w 0 [Ev_print START]) 0 [Ev_print INFO])
  = (Raise e, w1) ->
  Collector.run env (S fuel) (c, w) = (Raise e, (c, w1)).
Proof.
  intros Hw. rewrite run_unfold, loop_S.
  now rewrite (cycle_sampling_raises _ _ _ _ Hw).
Qed.

(** A cycle whose transform raises ends there: the window was sampled,
    the clock is not read and nothing is logged. *)
Lemma cycle_transform_raises (c : Collector.t F) (w w1 : world F) v e :
  Collector.sample_window env c w = (Ok v, w1) ->
  PowerMath.calculate (Collector.math c) v = Raise e ->
  Collector.cycle env (c, w) = (Raise e, (c, w1)).
Proof.
  intros Hw Hc. unfold Collector.cycle.
  rewrite bind_run, gets_run. cbv beta. cbn [fst].
  rewrite bind_run, collector_on_world_run, Hw. cbn [fst snd].
  rewrite bind_run, lift_res_run, Hc. reflexivity.
Qed.

Lemma run_first_cycle_transform_raises (fuel : nat) (c : Collector.t F)
      (w w1 : world F) v e :
  Collector.sample_window env c
    (sampled (sampled w 0 [Ev_print START]) 0 [Ev_print INFO])
  = (Ok v, w1) ->
  PowerMath.calculate (Collector.math c) v = Raise e ->
  Collector.run env (S fuel) (c, w) = (Raise e, (c, w1)).
Proof.
  intros Hw Hc. rewrite run_unfold, loop_S.
  now rewrite (cycle_transform_raises _ _ _ _ _ Hw Hc).
Qed.

(** A sample rate of 0: the interval cannot be computed. *)
Lemma sample_window_rate_0 `{!PyFloatLaws F} (c : Collector.t F)
      (w : world F) :
  Config.SAMPLE_RATE_HZ (Collector.cfg c) = 0 ->
  Collector.sample_window env c w = (Raise ZeroDivisionError, w).
Proof.
  intros Hr. unfold Collector.sample_window.
  rewrite bind_run, lift_res_run, Hr.
  unfold Collector.truediv_int, float_of_int, truediv.
  rewrite f_fits_0. simpl. rewrite f_zero_eqb. reflexivity.
Qed.

(** A window size below 1: no sample is taken and the mean of nothing
    is a division by zero. *)
Lemma sample_window_empty `{!PyFloatLaws F} (c : Collector.t F)
      (w : world F) interval :
  Config.AVERAGING_WINDOW (Collector.cfg c) < 1 ->
  Collector.truediv_int (f_of_Z 1)
    (Config.SAMPLE_RATE_HZ (Collector.cfg c)) = Ok interval ->
  Collector.sample_window env c w = (Raise ZeroDivisionError, w).
Proof.
  intros Hw Hi. unfold Collector.sample_window.
  rewrite bind_run, lift_res_run, Hi.
  replace (Z.to_nat (Config.AVERAGING_WINDOW (Collector.cfg c)))
    with 0%nat by lia.
  cbn [Collector.sample_loop]. rewrite bind_run, ret_run, lift_res_run.
  unfold Collector.truediv_int, float_of_int, truediv. simpl.
  rewrite f_fits_0. simpl. rewrite f_zero_eqb. reflexivity.
Qed.

(** An interval [time.sleep] refuses: the first sleep raises (if the
    reading before it has not raised already). *)
Lemma sample_window_refused (c : Collector.t F) (w : world F) interval e0 :
  Collector.truediv_int (f_of_Z 1)
    (Config.SAMPLE_RATE_HZ (Collector.cfg c)) = Ok interval ->
  sleep_error (NFloat interval) = Some e0 ->
  1 <= Config.AVERAGING_WINDOW (Collector.cfg c) ->
  exists e,
    Collector.sample_window env c w
    = (Raise e,
       sampled w 1 [Ev_readData (MCP3008ADC.channel (Collector.adc c))
                                (adc_readData env (adc_calls w))])
    /\ (forall v,
          MCP3008ADC.to_voltage (Collector.adc c)
            (adc_readData env (adc_calls w)) = Ok v ->
          e = e0).
Proof.
  intros Hi Hneg Hw. unfold Collector.sample_window.
  rewrite bind_run, lift_res_run, Hi.
  destruct (Z.to_nat (Config.AVERAGING_WINDOW (Collector.cfg c)))
    as [|n] eqn:Hn; [lia|].
  cbn [Collector.sample_loop].
  rewrite bind_run, bind_run, sample_voltage_run.
  destruct (MCP3008ADC.to_voltage _ _) as [v|e].
  - rewrite bind_run, (time_sleep_raises _ _ _ Hneg).
    exists e0. split; [reflexivity|]. reflexivity.
  - exists e. split; [reflexivity|]. intros v Hv. discriminate.
Qed.

Section Loop.
Variables (cfg : Config.t F) (base : list (row F)) (a0 : nat).
Variables (interval : F) (volt : nat -> F) (len : F).
Hypothesis Hsampling :
  sampling_ok env (MCP3008ADC.init 0) cfg interval volt len.
Hypothesis Htransform : transform_ok cfg.
Hypothesis Hpause : Config.SLEEP_BETWEEN_WINDOWS_S cfg <= max_sleep_s.

Lemma after_cycles_cfg k (s : Collector.self_ F) :
  after_cycles cfg base a0 k s ->
  Collector.cfg (fst s) = cfg
  /\ Collector.record_count (fst s) = Z.of_nat k.
Proof. intros (l & rows & -> & _). split; reflexivity. Qed.

(** As long as the maximum is 0, or not reached within the fuel, the
    loop is still running when the fuel is spent. *)
Lemma loop_running (fuel : nat) : forall k (s : Collector.self_ F),
  after_cycles cfg base a0 k s ->
  Config.MAX_RECORDS cfg = 0
  \/ Z.of_nat (k + fuel) < Config.MAX_RECORDS cfg ->
  exists s',
    Collector.loop env fuel s = (Ok None, s')
    /\ after_cycles cfg base a0 (k + fuel) s'.
Proof.
  induction fuel as [|fuel IH]; intros k s Hs Hmax.
  - exists s. rewrite Nat.add_0_r. split; [reflexivity|exact Hs].
  - rewrite loop_S.
    destruct (cycle_step cfg base a0 k s interval volt len
                Hsampling Htransform Hs) as (s1 & Hcyc & Hs1).
    rewrite Hcyc. cbv zeta.
    destruct (after_cycles_cfg _ _ Hs1) as [-> ->].
    replace (negb (Config.MAX_RECORDS cfg =? 0)
             && (Z.of_nat (S k) >=? Config.MAX_RECORDS cfg)) with false.
    2:{ symmetry. apply andb_false_iff.
        destruct Hmax as [H0|Hlt].
        - left. rewrite H0. reflexivity.
        - right. rewrite Z.geb_leb. apply Z.leb_gt. lia. }
    destruct (pause_run cfg base a0 (S k) s1 Hpause Hs1)
      as (s2 & Hrest & Hs2).
    rewrite Hrest.
    destruct (IH (S k) s2 Hs2) as (s' & Hloop & Hs').
    { destruct Hmax as [H0|Hlt]; [now left|right; lia]. }
    exists s'. split; [exact Hloop|].
    now rewrite Nat.add_succ_r.
Qed.

(** With a positive maximum and fuel enough to reach it, the loop is
    left when the counter equals the maximum. *)
Lemma loop_stops (fuel : nat) : forall k (s : Collector.self_ F),
  after_cycles cfg base a0 k s ->
  Z.of_nat k < Config.MAX_RECORDS cfg ->
  Config.MAX_RECORDS cfg <= Z.of_nat (k + fuel) ->
  exists s',
    Collector.loop env fuel s = (Ok (Some tt), s')
    /\ after_cycles cfg base a0 (Z.to_nat (Config.MAX_RECORDS cfg)) s'.
Proof.
  induction fuel as [|fuel IH]; intros k s Hs Hlt Hle; [lia|].
  rewrite loop_S.
  destruct (cycle_step cfg base a0 k s interval volt len
              Hsampling Htransform Hs) as (s1 & Hcyc & Hs1).
  rewrite Hcyc. cbv zeta.
  destruct (after_cycles_cfg _ _ Hs1) as [-> ->].
  replace (negb (Config.MAX_RECORDS cfg =? 0)) with true
    by (symmetry; apply negb_true_iff, Z.eqb_neq; lia).
  cbn [andb].
  destruct (Z.geb_spec (Z.of_nat (S k)) (Config.MAX_RECORDS cfg))
    as [Hge|Hlt'].
  - exists s1. split; [reflexivity|].
    replace (Z.to_nat (Config.MAX_RECORDS cfg)) with (S k) by lia.
    exact Hs1.
  - destruct (pause_run cfg base a0 (S k) s1 Hpause Hs1)
      as (s2 & Hrest & Hs2).
    rewrite Hrest. apply (IH (S k) s2 Hs2); lia.
Qed.

(** [run] from a state the loop can start from, in its three cases. *)
Lemma run_cases (fuel : nat) (s : Collector.self_ F) :
  after_cycles cfg base a0 0 s ->
  (0 < Config.MAX_RECORDS cfg ->
   Config.MAX_RECORDS cfg <= Z.of_nat fuel ->
   exists c' w' rows tr,
     Collector.run env fuel s = (Ok (Some tt), (c', w'))
     /\ Collector.record_count c' = Config.MAX_RECORDS cfg
     /\ CSVLogger.total_written (Collector.logger c')
        = Config.MAX_RECORDS cfg
     /\ CSVLogger.buffer (Collector.logger c') = []
     /\ Z.of_nat (List.length rows) = Config.MAX_RECORDS cfg
     /\ file_at w' (Config.CSV_PATH cfg) = base ++ rows
     /\ trace w' = tr ++ [Ev_print (END (Config.MAX_RECORDS cfg))]
     /\ adc_calls w'
        = (a0 + Z.to_nat (Config.MAX_RECORDS cfg)
                * Z.to_nat (Config.AVERAGING_WINDOW cfg))%nat)
  /\ (Config.MAX_RECORDS cfg = 0
      \/ Z.of_nat fuel < Config.MAX_RECORDS cfg ->
      exists c' w',
        Collector.run env fuel s = (Ok None, (c', w'))
        /\ Collector.record_count c' = Z.of_nat fuel).
Proof.
  intros Hs. destruct s as [c w].
  assert (Hs2 : after_cycles cfg base a0 0
                  (c, sampled (sampled w 0 [Ev_print START]) 0
                              [Ev_print INFO]))
    by (do 2 apply after_cycles_sampled; exact Hs).
  pose proof (run_unfold fuel c w) as Hstart.
  split.
  - intros Hpos Hle.
    destruct (loop_stops fuel 0 _ Hs2) as (s' & Hloop & Hs'); try lia.
    rewrite Hstart, Hloop.
    destruct s' as [c' w'].
    destruct Hs' as (l & rows & Hc & Hpath & Hbuf & Htw & Hden & Hadc
                     & Hrows & Hfile).
    cbn [fst snd] in *. subst c'.
    destruct (final_flush l w' Hden Hbuf)
      as (l'' & w'' & Hfl & Hb'' & Htw'' & Hfile'').
    rewrite collector_on_logger_run, Hfl. cbn [fst snd].
    eexists _, _, rows, _. split; [reflexivity|].
    cbn [collector_of Collector.record_count Collector.logger
         sampled trace adc_calls].
    rewrite file_at_sampled.
    split; [lia|]. split; [lia|]. split; [exact Hb''|].
    split; [lia|].
    split; [now rewrite <- Hpath, Hfile'', Hpath|].
    split.
    + replace (CSVLogger.total_written l'') with (Config.MAX_RECORDS cfg)
        by lia.
      reflexivity.
    + rewrite Nat.add_0_r.
      assert (Hw : adc_calls w'' = adc_calls w').
      { destruct (flush_extends l w') as (r3 & l3 & w3 & Hfl3 & _ & Hext).
        rewrite Hfl in Hfl3. injection Hfl3 as _ _ <-.
        destruct Hext as ((_ & Ha & _) & _). exact Ha. }
      now rewrite Hw, Hadc.
  - intros Hmax.
    destruct (loop_running fuel 0 _ Hs2) as (s' & Hloop & Hs').
    { destruct Hmax; [now left|right; lia]. }
    rewrite Hstart, Hloop. destruct s' as [c' w'].
    exists c', w'. split; [reflexivity|].
    destruct (after_cycles_cfg _ _ Hs') as [_ Hrc]. exact Hrc.
Qed.
End Loop.

(** Building the collector performs no check on the configuration: it
    returns whenever the logger can be opened. *)
Lemma collector_init_ok (cfg : Config.t F) (w : world F) :
  fs_denied w = false ->
  exists w0,
    Collector.init cfg w
    = (Ok (collector_of cfg
             (CSVLogger.mk (Config.CSV_PATH cfg)
                (Config.CSV_FLUSH_INTERVAL cfg) [] 0) 0), w0)
    /\ after_cycles cfg (file_at w0 (Config.CSV_PATH cfg)) (adc_calls w) 0
         (collector_of cfg
            (CSVLogger.mk (Config.CSV_PATH cfg)
               (Config.CSV_FLUSH_INTERVAL cfg) [] 0) 0, w0)
    /\ file_at w0 (Config.CSV_PATH cfg)
       = match fs w (Config.CSV_PATH cfg) with
         | Some c => c
         | None => [header_row]
         end.
Proof.
  intros Hd. unfold Collector.init. rewrite bind_run.
  assert (Hinit : exists w0,
    CSVLogger.init (Config.CSV_PATH cfg) (Config.CSV_FLUSH_INTERVAL cfg) w
    = (Ok (CSVLogger.mk (Config.CSV_PATH cfg)
             (Config.CSV_FLUSH_INTERVAL cfg) [] 0), w0)
    /\ frame (Config.CSV_PATH cfg) w w0
    /\ file_at w0 (Config.CSV_PATH cfg)
       = match fs w (Config.CSV_PATH cfg) with
         | Some c => c
         | None => [header_row]
         end).
  { destruct (fs w (Config.CSV_PATH cfg)) as [c|] eqn:Hp.
    - exists w. rewrite (init_existing _ _ _ _ Hp).
      split; [reflexivity|]. split; [apply frame_refl|].
      apply (file_at_fs _ _ _ Hp).
    - destruct (init_fresh (Config.CSV_PATH cfg)
                  (Config.CSV_FLUSH_INTERVAL cfg) w Hp)
        as (w0 & Hi & Hf & _ & Hfs).
      rewrite Hd in Hi, Hfs. exists w0.
      split; [exact Hi|]. split; [exact Hf|].
      apply (file_at_fs _ _ _ Hfs). }
  destruct Hinit as (w0 & Hi & (Hd0 & Ha0 & _) & Hfile).
  rewrite Hi. exists w0. split; [reflexivity|]. split; [|exact Hfile].
  eexists _, []. cbn [fst snd CSVLogger.path CSVLogger.buffer
                      CSVLogger.total_written].
  rewrite app_nil_r. simpl. repeat split; auto; try congruence.
  - lia.
  - simpl. now rewrite app_nil_r.
Qed.
End LoopFacts.

(* ------------------------------------------------------------------ *)
(** ** The run as a whole                                              *)
(* ------------------------------------------------------------------ *)

Lemma scenario_sampling_ok :
  sampling_ok stub_env (MCP3008ADC.init 0) scenario_config
              0.02%float (fun _ => 1%float) 1%float.
Proof. constructor; try intros k; vm_compute; try reflexivity. discriminate. Qed.

Lemma scenario_transform_ok : transform_ok scenario_config.
Proof. constructor; vm_compute; reflexivity. Qed.

Lemma source_sampling_ok :
  sampling_ok stub_env (MCP3008ADC.init 0) source_config
              0.02%float (fun _ => 1%float) 20%float.
Proof. constructor; try intros k; vm_compute; try reflexivity. discriminate. Qed.

(** The scenario of the specification, run: three records, after the
    header, alike but for their time stamps; the loop is left, and the
    last thing printed is the total of 3. *)
Lemma scenario_run :
  fst (Collector.main stub_env scenario_config 10 empty_world)
  = Ok (Some tt)
  /\ file_at (snd (Collector.main stub_env scenario_config 10 empty_world))
             "readings.csv"
     = [header_row;
        [VStr "msZ"; VStr "pi-001"; VStr "machine-A";
         VFloat 0.3536%float; VFloat 230%float;
         VFloat 243.95%float; VStr "idle"];
        [VStr "ImsZ"; VStr "pi-001"; VStr "machine-A";
         VFloat 0.3536%float; VFloat 230%float;
         VFloat 243.95%float; VStr "idle"];
        [VStr "IImsZ"; VStr "pi-001"; VStr "machine-A";
         VFloat 0.3536%float; VFloat 230%float;
         VFloat 243.95%float; VStr "idle"]]%string
  /\ trace (snd (Collector.main stub_env scenario_config 10 empty_world))
     = [Ev_open "readings.csv" "w"; Ev_print START; Ev_print INFO;
        Ev_readData 0 310; Ev_sleep (NFloat 0.02%float);
        Ev_readData 0 310; Ev_sleep (NFloat 0.02%float);
        Ev_readData 0 310; Ev_sleep (NFloat 0.02%float);
        Ev_open "readings.csv" "a"; Ev_print (END 3)]%string.
Proof. repeat split; vm_compute; reflexivity. Qed.



Lemma ramp_sampling_ok :
  sampling_ok ramp_env (MCP3008ADC.init 0) ramp_config
              0.02%float ramp_volt 4%float.
Proof.
  constructor; try (vm_compute; reflexivity).
  - intros k. unfold ramp_env, ramp_volt. cbn [adc_readData].
    pose proof (Nat.mod_upper_bound k 4 ltac:(lia)) as Hk.
    destruct (k mod 4)%nat as [|[|[|[|n]]]]; try lia;
      vm_compute; reflexivity.
  - vm_compute. discriminate.
Qed.

Lemma sample_window_mean_witness :
  exists c0 w0,
    Collector.init ramp_config empty_world = (Ok c0, w0)
    /\ exists evs,
         Collector.sample_window ramp_env c0 w0
         = (Ok ((0 + 0 + 1 + 2 + 2.9999999999999996) / 4)%float,
            sampled w0 4 evs)
         /\ List.length evs = 8%nat.
Proof.
  destruct (collector_init_ok ramp_config empty_world eq_refl)
    as (w0 & Hinit & (l & rows & _ & _ & _ & _ & _ & Hadc & _) & _).
  eexists _, w0. split; [exact Hinit|].
  simpl in Hadc.
  destruct (sample_window_mean ramp_env
              (collector_of ramp_config
                 (CSVLogger.mk (Config.CSV_PATH ramp_config)
                    (Config.CSV_FLUSH_INTERVAL ramp_config) [] 0) 0)
              w0 0.02%float ramp_volt 4%float ramp_sampling_ok)
    as (n & samples & evs & Hn & Hlen & Hsamples & _ & _ & Hrun & Hevs & _).
  assert (Hn4 : n = 4%nat) by (simpl in Hn; lia).
  rewrite Hn4 in Hlen, Hsamples, Hrun, Hevs. clear Hn Hn4.
  exists evs. split; [|exact Hevs].
  rewrite Hrun. do 2 f_equal.
  destruct samples as [|s0 [|s1 [|s2 [|s3 [|s4 rest]]]]];
    try discriminate Hlen.
  pose proof (Hsamples 0%nat ltac:(lia)) as H0.
  pose proof (Hsamples 1%nat ltac:(lia)) as H1.
  pose proof (Hsamples 2%nat ltac:(lia)) as H2.
  pose proof (Hsamples 3%nat ltac:(lia)) as H3.
  rewrite Hadc in H0, H1, H2, H3. cbn [nth Nat.add] in H0, H1, H2, H3.
  assert (E0 : MCP3008ADC.to_voltage (MCP3008ADC.init 0)
                 (adc_readData ramp_env 0) = Ok 0%float)
    by (vm_compute; reflexivity).
  assert (E1 : MCP3008ADC.to_voltage (MCP3008ADC.init 0)
                 (adc_readData ramp_env 1) = Ok 1%float)
    by (vm_compute; reflexivity).
  assert (E2 : MCP3008ADC.to_voltage (MCP3008ADC.init 0)
                 (adc_readData ramp_env 2) = Ok 2%float)
    by (vm_compute; reflexivity).
  assert (E3 : MCP3008ADC.to_voltage (MCP3008ADC.init 0)
                 (adc_readData ramp_env 3) = Ok 2.9999999999999996%float)
    by (vm_compute; reflexivity).
  cbn [collector_of Collector.adc] in H0, H1, H2, H3.
  rewrite E0 in H0. rewrite E1 in H1. rewrite E2 in H2. rewrite E3 in H3.
  assert (Hs0 : s0 = 0%float)
    by (apply (f_equal (fun r => match r with Ok x => x | Raise _ => s0 end))
          in H0; now symmetry).
  assert (Hs1 : s1 = 1%float)
    by (apply (f_equal (fun r => match r with Ok x => x | Raise _ => s1 end))
          in H1; now symmetry).
  assert (Hs2 : s2 = 2%float)
    by (apply (f_equal (fun r => match r with Ok x => x | Raise _ => s2 end))
          in H2; now symmetry).
  assert (Hs3 : s3 = 2.9999999999999996%float)
    by (apply (f_equal (fun r => match r with Ok x => x | Raise _ => s3 end))
          in H3; now symmetry).
  subst s0 s1 s2 s3. reflexivity.
Defined.




(* ------------------------------------------------------------------ *)
(** ** MCP3008ADC.sample_voltage                                       *)
(* ------------------------------------------------------------------ *)

Lemma ten_bit_readings_In (raw : Z) :
  0 <= raw <= 1023 -> In raw ten_bit_readings.
Proof.
  intros Hr. unfold ten_bit_readings. apply in_map_iff.
  exists (Z.to_nat raw). split; [lia|]. apply in_seq. lia.
Qed.

Lemma ten_bit_voltages_in_range :
  forallb voltage_in_range ten_bit_readings = true.
Proof. vm_compute. reflexivity. Qed.

Lemma ten_bit_voltages_increase : all_increasing ten_bit_voltages = true.
Proof. vm_compute. reflexivity. Qed.

Lemma all_increasing_nth (l : list (res float)) : forall i j d,
  all_increasing l = true ->
  (i < j < List.length l)%nat ->
  res_ltb (nth i l d) (nth j l d) = true.
Proof.
  induction l as [|x l IH]; intros i j d Hl Hij; [simpl in Hij; lia|].
  simpl in Hl. apply andb_prop in Hl as [Hx Hl].
  destruct j as [|j]; [lia|]. destruct i as [|i].
  - simpl. apply (proj1 (forallb_forall _ _) Hx).
    apply nth_In. simpl in Hij. lia.
  - simpl. apply IH; [exact Hl|]. simpl in Hij. lia.
Qed.

Lemma ten_bit_voltages_nth (raw : Z) :
  0 <= raw <= 1023 ->
  nth (Z.to_nat raw) ten_bit_voltages (Raise ZeroDivisionError)
  = MCP3008ADC.to_voltage (MCP3008ADC.init 0) raw.
Proof.
  intros Hr. unfold ten_bit_voltages, ten_bit_readings.
  rewrite map_map.
  rewrite (nth_indep _ _
             (MCP3008ADC.to_voltage (MCP3008ADC.init 0) (Z.of_nat 0)))
    by (rewrite length_map, length_seq; lia).
  rewrite (map_nth (fun n => MCP3008ADC.to_voltage (MCP3008ADC.init 0)
                               (Z.of_nat n))).
  rewrite seq_nth by lia. simpl Nat.add. now rewrite Z2Nat.id by lia.
Qed.

(** X1. In binary64, for every 10-bit reading the driver takes,
    [sample_voltage] returns a voltage between 0 and 3.3 (the ends for
    the readings 0 and 1023), and takes exactly one reading from the
    converter; of two readings the larger gives the larger voltage. *)
Theorem sample_voltage_range (env : Env float) (w : world float)
        (other : Z) :
  0 <= adc_readData env (adc_calls w) <= 1023 ->
  0 <= other <= 1023 ->
  exists v w',
    MCP3008ADC.sample_voltage env (MCP3008ADC.init 0) w = (Ok v, w')
    /\ PrimFloat.leb 0 v = true
    /\ PrimFloat.leb v 3.3 = true
    /\ adc_calls w' = S (adc_calls w)
    /\ trace w' = trace w ++ [Ev_readData 0 (adc_readData env (adc_calls w))]
    /\ fs w' = fs w
    /\ (adc_readData env (adc_calls w) < other ->
        exists v', MCP3008ADC.to_voltage (MCP3008ADC.init 0) other = Ok v'
                   /\ PrimFloat.ltb v v' = true)
    /\ MCP3008ADC.to_voltage (MCP3008ADC.init 0) 0 = Ok 0%float
    /\ MCP3008ADC.to_voltage (MCP3008ADC.init 0) 1023 = Ok 3.3%float.
Proof.
  intros Hr Ho.
  set (raw := adc_readData env (adc_calls w)) in *.
  pose proof (proj1 (forallb_forall _ _) ten_bit_voltages_in_range raw
                (ten_bit_readings_In raw Hr)) as Hv.
  unfold voltage_in_range in Hv.
  rewrite sample_voltage_run. fold raw.
  destruct (MCP3008ADC.to_voltage (MCP3008ADC.init 0) raw) as [v|e] eqn:Hraw;
    [|discriminate].
  apply andb_prop in Hv as [Hlo Hhi].
  eexists v, _. split; [reflexivity|].
  split; [exact Hlo|]. split; [exact Hhi|].
  split; [simpl; lia|]. split; [reflexivity|]. split; [reflexivity|].
  split; [|split; vm_compute; reflexivity].
  intros Hlt.
  pose proof (all_increasing_nth ten_bit_voltages
                (Z.to_nat raw) (Z.to_nat other) (Raise ZeroDivisionError)
                ten_bit_voltages_increase) as Hinc.
  rewrite !ten_bit_voltages_nth, Hraw in Hinc by lia.
  unfold ten_bit_voltages, ten_bit_readings in Hinc.
  rewrite !length_map, length_seq in Hinc.
  specialize (Hinc ltac:(lia)).
  destruct (MCP3008ADC.to_voltage (MCP3008ADC.init 0) other) as [v'|e];
    [|discriminate].
  exists v'. split; [reflexivity|exact Hinc].
Qed.

Lemma sample_voltage_range_witness :
  exists v w',
    MCP3008ADC.sample_voltage stub_env (MCP3008ADC.init 0) empty_world
    = (Ok v, w')
    /\ PrimFloat.leb 0 v = true
    /\ PrimFloat.leb v 3.3 = true.
Proof.
  destruct (sample_voltage_range stub_env empty_world 500
              ltac:(simpl; lia) ltac:(lia))
    as (v & w' & Hrun & Hlo & Hhi & _).
  exists v, w'. repeat split; assumption.
Defined.

(* ------------------------------------------------------------------ *)
(** ** PowerMath.calculate, in binary64 and in exact arithmetic         *)
(* ------------------------------------------------------------------ *)

Lemma ten_bit_map_nth {A} (f : Z -> A) (raw : Z) (d : A) :
  0 <= raw <= 1023 ->
  nth (Z.to_nat raw) (map f ten_bit_readings) d = f raw.
Proof.
  intros Hr. unfold ten_bit_readings. rewrite map_map.
  rewrite (nth_indep _ _ (f (Z.of_nat 0)))
    by (rewrite length_map, length_seq; lia).
  rewrite (map_nth (fun n => f (Z.of_nat n))).
  rewrite seq_nth by lia. simpl Nat.add. now rewrite Z2Nat.id by lia.
Qed.

Lemma ten_bit_currents_increase : all_increasing ten_bit_currents = true.
Proof. vm_compute. reflexivity. Qed.

Lemma ten_bit_powers_increase : all_increasing ten_bit_powers = true.
Proof. vm_compute. reflexivity. Qed.

Lemma ten_bit_currents_last_place :
  forallb current_last_place ten_bit_readings = true.
Proof. vm_compute. reflexivity. Qed.

(** In exact arithmetic the code and the formula of the specification
    are one function. *)
Lemma calculate_spec_real (pm : PowerMath.t R) (v : R) :
  PowerMath.gain pm <> 0%R ->
  PowerMath.calculate pm v = Ok (SignalTransform pm v).
Proof.
  intros Hg. rewrite (calculate_real pm v Hg). unfold SignalTransform.
  cbn [f_div f_mul f_sqrt f_of_Z PyFloat_real].
  reflexivity.
Qed.

(** In binary64 the code multiplies by the constant [ONE_OVER_SQRT2],
    rounded once; that is not dividing by [sqrt 2]. For the reading 3
    of the converter the current [calculate] returns is the float just
    below the one the formula of the specification gives. *)
Lemma calculate_not_spec_binary64 :
  MCP3008ADC.to_voltage (MCP3008ADC.init 0) 3 = Ok 0.009677419354838708%float
  /\ PowerMath.calculate (PowerMath.init 100 50 230 3)%float
       0.009677419354838708%float
     = Ok (0.0034214844250961968, 2.360824253316376)%float
  /\ SignalTransform (PowerMath.init 100 50 230 3)%float
       0.009677419354838708%float
     = (0.003421484425096197, 2.3608242533163764)%float
  /\ PrimFloat.eqb 0.0034214844250961968 0.003421484425096197 = false
  /\ PowerMath.calculate (PowerMath.init 100 50 230 3)%float
       0.009677419354838708%float
     <> Ok (SignalTransform (PowerMath.init 100 50 230 3)%float
              0.009677419354838708%float).
Proof.
  assert (Hcode : PowerMath.calculate (PowerMath.init 100 50 230 3)%float
                    0.009677419354838708%float
                  = Ok (0.0034214844250961968, 2.360824253316376)%float)
    by (vm_compute; reflexivity).
  assert (Hspec : SignalTransform (PowerMath.init 100 50 230 3)%float
                    0.009677419354838708%float
                  = (0.003421484425096197, 2.3608242533163764)%float)
    by (vm_compute; reflexivity).
  assert (Hne : PrimFloat.eqb 0.0034214844250961968 0.003421484425096197
                = false) by (vm_compute; reflexivity).
  repeat split; try assumption; try (vm_compute; reflexivity).
  rewrite Hcode, Hspec. intros Heq.
  apply (f_equal (fun r : res (float * float) =>
                    match r with
                    | Ok cp => fst cp
                    | Raise _ => 0%float
                    end)) in Heq.
  cbn [fst] in Heq. rewrite Heq in Hne.
  assert (Hx : PrimFloat.eqb 0.003421484425096197 0.003421484425096197
               = true) by (vm_compute; reflexivity).
  congruence.
Qed.

(** C1, amended. For every window voltage and calibration constants
    with a gain that is not zero and a phase count a float holds,
    [calculate] returns
    [rms_current = ((v_avg / gain) * ct_range) * (1 / sqrt 2)] and
    [power_w = (phases * rms_current) * line_voltage], each operation
    being the float operation, in this order, and the constant
    [1 / sqrt 2] being computed once. In exact arithmetic that is the
    formula of the specification, which divides by [sqrt 2]; in
    binary64 the two currents are equal or next to each other for the
    voltage of every reading of the converter, with the constants of
    the source. For gain 100, clamp range 50, line voltage 230,
    3 phases and 1.0 V the code returns 0.35355339059327373 and
    243.95183950935888, which round to 0.35355 and 243.95. *)
Theorem calculate_formula {F : Type} `{PyFloat F} (pm : PowerMath.t F)
        (v_avg : F) :
  f_eqb (PowerMath.gain pm) (f_of_Z 0) = false ->
  f_fits (PowerMath.phases pm) = true ->
  (exists rms_current power_w : F,
      PowerMath.calculate pm v_avg = Ok (rms_current, power_w)
      /\ rms_current
         = f_mul (f_mul (f_div v_avg (PowerMath.gain pm))
                        (PowerMath.ct_range pm))
                 (f_div (f_of_Z 1) (f_sqrt (f_of_Z 2)))
      /\ power_w
         = f_mul (f_mul (f_of_Z (PowerMath.phases pm)) rms_current)
                 (PowerMath.line_voltage pm))
  /\ (forall (pm' : PowerMath.t R) (v : R),
        PowerMath.gain pm' <> 0%R ->
        PowerMath.calculate pm' v = Ok (SignalTransform pm' v))
  /\ (forall raw, 0 <= raw <= 1023 ->
        exists v rms_current power_w,
          MCP3008ADC.to_voltage (MCP3008ADC.init 0) raw = Ok v
          /\ PowerMath.calculate (PowerMath.init 100 50 230 3)%float v
             = Ok (rms_current, power_w)
          /\ last_place rms_current
               (fst (SignalTransform (PowerMath.init 100 50 230 3)%float v))
             = true)
  /\ PowerMath.calculate (PowerMath.init 100 50 230 3)%float 1%float
     = Ok (0.35355339059327373, 243.95183950935888)%float
  /\ (0.353550 <? 0.35355339059327373)%float = true
  /\ (0.35355339059327373 <? 0.353555)%float = true
  /\ (243.945 <? 243.95183950935888)%float = true
  /\ (243.95183950935888 <? 243.955)%float = true.
Proof.
  intros Hg Hp. split; [|split; [|split]].
  - rewrite calculate_outcomes, Hg, Hp.
    eexists _, _. split; [reflexivity|]. split; reflexivity.
  - exact calculate_spec_real.
  - intros raw Hr.
    pose proof (proj1 (forallb_forall _ _) ten_bit_currents_last_place raw
                  (ten_bit_readings_In raw Hr)) as Hc.
    unfold current_last_place in Hc.
    destruct (MCP3008ADC.to_voltage (MCP3008ADC.init 0) raw) as [v|];
      [|discriminate].
    change source_math with (PowerMath.init 100 50 230 3)%float in Hc.
    destruct (PowerMath.calculate (PowerMath.init 100 50 230 3)%float v)
      as [[rms power]|] eqn:Hcalc; [|discriminate].
    exists v, rms, power.
    split; [reflexivity|]. split; [exact Hcalc|exact Hc].
  - exact calculate_example_binary64.
Qed.

Lemma calculate_formula_witness :
  exists rms_current power_w : float,
    PowerMath.calculate (PowerMath.init 100 50 230 3)%float 2%float
    = Ok (rms_current, power_w)
    /\ rms_current = (2 / 100 * 50 * (1 / PrimFloat.sqrt 2))%float
    /\ power_w = (3 * rms_current * 230)%float.
Proof.
  refine (proj1 (calculate_formula (PowerMath.init 100 50 230 3)%float
                   2%float _ _)); vm_compute; reflexivity.
Defined.

(** In binary64 a gain and a clamp rating above zero do not keep the
    intermediate results finite: with a gain of 1e-308 the product by
    the phase count overflows, and with a line voltage of 0 the power,
    infinity times zero, is a NaN, which is below or equal to
    nothing. *)
Lemma calculate_overflow_binary64 :
  PowerMath.calculate (PowerMath.init 1e-308 1 0 3)%float 1%float
  = Ok (7.0710678118654747e+307%float, nan)
  /\ PowerMath.calculate (PowerMath.init 1e-308 1 0 3)%float 2%float
     = Ok (infinity, nan)
  /\ (0 <? 1e-308)%float = true
  /\ (nan <=? nan)%float = false.
Proof. repeat split; vm_compute; reflexivity. Qed.

Lemma reading_transform_increase (raw1 raw2 : Z) :
  0 <= raw1 -> raw1 < raw2 -> raw2 <= 1023 ->
  exists c1 p1 c2 p2 : float,
    reading_transform raw1 = Ok (c1, p1)
    /\ reading_transform raw2 = Ok (c2, p2)
    /\ PrimFloat.ltb c1 c2 = true
    /\ PrimFloat.ltb p1 p2 = true.
Proof.
  intros H1 H12 H2.
  assert (Hlen : forall (f : Z -> res float),
             List.length (map f ten_bit_readings) = 1024%nat)
    by (intros f; unfold ten_bit_readings;
        now rewrite length_map, length_map, length_seq).
  pose proof (all_increasing_nth ten_bit_currents (Z.to_nat raw1)
                (Z.to_nat raw2) (Raise ZeroDivisionError)
                ten_bit_currents_increase) as Hc.
  pose proof (all_increasing_nth ten_bit_powers (Z.to_nat raw1)
                (Z.to_nat raw2) (Raise ZeroDivisionError)
                ten_bit_powers_increase) as Hp.
  unfold ten_bit_currents in Hc. unfold ten_bit_powers in Hp.
  rewrite Hlen in Hc, Hp.
  rewrite !ten_bit_map_nth in Hc, Hp by lia.
  specialize (Hc ltac:(lia)). specialize (Hp ltac:(lia)).
  destruct (reading_transform raw1) as [[c1 p1]|]; [|discriminate].
  destruct (reading_transform raw2) as [[c2 p2]|]; [|discriminate].
  exists c1, p1, c2, p2. auto.
Qed.



(* ------------------------------------------------------------------ *)
(** ** Order of binary64 and of the reals                              *)
(* ------------------------------------------------------------------ *)

Ltac cmp_cases :=
  repeat match goal with
         | |- context [Z.compare ?a ?b] => destruct (Z.compare_spec a b)
         | H : context [Z.compare ?a ?b] |- _ => destruct (Z.compare_spec a b)
         | |- context [Pos.compare ?a ?b] => destruct (Pos.compare_spec a b)
         | H : context [Pos.compare ?a ?b] |- _ =>
             destruct (Pos.compare_spec a b)
         end.

Lemma SFltb_trans (x y z : spec_float) :
  SFltb x y = true -> SFltb y z = true -> SFltb x z = true.
Proof.
  unfold SFltb.
  destruct x as [sx|sx| |sx mx ex], y as [sy|sy| |sy my ey],
           z as [sz|sz| |sz mz ez]; simpl;
    try discriminate; try reflexivity;
    repeat match goal with s : bool |- _ => destruct s end;
    try discriminate; try reflexivity;
    change (Pos.compare_cont Eq) with Pos.compare;
    cmp_cases; simpl; try discriminate; try reflexivity; subst;
    try lia; intros; exfalso; lia.
Qed.

Lemma SFcompare_total (x y : spec_float) :
  SFeqb x x = true -> SFeqb y y = true ->
  SFltb x y = true \/ SFeqb x y = true \/ SFltb y x = true.
Proof.
  unfold SFltb, SFeqb.
  destruct x as [sx|sx| |sx mx ex], y as [sy|sy| |sy my ey]; simpl;
    try discriminate; intros _ _;
    repeat match goal with s : bool |- _ => destruct s end;
    auto;
    change (Pos.compare_cont Eq) with Pos.compare;
    cmp_cases; simpl; auto; subst; try lia.
Qed.

Lemma SFltb_not_nan (x y : spec_float) :
  SFltb x y = true -> SFeqb x x = true /\ SFeqb y y = true.
Proof.
  unfold SFltb, SFeqb.
  destruct x as [sx|sx| |sx mx ex], y as [sy|sy| |sy my ey]; simpl;
    try discriminate; intros _;
    repeat match goal with s : bool |- _ => destruct s end;
    rewrite ?Z.compare_refl;
    change (Pos.compare_cont Eq) with Pos.compare;
    rewrite ?Pos.compare_refl; auto.
Qed.

#[export] Instance PyFloatOrder_binary64 : PyFloatOrder float.
Proof.
  constructor; simpl.
  - intros x y z. rewrite !ltb_spec. apply SFltb_trans.
  - intros x y. rewrite !eqb_spec, !ltb_spec. apply SFcompare_total.
  - intros x y. rewrite !eqb_spec, !ltb_spec. apply SFltb_not_nan.
Qed.

#[export] Instance PyFloatOrder_real : PyFloatOrder R.
Proof.
  constructor; simpl.
  - intros x y z Hxy Hyz. apply Rltb_true in Hxy, Hyz.
    apply Rltb_true. lra.
  - intros x y _ _. destruct (Rtotal_order x y) as [Hlt|[Heq|Hgt]].
    + left. now apply Rltb_true.
    + right. left. now apply Reqb_true.
    + right. right. now apply Rltb_true.
  - intros x y _. split; now apply Reqb_true.
Qed.

Section OrderFacts.
Context {F : Type} `{PyFloatOrder F}.

(** [x >= y] and [z < y] give [z < x]. *)
Lemma f_ltb_below (x y z : F) :
  f_eqb x x = true -> f_eqb y y = true ->
  f_ltb x y = false -> f_ltb z y = true -> f_ltb z x = true.
Proof.
  intros Hx Hy Hxy Hzy.
  destruct (f_total x y Hx Hy) as [Hlt|[Heq|Hgt]].
  - congruence.
  - now rewrite (f_eqb_ltb_r _ _ _ Heq).
  - eapply f_ltb_trans; eassumption.
Qed.

(** [x <= y] and [y < z] give [x < z]. *)
Lemma f_ltb_above (x y z : F) :
  f_eqb x x = true -> f_eqb y y = true ->
  f_ltb y x = false -> f_ltb y z = true -> f_ltb x z = true.
Proof.
  intros Hx Hy Hyx Hyz.
  destruct (f_total x y Hx Hy) as [Hlt|[Heq|Hgt]].
  - eapply f_ltb_trans; eassumption.
  - now rewrite (f_eqb_ltb_l _ _ _ Heq).
  - congruence.
Qed.

End OrderFacts.

(* ------------------------------------------------------------------ *)
(** ** StateClassifier.classify, further                               *)
(* ------------------------------------------------------------------ *)

(** X2. Whatever the two thresholds are, [classify] never goes down
    when the current goes up: for currents that are not NaN, a larger
    current never gets a label earlier in the order idle, running,
    fault. *)
Theorem classify_monotone {F : Type} `{PyFloatOrder F}
        (sc : StateClassifier.t F) (x y : F) :
  f_eqb x x = true -> f_eqb y y = true ->
  f_ltb y x = false ->
  (label_rank (StateClassifier.classify sc x)
   <= label_rank (StateClassifier.classify sc y))%nat.
Proof.
  intros Hx Hy Hle. unfold StateClassifier.classify.
  destruct (f_ltb x (StateClassifier.idle_threshold sc)) eqn:Hxi;
    [apply Nat.le_0_l|].
  assert (Hyi : f_ltb y (StateClassifier.idle_threshold sc) = false).
  { destruct (f_ltb y (StateClassifier.idle_threshold sc)) eqn:Hyi;
      [|reflexivity].
    rewrite (f_ltb_above x y _ Hx Hy Hle Hyi) in Hxi. discriminate. }
  rewrite Hyi.
  destruct (f_ltb (StateClassifier.fault_threshold sc) x) eqn:Hfx.
  - now rewrite (f_ltb_below y x _ Hy Hx Hle Hfx).
  - destruct (f_ltb (StateClassifier.fault_threshold sc) y);
      vm_compute; lia.
Qed.

Lemma classify_monotone_witness :
  (label_rank (StateClassifier.classify
                 (StateClassifier.init 0.5 100)%float 0.3%float)
   <= label_rank (StateClassifier.classify
                    (StateClassifier.init 0.5 100)%float 7%float))%nat.
Proof.
  apply (classify_monotone (StateClassifier.init 0.5 100)%float
           0.3%float 7%float); vm_compute; reflexivity.
Defined.

(** X3. With the thresholds the wrong way round (fault below idle) no
    current is ever "running": every current that is not NaN is "idle"
    or "fault", and only a NaN is "running". *)
Theorem classify_inverted {F : Type} `{PyFloatOrder F}
        (sc : StateClassifier.t F) (x : F) :
  f_ltb (StateClassifier.fault_threshold sc)
        (StateClassifier.idle_threshold sc) = true ->
  (StateClassifier.classify sc x = "running"%string
   <-> f_eqb x x = false)
  /\ (f_eqb x x = true ->
      StateClassifier.classify sc x = "idle"%string
      \/ StateClassifier.classify sc x = "fault"%string).
Proof.
  intros Hinv.
  destruct (f_ltb_not_nan _ _ Hinv) as [Hf Hi].
  assert (Hcases : f_eqb x x = true ->
            f_ltb x (StateClassifier.idle_threshold sc) = true
            \/ f_ltb (StateClassifier.fault_threshold sc) x = true).
  { intros Hx.
    destruct (f_ltb x (StateClassifier.idle_threshold sc)) eqn:Hxi;
      [now left|right].
    apply (f_ltb_below x _ _ Hx Hi Hxi Hinv). }
  split; [split|].
  - intros Hrun. apply classify_running in Hrun as [Hr1 Hr2].
    destruct (f_eqb x x) eqn:Hx; [|reflexivity].
    destruct (Hcases eq_refl); congruence.
  - intros Hx. apply classify_running. split.
    + destruct (f_ltb x (StateClassifier.idle_threshold sc)) eqn:Hxi;
        [|reflexivity].
      destruct (f_ltb_not_nan _ _ Hxi). congruence.
    + destruct (f_ltb (StateClassifier.fault_threshold sc) x) eqn:Hfx;
        [|reflexivity].
      destruct (f_ltb_not_nan _ _ Hfx). congruence.
  - intros Hx. destruct (Hcases Hx) as [Hxi|Hfx].
    + left. now apply classify_idle.
    + destruct (f_ltb x (StateClassifier.idle_threshold sc)) eqn:Hxi.
      * left. now apply classify_idle.
      * right. apply classify_fault. auto.
Qed.

Lemma classify_inverted_witness :
  StateClassifier.classify (StateClassifier.init 0.5 0.1)%float 0.3%float
  = "idle"%string
  \/ StateClassifier.classify (StateClassifier.init 0.5 0.1)%float 0.3%float
     = "fault"%string.
Proof.
  refine (proj2 (classify_inverted (StateClassifier.init 0.5 0.1)%float
                   0.3%float _) _); vm_compute; reflexivity.
Defined.

(* ------------------------------------------------------------------ *)
(** ** PowerMath.calculate, further                                    *)
(* ------------------------------------------------------------------ *)

Lemma Prim2SF_is_nan (x : float) :
  Prim2SF x = S754_nan -> PrimFloat.is_nan x = true.
Proof.
  intros Hx. unfold PrimFloat.is_nan. rewrite eqb_spec, Hx. reflexivity.
Qed.

Lemma mul_nan (x y : float) :
  PrimFloat.is_nan x = true \/ PrimFloat.is_nan y = true ->
  PrimFloat.is_nan (x * y)%float = true.
Proof.
  intros Hxy. apply Prim2SF_is_nan. rewrite mul_spec. unfold SF64mul.
  destruct Hxy as [Hx|Hy].
  - now rewrite (is_nan_Prim2SF x Hx).
  - rewrite (is_nan_Prim2SF y Hy). now destruct (Prim2SF x).
Qed.

Lemma div_nan (x y : float) :
  PrimFloat.is_nan x = true \/ PrimFloat.is_nan y = true ->
  PrimFloat.is_nan (x / y)%float = true.
Proof.
  intros Hxy. apply Prim2SF_is_nan. rewrite div_spec. unfold SF64div.
  destruct Hxy as [Hx|Hy].
  - now rewrite (is_nan_Prim2SF x Hx).
  - rewrite (is_nan_Prim2SF y Hy). now destruct (Prim2SF x).
Qed.


(** X4. In binary64 a NaN is passed through: when the window voltage,
    the gain or the clamp range is a NaN (and the gain is not zero, the
    phase count converts), [calculate] returns, both the current and
    the power are NaN, and the classifier labels that current
    "running" whatever the thresholds. *)
Theorem calculate_nan (pm : PowerMath.t float) (v : float) :
  PrimFloat.is_nan v = true
  \/ PrimFloat.is_nan (PowerMath.gain pm) = true
  \/ PrimFloat.is_nan (PowerMath.ct_range pm) = true ->
  PrimFloat.eqb (PowerMath.gain pm) 0 = false ->
  f_fits (F:=float) (PowerMath.phases pm) = true ->
  exists rms power,
    PowerMath.calculate pm v = Ok (rms, power)
    /\ PrimFloat.is_nan rms = true
    /\ PrimFloat.is_nan power = true
    /\ forall sc, StateClassifier.classify sc rms = "running"%string.
Proof.
  intros Hnan Hg Hp. rewrite calculate_outcomes.
  change (f_eqb (PowerMath.gain pm) (f_of_Z 0))
    with (PrimFloat.eqb (PowerMath.gain pm) 0).
  rewrite Hg, Hp. eexists _, _. split; [reflexivity|].
  assert (Hrms : PrimFloat.is_nan
            (v / PowerMath.gain pm * PowerMath.ct_range pm
             * PowerMath.ONE_OVER_SQRT2)%float = true).
  { apply mul_nan. left. apply mul_nan.
    destruct Hnan as [Hv|[Hgn|Hc]].
    - left. apply div_nan. now left.
    - left. apply div_nan. now right.
    - now right. }
  split; [exact Hrms|]. split.
  - apply mul_nan. left. apply mul_nan. right. exact Hrms.
  - intros sc. apply classify_running.
    destruct (ltb_nan _ (StateClassifier.idle_threshold sc) Hrms) as [H1 _].
    destruct (ltb_nan _ (StateClassifier.fault_threshold sc) Hrms) as [_ H2].
    split; assumption.
Qed.

Lemma calculate_nan_witness :
  exists rms power,
    PowerMath.calculate (PowerMath.init 100 50 230 3)%float nan
    = Ok (rms, power)
    /\ PrimFloat.is_nan rms = true
    /\ PrimFloat.is_nan power = true
    /\ forall sc, StateClassifier.classify sc rms = "running"%string.
Proof.
  apply (calculate_nan (PowerMath.init 100 50 230 3)%float nan);
    [left|..]; vm_compute; reflexivity.
Defined.

(* ------------------------------------------------------------------ *)
(** ** The line of a record                                            *)
(* ------------------------------------------------------------------ *)

Section RowFacts.
Context {F : Type}.

Lemma dict_get_In (d : pydict F) (k : string) (v default : pyval F) :
  NoDup (map fst d) -> In (k, v) d ->
  CSVLogger.dict_get d k default = v.
Proof.
  induction d as [|[k' v'] d IH]; intros Hnd Hin; [contradiction|].
  simpl in *. inversion Hnd as [|? ? Hk' Hnd']; subst.
  destruct Hin as [Heq|Hin].
  - injection Heq as -> ->. now rewrite String.eqb_refl.
  - destruct (String.eqb_spec k' k) as [->|Hne].
    + exfalso. apply Hk'. apply in_map_iff. now exists (k, v).
    + now apply IH.
Qed.

Lemma dict_get_missing (d : pydict F) (k : string) (default : pyval F) :
  ~ In k (map fst d) -> CSVLogger.dict_get d k default = default.
Proof.
  induction d as [|[k' v'] d IH]; intros Hk; [reflexivity|].
  simpl in *. destruct (String.eqb_spec k' k) as [->|Hne].
  - exfalso. apply Hk. now left.
  - apply IH. intros Hin. apply Hk. now right.
Qed.

Lemma dict_get_perm (d d' : pydict F) :
  Permutation d d' -> NoDup (map fst d) ->
  forall k default,
    CSVLogger.dict_get d k default = CSVLogger.dict_get d' k default.
Proof.
  induction 1 as [|[k1 v1] d d' Hp IH|[k1 v1] [k2 v2] d|d1 d2 d3 H12 IH12 H23 IH23];
    intros Hnd k default.
  - reflexivity.
  - simpl. inversion Hnd; subst. now rewrite IH.
  - simpl. inversion Hnd as [|? ? Hk Hnd']; subst. simpl in Hk.
    destruct (String.eqb_spec k1 k) as [->|H1];
      destruct (String.eqb_spec k2 k) as [->|H2]; try reflexivity.
    exfalso. apply Hk. now left.
  - rewrite IH12 by exact Hnd. apply IH23.
    apply (Permutation_NoDup (Permutation_map fst H12) Hnd).
Qed.

Lemma existsb_perm {A} (f : A -> bool) (l l' : list A) :
  Permutation l l' -> existsb f l = existsb f l'.
Proof.
  induction 1 as [|x l l' Hp IH|x y l|l1 l2 l3 H12 IH12 H23 IH23]; simpl.
  - reflexivity.
  - now rewrite IH.
  - destruct (f x), (f y); reflexivity.
  - congruence.
Qed.

(** X8. What [DictWriter] makes of a record does not depend on the
    order in which the keys went into the dict (keys are distinct, as
    in any dict): the same records are refused, and an accepted record
    gives the same line. That line has one cell per field name, in the
    order of the field names; the cell of a field the record has is
    its value, the cell of a field it lacks is the empty string. *)
Theorem dict_to_list_by_header (fieldnames : list string)
        (d d' : pydict F) :
  NoDup (map fst d) ->
  Permutation d d' ->
  CSVLogger._dict_to_list fieldnames d
  = CSVLogger._dict_to_list fieldnames d'
  /\ (forall r,
        CSVLogger._dict_to_list fieldnames d = Ok r ->
        List.length r = List.length fieldnames
        /\ (forall i k v,
              nth_error fieldnames i = Some k -> In (k, v) d ->
              nth_error r i = Some v)
        /\ (forall i k,
              nth_error fieldnames i = Some k -> ~ In k (map fst d) ->
              nth_error r i = Some (VStr "")))
  /\ (CSVLogger._dict_to_list fieldnames d = Raise ValueError
      <-> exists k, In k (map fst d) /\ ~ In k fieldnames).
Proof.
  intros Hnd Hp. unfold CSVLogger._dict_to_list.
  rewrite (existsb_perm _ _ _ Hp).
  split; [|split].
  - destruct (existsb _ d'); [reflexivity|]. f_equal.
    apply map_ext. intros k. now apply dict_get_perm.
  - intros r. destruct (existsb _ d'); [discriminate|].
    intros Hr. injection Hr as <-.
    split; [apply length_map|]. split.
    + intros i k v Hi Hin. rewrite nth_error_map, Hi. simpl. f_equal.
      now apply dict_get_In.
    + intros i k Hi Hk. rewrite nth_error_map, Hi. simpl. f_equal.
      now apply dict_get_missing.
  - rewrite <- (existsb_perm _ _ _ Hp).
    destruct (existsb _ d) eqn:He.
    + split; [intros _|reflexivity].
      apply existsb_exists in He as ([k v] & Hin & Hk).
      exists k. split; [apply in_map_iff; now exists (k, v)|].
      apply negb_true_iff in Hk. unfold CSVLogger.mem_str in Hk. simpl in Hk.
      intros Hm. assert (Ht : existsb (String.eqb k) fieldnames = true).
      { apply existsb_exists. exists k. split; [exact Hm|].
        apply String.eqb_refl. }
      congruence.
    + split; [discriminate|]. intros (k & Hk & Hnot). exfalso.
      apply in_map_iff in Hk as ([k' v] & Hkk & Hin). simpl in Hkk. subst k'.
      assert (Ht : existsb
                (fun kv => negb (CSVLogger.mem_str (fst kv) fieldnames)) d
              = true).
      { apply existsb_exists. exists (k, v). split; [exact Hin|].
        apply negb_true_iff. unfold CSVLogger.mem_str. simpl.
        destruct (existsb (String.eqb k) fieldnames) eqn:Hm; [|reflexivity].
        apply existsb_exists in Hm as (k2 & Hin2 & Heq).
        apply String.eqb_eq in Heq. subst k2. contradiction. }
      congruence.
Qed.
End RowFacts.

Lemma dict_to_list_by_header_witness :
  CSVLogger._dict_to_list CSVLogger.HEADERS
    [("state", VStr "idle"); ("timestamp", VStr "t0")]%string
  = CSVLogger._dict_to_list CSVLogger.HEADERS record_ok.
Proof.
  refine (proj1 (dict_to_list_by_header CSVLogger.HEADERS
                   [("state", VStr "idle"); ("timestamp", VStr "t0")]%string
                   record_ok _ _)).
  - simpl. constructor; [|constructor; [|constructor]]; simpl.
    + intros [Hc|[]]. discriminate.
    + intros [].
  - apply perm_swap.
Defined.

(* ------------------------------------------------------------------ *)
(** ** The logger, further                                             *)
(* ------------------------------------------------------------------ *)

Section LoggerAccounting.
Context {F : Type}.
Implicit Types (w : world F) (l : CSVLogger.t F).

Lemma open_a_denied (p : string) w :
  fs_denied w = true ->
  open_a p w
  = (Raise OSError,
     mkWorld (fs w) (fs_denied w) (adc_calls w) (clock_calls w)
             (trace w ++ [Ev_open p "a"]) (dir_missing w)).
Proof.
  intros Hd. unfold open_a, bind, emit, modify, gets, raise. simpl.
  rewrite Hd. reflexivity.
Qed.

Lemma written_prefix_length (ds : list (pydict F)) :
  (List.length (written_prefix ds) <= List.length ds)%nat.
Proof.
  induction ds as [|d ds IH]; simpl; [lia|].
  destruct (accepted d); simpl; lia.
Qed.

(** One [flush], whatever its outcome: the attributes set at
    construction stay, the counter grows by no more than the number of
    lines that reached the file, the lines the file held stay first,
    and the buffer is emptied or untouched. *)
Lemma flush_accounting l w :
  exists r l' w' added,
    CSVLogger.flush (l, w) = (r, (l', w'))
    /\ CSVLogger.path l' = CSVLogger.path l
    /\ CSVLogger.flush_interval l' = CSVLogger.flush_interval l
    /\ file_at w' (CSVLogger.path l) = file_at w (CSVLogger.path l) ++ added
    /\ 0 <= CSVLogger.total_written l' - CSVLogger.total_written l
         <= Z.of_nat (List.length added)
    /\ fs_denied w' = fs_denied w
    /\ (CSVLogger.buffer l' = CSVLogger.buffer l
        \/ CSVLogger.buffer l' = [] /\ r = Ok tt).
Proof.
  destruct (CSVLogger.buffer l) as [|d ds] eqn:Hb.
  - exists (Ok tt), l, w, []. rewrite (flush_empty l w Hb), app_nil_r.
    repeat split; auto; lia.
  - assert (Hne : CSVLogger.buffer l <> []) by (rewrite Hb; discriminate).
    destruct (flush_nonempty l w Hne) as (w' & Hrun & (Hd & _) & _ & Hfs).
    rewrite Hrun. rewrite <- Hb.
    destruct (fs_denied w) eqn:Hden.
    + exists (Raise OSError), l, w', [].
      unfold file_at. rewrite Hfs, app_nil_r.
      repeat split; auto; lia.
    + destruct (forallb accepted (CSVLogger.buffer l)) eqn:Hacc.
      * exists (Ok tt), (flushed l), w', (map to_row (CSVLogger.buffer l)).
        rewrite (written_prefix_accepted _ Hacc) in Hfs.
        rewrite (file_at_fs _ _ _ Hfs), length_map. simpl.
        repeat split; auto; lia.
      * exists (Raise ValueError), l, w',
          (written_prefix (CSVLogger.buffer l)).
        rewrite (file_at_fs _ _ _ Hfs).
        repeat split; auto; lia.
Qed.

Lemma call_accounting (c : call) l w :
  exists r l' w' added,
    do_call c (l, w) = (r, (l', w'))
    /\ CSVLogger.path l' = CSVLogger.path l
    /\ CSVLogger.flush_interval l' = CSVLogger.flush_interval l
    /\ file_at w' (CSVLogger.path l) = file_at w (CSVLogger.path l) ++ added
    /\ 0 <= CSVLogger.total_written l' - CSVLogger.total_written l
         <= Z.of_nat (List.length added)
    /\ fs_denied w' = fs_denied w.
Proof.
  destruct c as [rec|]; simpl.
  - rewrite log_run. destruct (_ >=? _).
    + destruct (flush_accounting (appended l rec) w)
        as (r & l' & w' & added & Hrun & Hp & Hi & Hf & Htw & Hd & _).
      exists r, l', w', added. simpl in *. auto 10.
    + exists (Ok tt), (appended l rec), w, []. rewrite app_nil_r. simpl.
      repeat split; auto; lia.
  - destruct (flush_accounting l w)
      as (r & l' & w' & added & Hrun & Hp & Hi & Hf & Htw & Hd & _).
    exists r, l', w', added. auto 10.
Qed.

(** X9. Through any sequence of [log] and [flush] calls, with any
    records and whether the store can be opened or not, up to the first
    call that raises: path and flush interval stay as constructed,
    [total_written] never goes down, the lines the store held stay in
    place at its start, and [total_written] grows by no more than the
    number of lines added to the store, so that every record counted
    as written is in the store. *)
Theorem calls_accounting (cs : list call) : forall l w,
  exists r l' w' added,
    for_each cs do_call (l, w) = (r, (l', w'))
    /\ CSVLogger.path l' = CSVLogger.path l
    /\ CSVLogger.flush_interval l' = CSVLogger.flush_interval l
    /\ file_at w' (CSVLogger.path l) = file_at w (CSVLogger.path l) ++ added
    /\ 0 <= CSVLogger.total_written l' - CSVLogger.total_written l
         <= Z.of_nat (List.length added).
Proof.
  induction cs as [|c cs IH]; intros l w.
  - exists (Ok tt), l, w, []. rewrite app_nil_r. simpl.
    repeat split; auto; lia.
  - rewrite for_each_cons.
    destruct (call_accounting c l w)
      as (r & l1 & w1 & a1 & Hrun & Hp & Hi & Hf & Htw & _).
    rewrite Hrun. destruct r as [[]|e].
    + destruct (IH l1 w1) as (r' & l' & w' & a2 & Hrun' & Hp' & Hi' & Hf'
                              & Htw').
      exists r', l', w', (a1 ++ a2). rewrite Hrun'.
      rewrite Hp in Hf'. rewrite Hf', Hf, app_assoc, length_app.
      repeat split; try congruence; lia.
    + exists (Raise e), l1, w1, a1. repeat split; auto; lia.
Qed.

(** X10. For any flush interval, zero and negative ones too: logging
    accepted records on a store that can be opened never raises, and
    what the store holds followed by what the buffer holds is what
    they held before followed by the new records, in the order they
    were logged; nothing is lost, repeated or reordered, and
    [total_written] plus the buffer length grows by the number of
    records. *)
Theorem log_all_conserves (records : list (pydict F)) : forall l w,
  fs_denied w = false ->
  forallb accepted (CSVLogger.buffer l) = true ->
  forallb accepted records = true ->
  exists l' w',
    log_all records (l, w) = (Ok tt, (l', w'))
    /\ file_at w' (CSVLogger.path l) ++ map to_row (CSVLogger.buffer l')
       = file_at w (CSVLogger.path l)
         ++ map to_row (CSVLogger.buffer l) ++ map to_row records
    /\ CSVLogger.total_written l'
       + Z.of_nat (List.length (CSVLogger.buffer l'))
       = CSVLogger.total_written l
         + Z.of_nat (List.length (CSVLogger.buffer l))
         + Z.of_nat (List.length records)
    /\ forallb accepted (CSVLogger.buffer l') = true.
Proof.
  induction records as [|r rs IH]; intros l w Hd Hb Hrs.
  - exists l, w. simpl. rewrite app_nil_r, Z.add_0_r. auto.
  - simpl in Hrs. apply andb_prop in Hrs as [Hr Hrs].
    rewrite log_all_cons.
    destruct (log_ok r l w Hd Hb Hr)
      as (l1 & w1 & Hlog & Hp & Hb1 & Htw1 & (Hd1 & _) & Hf1).
    rewrite Hlog.
    destruct (IH l1 w1) as (l' & w' & Hrun & Hf & Htw & Hb');
      [congruence|exact Hb1|exact Hrs|].
    exists l', w'. split; [exact Hrun|].
    rewrite Hp in Hf. split; [|split; [|exact Hb']].
    + rewrite Hf, app_assoc, Hf1. simpl.
      rewrite <- !app_assoc. reflexivity.
    + simpl List.length. lia.
Qed.

(** X11. A flush interval of 1 or less writes through: from an empty
    buffer, each accepted record logged on a store that can be opened
    is in the store when [log] returns, the buffer is empty again, and
    the store was opened once per record. *)
Theorem log_writes_through (records : list (pydict F)) : forall l w,
  CSVLogger.flush_interval l <= 1 ->
  CSVLogger.buffer l = [] ->
  fs_denied w = false ->
  forallb accepted records = true ->
  exists l' w',
    log_all records (l, w) = (Ok tt, (l', w'))
    /\ CSVLogger.buffer l' = []
    /\ CSVLogger.total_written l'
       = CSVLogger.total_written l + Z.of_nat (List.length records)
    /\ file_at w' (CSVLogger.path l)
       = file_at w (CSVLogger.path l) ++ map to_row records
    /\ opens (CSVLogger.path l) "a" (trace w')
       = (opens (CSVLogger.path l) "a" (trace w) + List.length records)%nat.
Proof.
  induction records as [|r rs IH]; intros l w Hfi Hb Hd Hrs.
  - exists l, w. simpl. rewrite app_nil_r, Z.add_0_r, Nat.add_0_r. auto.
  - simpl in Hrs. apply andb_prop in Hrs as [Hr Hrs].
    rewrite log_all_cons, log_run.
    replace (Z.of_nat (List.length (CSVLogger.buffer l ++ [r]))
             >=? CSVLogger.flush_interval l) with true.
    2:{ symmetry. rewrite Z.geb_leb. apply Z.leb_le.
        rewrite length_app. simpl. lia. }
    assert (Hne : CSVLogger.buffer (appended l r) <> [])
      by (simpl; rewrite Hb; discriminate).
    assert (Hacc : forallb accepted (CSVLogger.buffer (appended l r)) = true)
      by (simpl; rewrite Hb; simpl; now rewrite Hr).
    destruct (flush_nonempty (appended l r) w Hne)
      as (w1 & Hrun & (Hd1 & _) & Ht1 & Hfs1).
    rewrite Hd, Hacc in Hrun. rewrite Hd in Hfs1.
    rewrite (written_prefix_accepted _ Hacc) in Hfs1.
    rewrite Hrun.
    destruct (IH (flushed (appended l r)) w1) as
        (l' & w' & Hrun' & Hb' & Htw' & Hf' & Ho');
      [exact Hfi|reflexivity|congruence|exact Hrs|].
    exists l', w'. split; [exact Hrun'|].
    cbn [flushed appended CSVLogger.path CSVLogger.buffer
         CSVLogger.total_written] in Htw', Hf', Ho', Hfs1, Ht1.
    rewrite Hb in Htw', Hfs1. cbn [app map List.length] in Htw', Hfs1.
    split; [exact Hb'|]. split; [simpl List.length; lia|]. split.
    + rewrite Hf', (file_at_fs _ _ _ Hfs1), <- app_assoc. reflexivity.
    + rewrite Ho', Ht1, opens_app, opens_one. simpl List.length. lia.
Qed.

Lemma flush_again_S (n : nat) (s : CSVLogger.self_ F) :
  flush_again (S n) s = snd (CSVLogger.flush (flush_again n s)).
Proof. reflexivity. Qed.

(** X12. A flush that fails on a refused record is not undone and not
    remembered: each further [flush] raises [ValueError] again, leaves
    the logger as it is, and writes the lines of the records before the
    refused one once more, so that after [n] attempts the store holds
    them [n] times. *)
Theorem flush_again_repeats (n : nat) l w :
  fs_denied w = false ->
  forallb accepted (CSVLogger.buffer l) = false ->
  fst (flush_again n (l, w)) = l
  /\ fs_denied (snd (flush_again n (l, w))) = false
  /\ fst (CSVLogger.flush (flush_again n (l, w))) = Raise ValueError
  /\ file_at (snd (flush_again n (l, w))) (CSVLogger.path l)
     = file_at w (CSVLogger.path l)
       ++ List.concat (repeat (written_prefix (CSVLogger.buffer l)) n).
Proof.
  intros Hd Hacc.
  assert (Hne : CSVLogger.buffer l <> [])
    by (intros Hb; rewrite Hb in Hacc; discriminate).
  assert (Hstep : forall w0, fs_denied w0 = false ->
            exists w1,
              CSVLogger.flush (l, w0) = (Raise ValueError, (l, w1))
              /\ fs_denied w1 = false
              /\ file_at w1 (CSVLogger.path l)
                 = file_at w0 (CSVLogger.path l)
                   ++ written_prefix (CSVLogger.buffer l)).
  { intros w0 Hd0.
    destruct (flush_nonempty l w0 Hne) as (w1 & Hrun & (Hd1 & _) & _ & Hfs).
    rewrite Hd0, Hacc in Hrun. rewrite Hd0 in Hfs.
    exists w1. split; [exact Hrun|]. split; [congruence|].
    apply (file_at_fs _ _ _ Hfs). }
  assert (Hn : fst (flush_again n (l, w)) = l
               /\ fs_denied (snd (flush_again n (l, w))) = false
               /\ file_at (snd (flush_again n (l, w))) (CSVLogger.path l)
                  = file_at w (CSVLogger.path l)
                    ++ List.concat (repeat (written_prefix (CSVLogger.buffer l))
                                      n)).
  { induction n as [|n (IHl & IHd & IHf)].
    - simpl. now rewrite app_nil_r.
    - rewrite flush_again_S.
      destruct (flush_again n (l, w)) as [ln wn]. cbn [fst snd] in *.
      subst ln. destruct (Hstep wn IHd) as (w1 & Hrun & Hd1 & Hf1).
      rewrite Hrun. cbn [fst snd].
      split; [reflexivity|]. split; [exact Hd1|].
      rewrite Hf1, IHf, <- app_assoc. f_equal.
      change (S n) with (1 + n)%nat.
      rewrite Nat.add_comm, repeat_app, concat_app. simpl.
      now rewrite app_nil_r. }
  destruct Hn as (Hl & Hdn & Hfn).
  split; [exact Hl|]. split; [exact Hdn|]. split; [|exact Hfn].
  destruct (flush_again n (l, w)) as [ln wn]. cbn [fst snd] in *. subst ln.
  destruct (Hstep wn Hdn) as (w1 & Hrun & _). now rewrite Hrun.
Qed.

(** X13. On a store that cannot be opened nothing is written and
    nothing is counted, and no record is dropped: through any sequence
    of [log] and [flush] calls the store is as it was, [total_written]
    is as it was, and the buffer holds what it held followed by the
    records of every [log] call made, in order, the one that raised
    included. The calls made are all of them when none raises, and
    otherwise those up to the first that raises: it raises OSError,
    the calls before it returned, and the buffer it leaves is not
    empty. Opening the logger on such a store succeeds when the file
    exists: the fault shows at the first flush only. *)
Theorem denied_store_keeps (cs : list call) : forall l w,
  fs_denied w = true ->
  (forall c fi, fs w (CSVLogger.path l) = Some c ->
     CSVLogger.init (CSVLogger.path l) fi w
     = (Ok (CSVLogger.mk (CSVLogger.path l) fi [] 0), w))
  /\ exists r l' w' (k : nat),
       for_each cs do_call (l, w) = (r, (l', w'))
       /\ fs w' = fs w
       /\ CSVLogger.total_written l' = CSVLogger.total_written l
       /\ (k <= List.length cs)%nat
       /\ CSVLogger.buffer l'
          = CSVLogger.buffer l ++ records_of (firstn k cs)
       /\ (r = Ok tt /\ k = List.length cs
           \/ r = Raise OSError
              /\ (0 < k)%nat
              /\ CSVLogger.buffer l' <> []
              /\ fst (for_each (firstn (k - 1) cs) do_call (l, w)) = Ok tt).
Proof.
  intros l w Hd. split.
  { intros c fi Hc. apply (init_existing _ fi w c Hc). }
  revert l w Hd.
  assert (Hflush : forall l w, fs_denied w = true ->
            exists r w',
              CSVLogger.flush (l, w) = (r, (l, w'))
              /\ fs w' = fs w /\ fs_denied w' = true
              /\ (r = Ok tt
                  \/ r = Raise OSError /\ CSVLogger.buffer l <> [])).
  { intros l w Hd. unfold CSVLogger.flush.
    rewrite bind_run, gets_run. cbv beta. cbn [fst].
    destruct (CSVLogger.buffer l) as [|d ds] eqn:Hb.
    - exists (Ok tt), w. auto.
    - rewrite bind_run, on_world_run, bind_run.
      rewrite (open_a_denied _ _ Hd). cbn [fst snd].
      eexists _, _. split; [reflexivity|]. cbn [fs fs_denied].
      repeat split; auto. right. split; [reflexivity|discriminate]. }
  assert (Hcall : forall c l w, fs_denied w = true ->
            exists r l1 w1,
              do_call c (l, w) = (r, (l1, w1))
              /\ fs w1 = fs w /\ fs_denied w1 = true
              /\ CSVLogger.total_written l1 = CSVLogger.total_written l
              /\ CSVLogger.buffer l1 = CSVLogger.buffer l ++ records_of [c]
              /\ (r = Ok tt
                  \/ r = Raise OSError /\ CSVLogger.buffer l1 <> [])).
  { intros c l w Hd. destruct c as [rec|]; cbn [do_call records_of].
    - rewrite log_run. destruct (_ >=? _).
      + destruct (Hflush (appended l rec) w Hd)
          as (r & w1 & Hrun & Hfs & Hd1 & Hr).
        exists r, (appended l rec), w1. cbn [appended CSVLogger.buffer
          CSVLogger.total_written] in *. auto 10.
      + exists (Ok tt), (appended l rec), w. cbn [appended CSVLogger.buffer
          CSVLogger.total_written]. auto 10.
    - destruct (Hflush l w Hd) as (r & w1 & Hrun & Hfs & Hd1 & Hr).
      exists r, l, w1. rewrite app_nil_r. auto 10. }
  induction cs as [|c cs IH]; intros l w Hd.
  - exists (Ok tt), l, w, 0%nat. cbn [firstn records_of List.length].
    rewrite app_nil_r. cbn [for_each]. rewrite ret_run. auto 10.
  - rewrite for_each_cons.
    destruct (Hcall c l w Hd)
      as (r & l1 & w1 & Hrun & Hfs1 & Hd1 & Htw1 & Hb1 & Hr).
    rewrite Hrun. destruct Hr as [->|[-> Hne]].
    + destruct (IH l1 w1 Hd1)
        as (r' & l' & w' & k & Hrun' & Hfs' & Htw' & Hk & Hb' & Hr').
      exists r', l', w', (S k). rewrite Hrun'.
      split; [reflexivity|]. split; [congruence|]. split; [congruence|].
      split; [cbn [List.length]; lia|].
      split.
      { rewrite Hb', Hb1, <- app_assoc. cbn [firstn].
        destruct c; reflexivity. }
      destruct Hr' as [[-> ->]|(-> & Hpos & Hne' & Hbefore)].
      * left. split; reflexivity.
      * right. split; [reflexivity|]. split; [lia|]. split; [exact Hne'|].
        replace (S k - 1)%nat with (S (k - 1)) by lia.
        cbn [firstn]. rewrite for_each_cons, Hrun. exact Hbefore.
    + exists (Raise OSError), l1, w1, 1%nat.
      split; [reflexivity|]. split; [exact Hfs1|]. split; [exact Htw1|].
      split; [cbn [List.length]; lia|].
      split.
      { rewrite Hb1. cbn [firstn]. destruct c; reflexivity. }
      right. split; [reflexivity|]. split; [lia|]. split; [exact Hne|].
      reflexivity.
Qed.
End LoggerAccounting.

Lemma log_all_conserves_witness :
  exists l' w',
    log_all [record_ok; record_ok; record_ok]
            (CSVLogger.mk "readings.csv" (-4) [] 0, header_only_world)
    = (Ok tt, (l', w'))
    /\ file_at w' "readings.csv" ++ map to_row (CSVLogger.buffer l')
       = file_at header_only_world "readings.csv"
         ++ map to_row [] ++ map to_row [record_ok; record_ok; record_ok].
Proof.
  destruct (log_all_conserves [record_ok; record_ok; record_ok]
              (CSVLogger.mk "readings.csv" (-4) [] 0) header_only_world
              eq_refl eq_refl eq_refl)
    as (l' & w' & Hrun & Hf & _).
  exists l', w'. split; [exact Hrun|exact Hf].
Defined.

Lemma log_writes_through_witness :
  exists l' w',
    log_all [record_ok; record_ok]
            (CSVLogger.mk "readings.csv" 0 [] 0, header_only_world)
    = (Ok tt, (l', w'))
    /\ CSVLogger.buffer l' = []
    /\ CSVLogger.total_written l' = 0 + 2.
Proof.
  destruct (log_writes_through [record_ok; record_ok]
              (CSVLogger.mk "readings.csv" 0 [] 0) header_only_world
              ltac:(simpl; lia) eq_refl eq_refl eq_refl)
    as (l' & w' & Hrun & Hb & Htw & _).
  exists l', w'. repeat split; assumption.
Defined.

Lemma flush_again_repeats_witness :
  file_at (snd (flush_again 3
                  (CSVLogger.mk "readings.csv" 10 [record_ok; record_extra] 0,
                   header_only_world))) "readings.csv"
  = file_at header_only_world "readings.csv"
    ++ List.concat (repeat (written_prefix [record_ok; record_extra]) 3).
Proof.
  refine (proj2 (proj2 (proj2
    (flush_again_repeats 3
       (CSVLogger.mk "readings.csv" 10 [record_ok; record_extra] 0)
       header_only_world eq_refl eq_refl)))).
Defined.

Lemma denied_store_keeps_witness :
  exists r l' w' k,
    for_each [Log record_ok; Log record_ok; Flush] do_call
             (CSVLogger.mk "readings.csv" 2 [] 0, readonly_world)
    = (r, (l', w'))
    /\ fs w' = fs readonly_world
    /\ CSVLogger.total_written l' = 0
    /\ CSVLogger.buffer l'
       = [] ++ records_of (firstn k [Log record_ok; Log record_ok; Flush]).
Proof.
  destruct (proj2 (denied_store_keeps [Log record_ok; Log record_ok; Flush]
                     (CSVLogger.mk "readings.csv" 2 [] 0) readonly_world
                     eq_refl))
    as (r & l' & w' & k & Hrun & Hfs & Htw & _ & Hb & _).
  exists r, l', w', k. repeat split; assumption.
Defined.

(* ------------------------------------------------------------------ *)
(** ** The records of a run, one by one                                *)
(* ------------------------------------------------------------------ *)

Section RunRecords.
Context {F : Type} `{PyFloat F}.
Variable env : Env F.

Lemma pauses_app (t1 t2 : list (event F)) :
  pauses (t1 ++ t2) = (pauses t1 + pauses t2)%nat.
Proof. unfold pauses. now rewrite filter_app, length_app. Qed.

Lemma pauses_window_events (adc : MCP3008ADC.t F) (interval : F) n :
  forall k0, pauses (window_events env adc interval k0 n) = 0%nat.
Proof.
  unfold window_events.
  induction n as [|n IH]; intros k0; [reflexivity|].
  cbn [seq flat_map]. rewrite pauses_app, IH. reflexivity.
Qed.

(** A [log] reads no clock and makes no pause, whatever its outcome. *)
Lemma log_quiet (r : pydict F) l w :
  clock_calls (snd (snd (CSVLogger.log r (l, w)))) = clock_calls w
  /\ pauses (trace (snd (snd (CSVLogger.log r (l, w))))) = pauses (trace w).
Proof.
  rewrite log_run. destruct (_ >=? _); [|split; reflexivity].
  assert (Hne : CSVLogger.buffer (appended l r) <> [])
    by (simpl; destruct (CSVLogger.buffer l); discriminate).
  destruct (flush_nonempty (appended l r) w Hne)
    as (w' & Hrun & (_ & _ & Hclock & _) & Htr & _).
  rewrite Hrun.
  assert (Hp : pauses (trace w') = pauses (trace w)).
  { rewrite Htr, pauses_app. unfold pauses. simpl. lia. }
  destruct (fs_denied w); [|destruct (forallb _ _)]; cbn [snd]; auto.
Qed.

(** One cycle, with the record it makes: the mean of the next window,
    stamped with the next reading of the clock. *)
Lemma cycle_exact (cfg : Config.t F) (l : CSVLogger.t F) (kz : Z)
      (w : world F) interval volt len :
  sampling_ok env (MCP3008ADC.init 0) cfg interval volt len ->
  transform_ok cfg ->
  fs_denied w = false ->
  forallb accepted (CSVLogger.buffer l) = true ->
  forall s',
    Collector.cycle env (collector_of cfg l kz, w) = (Ok tt, s') ->
    clock_calls (snd s') = S (clock_calls w)
    /\ pauses (trace (snd s')) = pauses (trace w)
    /\ file_at (snd s') (CSVLogger.path l)
       ++ map to_row (CSVLogger.buffer (Collector.logger (fst s')))
       = file_at w (CSVLogger.path l)
         ++ map to_row (CSVLogger.buffer l)
         ++ [to_row
               (record_of env cfg
                  (window_mean volt len (adc_calls w)
                     (Z.to_nat (Config.AVERAGING_WINDOW cfg)))
                  (clock_calls w))].
Proof.
  intros Hs [Hg Hp] Hden Hbuf s'.
  unfold Collector.cycle.
  rewrite bind_run, gets_run. cbv beta. cbn [fst].
  rewrite bind_run, collector_on_world_run.
  rewrite (sample_window_run env (collector_of cfg l kz) w
             interval volt len Hs).
  cbn [fst snd].
  set (avg_v := f_div _ len).
  set (w1 := sampled w _ _).
  rewrite bind_run, lift_res_run.
  destruct (calculate_ok
              (Collector.math (collector_of cfg l kz)) avg_v
              Hg Hp) as (rms & power & Hcalc).
  rewrite Hcalc.
  rewrite bind_run, collector_on_world_run.
  rewrite utc_timestamp_run. cbn [fst snd].
  set (w2 := ticked w1).
  set (record := (_ :: _) : pydict F).
  assert (Hrec : record
                 = record_of env cfg
                     (window_mean volt len (adc_calls w)
                        (Z.to_nat (Config.AVERAGING_WINDOW cfg)))
                     (clock_calls w)).
  { unfold record_of.
    change (window_mean volt len (adc_calls w)
              (Z.to_nat (Config.AVERAGING_WINDOW cfg))) with avg_v.
    change (PowerMath.init (Config.AMPLIFIER_GAIN cfg)
              (Config.CT_RANGE_AMPS cfg) (Config.LINE_VOLTAGE cfg)
              (Config.PHASES cfg))
      with (Collector.math (collector_of cfg l kz)).
    rewrite Hcalc. reflexivity. }
  assert (Hr : accepted record = true) by reflexivity.
  assert (Hden2 : fs_denied w2 = false) by exact Hden.
  destruct (log_ok record l w2 Hden2 Hbuf Hr)
    as (l' & w' & Hlog & _ & _ & _ & _ & Hfile').
  destruct (log_quiet record l w2) as [Hclock Hpz].
  rewrite Hlog in Hclock, Hpz. cbn [snd] in Hclock, Hpz.
  rewrite bind_run, collector_on_logger_run, Hlog. cbn [fst snd].
  rewrite modify_run. cbn [fst snd].
  intros Hs'. injection Hs' as <-.
  cbn [fst snd Collector.logger collector_of].
  split; [exact Hclock|].
  split.
  { rewrite Hpz. unfold w2, w1. cbn [ticked sampled trace].
    rewrite pauses_app, pauses_window_events. lia. }
  rewrite Hfile', <- Hrec. reflexivity.
Qed.

(** A [flush] reads neither the ADC nor the clock and makes no pause,
    whatever its outcome. *)
Lemma flush_quiet (l : CSVLogger.t F) (w : world F) :
  adc_calls (snd (snd (CSVLogger.flush (l, w)))) = adc_calls w
  /\ clock_calls (snd (snd (CSVLogger.flush (l, w)))) = clock_calls w
  /\ pauses (trace (snd (snd (CSVLogger.flush (l, w))))) = pauses (trace w).
Proof.
  destruct (CSVLogger.buffer l) as [|d ds] eqn:Hb.
  - rewrite (flush_empty l w Hb). auto.
  - assert (Hne : CSVLogger.buffer l <> []) by (rewrite Hb; discriminate).
    destruct (flush_nonempty l w Hne)
      as (w' & Hrun & (_ & Hadc & Hclock & _) & Htr & _).
    rewrite Hrun.
    assert (Hp : pauses (trace w') = pauses (trace w)).
    { rewrite Htr, pauses_app. unfold pauses. simpl. lia. }
    destruct (fs_denied w); [|destruct (forallb _ _)]; cbn [snd]; auto.
Qed.

Lemma main_run (cfg : Config.t F) (fuel : nat) (w w0 : world F)
      (c0 : Collector.t F) :
  Collector.init cfg w = (Ok c0, w0) ->
  Collector.main env cfg fuel w
  = (fst (Collector.run env fuel (c0, w0)),
     snd (snd (Collector.run env fuel (c0, w0)))).
Proof.
  intros Hinit. unfold Collector.main. rewrite bind_run, Hinit.
  destruct (Collector.run env fuel (c0, w0)) as [r [c' w']]. reflexivity.
Qed.

Section Exact.
Variables (cfg : Config.t F) (base : list (row F)) (a0 c0 : nat).
Variables (interval : F) (volt : nat -> F) (len : F).
Hypothesis Hsampling :
  sampling_ok env (MCP3008ADC.init 0) cfg interval volt len.
Hypothesis Htransform : transform_ok cfg.

Lemma cycle_step_exact k pz (s : Collector.self_ F) :
  after_cycles_exact env cfg volt len base a0 c0 k pz s ->
  exists s',
    Collector.cycle env s = (Ok tt, s')
    /\ after_cycles_exact env cfg volt len base a0 c0 (S k) pz s'.
Proof.
  intros (Hac & Hclock & Hfile & Hpz).
  destruct (cycle_step env cfg base a0 k s interval volt len
              Hsampling Htransform Hac) as (s' & Hcyc & Hs1).
  exists s'. split; [exact Hcyc|].
  destruct Hac as (l & rows & Hc & Hpath & Hbuf & _ & Hden & Hadc & _).
  destruct s as [c w]. cbn [fst snd] in *. subst c.
  destruct (cycle_exact cfg l (Z.of_nat k) w interval volt len
              Hsampling Htransform Hden Hbuf s' Hcyc)
    as (Hclock' & Hpz' & Hfile').
  split; [exact Hs1|].
  split; [rewrite Hclock', Hclock; lia|].
  split; [|congruence].
  rewrite Hpath in Hfile'. rewrite Hfile'.
  cbn [Collector.logger collector_of] in Hfile.
  rewrite app_assoc, Hfile, <- app_assoc.
  unfold cycle_records. rewrite seq_S, !map_app. cbn [map].
  change (0 + k)%nat with k.
  now rewrite Hadc, Hclock.
Qed.

Lemma after_cycles_exact_sampled k pz (c : Collector.t F) (w : world F)
      evs :
  after_cycles_exact env cfg volt len base a0 c0 k pz (c, w) ->
  after_cycles_exact env cfg volt len base a0 c0 k (pz + pauses evs)
    (c, sampled w 0 evs).
Proof.
  intros (Hac & Hclock & Hfile & Hpz).
  split; [now apply after_cycles_sampled|].
  cbn [fst snd] in *. rewrite file_at_sampled.
  cbn [sampled clock_calls trace]. rewrite pauses_app.
  repeat split; auto.
Qed.

(** The pause between two windows, counted. *)
Lemma pause_run_exact k pz (s : Collector.self_ F) :
  Config.SLEEP_BETWEEN_WINDOWS_S cfg <= max_sleep_s ->
  after_cycles_exact env cfg volt len base a0 c0 k pz s ->
  exists s',
    (if Config.SLEEP_BETWEEN_WINDOWS_S cfg >? 0
     then Collector.on_world
            (time_sleep (NInt (Config.SLEEP_BETWEEN_WINDOWS_S cfg)))
     else ret tt) s = (Ok tt, s')
    /\ after_cycles_exact env cfg volt len base a0 c0 k
         (pz + if Config.SLEEP_BETWEEN_WINDOWS_S cfg >? 0 then 1 else 0) s'.
Proof.
  intros Hq Hs. destruct s as [c w].
  destruct (Z.gtb_spec (Config.SLEEP_BETWEEN_WINDOWS_S cfg) 0) as [Hp|Hp].
  - rewrite collector_on_world_run, time_sleep_run.
    2:{ rewrite sleep_error_int by lia.
        destruct (Z.ltb_spec max_sleep_s
                    (Config.SLEEP_BETWEEN_WINDOWS_S cfg));
          [lia|reflexivity]. }
    eexists. split; [reflexivity|].
    apply (after_cycles_exact_sampled k pz c w
             [Ev_sleep (NInt (Config.SLEEP_BETWEEN_WINDOWS_S cfg))] Hs).
  - exists (c, w). split; [reflexivity|].
    now rewrite Nat.add_0_r.
Qed.

(** When MAX_RECORDS is not 0 and the fuel is enough, the loop is left
    after [stop_count] records, with a pause after every record but
    the last (a pause [time.sleep] accepts, when there is one to
    make). *)
Lemma loop_stops_exact (fuel : nat) : forall k pz (s : Collector.self_ F),
  after_cycles_exact env cfg volt len base a0 c0 k pz s ->
  Config.MAX_RECORDS cfg <> 0 ->
  stop_count cfg = 1%nat
  \/ Config.SLEEP_BETWEEN_WINDOWS_S cfg <= max_sleep_s ->
  (k < stop_count cfg)%nat ->
  (stop_count cfg <= k + fuel)%nat ->
  exists s',
    Collector.loop env fuel s = (Ok (Some tt), s')
    /\ after_cycles_exact env cfg volt len base a0 c0 (stop_count cfg)
         (pz + if Config.SLEEP_BETWEEN_WINDOWS_S cfg >? 0
               then stop_count cfg - 1 - k else 0) s'.
Proof.
  induction fuel as [|fuel IH]; intros k pz s Hs Hnz Hq Hlt Hle; [lia|].
  rewrite loop_S.
  destruct (cycle_step_exact k pz s Hs) as (s1 & Hcyc & Hs1).
  rewrite Hcyc. cbv zeta.
  destruct (after_cycles_cfg cfg base a0 _ _ (proj1 Hs1)) as [-> ->].
  replace (negb (Config.MAX_RECORDS cfg =? 0)) with true
    by (symmetry; apply negb_true_iff, Z.eqb_neq; exact Hnz).
  cbn [andb].
  unfold stop_count in Hlt, Hle.
  destruct (Z.geb_spec (Z.of_nat (S k)) (Config.MAX_RECORDS cfg))
    as [Hge|Hlt'].
  - exists s1. split; [reflexivity|].
    replace (stop_count cfg) with (S k) by (unfold stop_count; lia).
    replace (pz + _)%nat with pz by (destruct (_ >? _); lia).
    exact Hs1.
  - assert (Hq' : Config.SLEEP_BETWEEN_WINDOWS_S cfg <= max_sleep_s)
      by (destruct Hq as [Hone|Hq]; [unfold stop_count in Hone; lia
                                    |exact Hq]).
    destruct (pause_run_exact (S k) pz s1 Hq' Hs1) as (s2 & Hpause & Hs2).
    rewrite Hpause.
    destruct (IH (S k) _ s2 Hs2 Hnz Hq) as (s' & Hloop & Hs');
      try (unfold stop_count; lia).
    exists s'. split; [exact Hloop|].
    replace (pz + (if Config.SLEEP_BETWEEN_WINDOWS_S cfg >? 0
                   then stop_count cfg - 1 - k else 0))%nat
      with (pz + (if Config.SLEEP_BETWEEN_WINDOWS_S cfg >? 0
                  then 1 else 0)
            + (if Config.SLEEP_BETWEEN_WINDOWS_S cfg >? 0
               then stop_count cfg - 1 - S k else 0))%nat
      by (unfold stop_count; destruct (_ >? _); lia).
    exact Hs'.
Qed.

(** When MAX_RECORDS is 0, or out of reach of the fuel, every pass of
    the loop makes its record, then its pause. *)
Lemma loop_running_exact (fuel : nat) :
  forall k pz (s : Collector.self_ F),
  after_cycles_exact env cfg volt len base a0 c0 k pz s ->
  Config.SLEEP_BETWEEN_WINDOWS_S cfg <= max_sleep_s ->
  Config.MAX_RECORDS cfg = 0
  \/ Z.of_nat (k + fuel) < Config.MAX_RECORDS cfg ->
  exists s',
    Collector.loop env fuel s = (Ok None, s')
    /\ after_cycles_exact env cfg volt len base a0 c0 (k + fuel)
         (pz + if Config.SLEEP_BETWEEN_WINDOWS_S cfg >? 0
               then fuel else 0) s'.
Proof.
  induction fuel as [|fuel IH]; intros k pz s Hs Hq Hmax.
  - exists s. rewrite !Nat.add_0_r.
    replace (pz + _)%nat with pz by (destruct (_ >? _); lia).
    split; [reflexivity|exact Hs].
  - rewrite loop_S.
    destruct (cycle_step_exact k pz s Hs) as (s1 & Hcyc & Hs1).
    rewrite Hcyc. cbv zeta.
    destruct (after_cycles_cfg cfg base a0 _ _ (proj1 Hs1)) as [-> ->].
    replace (negb (Config.MAX_RECORDS cfg =? 0)
             && (Z.of_nat (S k) >=? Config.MAX_RECORDS cfg)) with false.
    2:{ symmetry. apply andb_false_iff.
        destruct Hmax as [H0|Hlt].
        - left. rewrite H0. reflexivity.
        - right. rewrite Z.geb_leb. apply Z.leb_gt. lia. }
    destruct (pause_run_exact (S k) pz s1 Hq Hs1) as (s2 & Hpause & Hs2).
    rewrite Hpause.
    destruct (IH (S k) _ s2 Hs2 Hq) as (s' & Hloop & Hs').
    { destruct Hmax as [H0|Hlt]; [now left|right; lia]. }
    exists s'. split; [exact Hloop|].
    rewrite Nat.add_succ_r.
    replace (pz + (if Config.SLEEP_BETWEEN_WINDOWS_S cfg >? 0
                   then S fuel else 0))%nat
      with (pz + (if Config.SLEEP_BETWEEN_WINDOWS_S cfg >? 0
                  then 1 else 0)
            + (if Config.SLEEP_BETWEEN_WINDOWS_S cfg >? 0
               then fuel else 0))%nat
      by (destruct (_ >? _); lia).
    exact Hs'.
Qed.

(** [run] from a state the loop can start from, with its records. *)
Lemma run_exact (fuel : nat) (c : Collector.t F) (w : world F) pz :
  after_cycles_exact env cfg volt len base a0 c0 0 pz (c, w) ->
  (Config.MAX_RECORDS cfg <> 0 ->
   stop_count cfg = 1%nat
   \/ Config.SLEEP_BETWEEN_WINDOWS_S cfg <= max_sleep_s ->
   (stop_count cfg <= fuel)%nat ->
   exists c' w',
     Collector.run env fuel (c, w) = (Ok (Some tt), (c', w'))
     /\ Collector.record_count c' = Z.of_nat (stop_count cfg)
     /\ CSVLogger.total_written (Collector.logger c')
        = Z.of_nat (stop_count cfg)
     /\ CSVLogger.buffer (Collector.logger c') = []
     /\ file_at w' (Config.CSV_PATH cfg)
        = base ++ map to_row
                    (cycle_records env cfg volt len a0 c0 (stop_count cfg))
     /\ adc_calls w'
        = (a0 + stop_count cfg
                * Z.to_nat (Config.AVERAGING_WINDOW cfg))%nat
     /\ clock_calls w' = (c0 + stop_count cfg)%nat
     /\ pauses (trace w')
        = (pz + if Config.SLEEP_BETWEEN_WINDOWS_S cfg >? 0
                then stop_count cfg - 1 else 0)%nat
     /\ last (trace w') (Ev_print START)
        = Ev_print (END (Z.of_nat (stop_count cfg))))
  /\ (Config.MAX_RECORDS cfg = 0
      \/ Z.of_nat fuel < Config.MAX_RECORDS cfg ->
      Config.SLEEP_BETWEEN_WINDOWS_S cfg <= max_sleep_s ->
      exists c' w',
        Collector.run env fuel (c, w) = (Ok None, (c', w'))
        /\ after_cycles_exact env cfg volt len base a0 c0 fuel
             (pz + if Config.SLEEP_BETWEEN_WINDOWS_S cfg >? 0
                   then fuel else 0) (c', w')).
Proof.
  intros Hs.
  assert (Hs2 : after_cycles_exact env cfg volt len base a0 c0 0 pz
                  (c, sampled (sampled w 0 [Ev_print START]) 0
                              [Ev_print INFO])).
  { pose proof (after_cycles_exact_sampled 0 _ _ _ [Ev_print INFO]
                  (after_cycles_exact_sampled 0 pz c w [Ev_print START] Hs))
      as Hx.
    change (pauses [Ev_print START]) with 0%nat in Hx.
    change (pauses [Ev_print INFO]) with 0%nat in Hx.
    now rewrite !Nat.add_0_r in Hx. }
  pose proof (run_unfold env fuel c w) as Hstart.
  split.
  - intros Hnz Hq Hle.
    destruct (loop_stops_exact fuel 0 pz _ Hs2 Hnz Hq)
      as (s' & Hloop & Hs'); try (unfold stop_count in *; lia).
    rewrite Hstart, Hloop.
    destruct s' as [c' w'].
    destruct Hs' as ((l & rows & Hc & Hpath & Hbuf & Htw & Hden & Hadc
                      & Hrows & _) & Hclock & Hfile & Hpz).
    cbn [fst snd] in *. subst c'.
    cbn [Collector.logger collector_of] in Hfile.
    destruct (final_flush l w' Hden Hbuf)
      as (l'' & w'' & Hfl & Hb'' & Htw'' & Hfile'').
    destruct (flush_quiet l w') as (Ha'' & Hc'' & Hp'').
    rewrite Hfl in Ha'', Hc'', Hp''. cbn [snd] in Ha'', Hc'', Hp''.
    rewrite collector_on_logger_run, Hfl. cbn [fst snd].
    eexists _, _. split; [reflexivity|].
    cbn [collector_of Collector.record_count Collector.logger
         sampled trace adc_calls clock_calls].
    rewrite file_at_sampled.
    assert (Htotal : CSVLogger.total_written l''
                     = Z.of_nat (stop_count cfg)) by lia.
    split; [reflexivity|]. split; [exact Htotal|]. split; [exact Hb''|].
    split; [now rewrite <- Hpath, Hfile'', Hpath|].
    split; [lia|]. split; [congruence|].
    split.
    + rewrite pauses_app, Hp'', Hpz.
      change (pauses [Ev_print (END (CSVLogger.total_written l''))])
        with 0%nat.
      rewrite Nat.sub_0_r. lia.
    + rewrite last_last, Htotal. reflexivity.
  - intros Hmax Hq.
    destruct (loop_running_exact fuel 0 pz _ Hs2 Hq)
      as (s' & Hloop & Hs').
    { destruct Hmax; [now left|right; lia]. }
    rewrite Hstart, Hloop. destruct s' as [c' w'].
    exists c', w'. split; [reflexivity|exact Hs'].
Qed.
End Exact.

(** Building the collector reads neither the ADC nor the clock and
    makes no pause: the first cycle starts where the world stands. *)
Lemma collector_init_exact (cfg : Config.t F) (w : world F)
      (volt : nat -> F) (len : F) :
  fs_denied w = false ->
  exists w0,
    Collector.init cfg w
    = (Ok (collector_of cfg
             (CSVLogger.mk (Config.CSV_PATH cfg)
                (Config.CSV_FLUSH_INTERVAL cfg) [] 0) 0), w0)
    /\ after_cycles_exact env cfg volt len
         (match fs w (Config.CSV_PATH cfg) with
          | Some c => c
          | None => [header_row]
          end)
         (adc_calls w) (clock_calls w) 0 (pauses (trace w))
         (collector_of cfg
            (CSVLogger.mk (Config.CSV_PATH cfg)
               (Config.CSV_FLUSH_INTERVAL cfg) [] 0) 0, w0).
Proof.
  intros Hd.
  destruct (collector_init_ok cfg w Hd) as (w0 & Hinit & Hinv & Hfile).
  exists w0. split; [exact Hinit|].
  rewrite <- Hfile.
  split; [exact Hinv|]. cbn [fst snd Collector.logger collector_of
                             CSVLogger.buffer map cycle_records seq].
  rewrite Nat.add_0_r, !app_nil_r.
  assert (Hq : clock_calls w0 = clock_calls w
               /\ pauses (trace w0) = pauses (trace w)).
  { unfold Collector.init in Hinit. rewrite bind_run in Hinit.
    destruct (fs w (Config.CSV_PATH cfg)) as [c|] eqn:Hp.
    - rewrite (init_existing _ _ _ _ Hp) in Hinit.
      rewrite ret_run in Hinit. injection Hinit as <-. auto.
    - destruct (init_fresh (Config.CSV_PATH cfg)
                  (Config.CSV_FLUSH_INTERVAL cfg) w Hp)
        as (w1 & Hi & (_ & _ & Hclock & _) & Htr & _).
      rewrite Hi, Hd in Hinit. rewrite ret_run in Hinit.
      injection Hinit as <-. split; [exact Hclock|].
      rewrite Htr, Hd, pauses_app. unfold pauses. simpl. lia. }
  destruct Hq as [Hclock Hpz]. auto.
Qed.
End RunRecords.

Section CycleOutcomes.
Context {F : Type} `{PyFloat F}.
Variable env : Env F.


(** A cycle up to its [log]: the counter moves only when [log]
    returns. *)
Lemma cycle_run (cfg : Config.t F) (l : CSVLogger.t F) (kz : Z)
      (w : world F) interval volt len :
  sampling_ok env (MCP3008ADC.init 0) cfg interval volt len ->
  transform_ok cfg ->
  Collector.cycle env (collector_of cfg l kz, w)
  = match CSVLogger.log
            (record_of env cfg
               (window_mean volt len (adc_calls w)
                  (Z.to_nat (Config.AVERAGING_WINDOW cfg)))
               (clock_calls w))
            (l, ticked
                  (sampled w (Z.to_nat (Config.AVERAGING_WINDOW cfg))
                     (window_events env (MCP3008ADC.init 0) interval
                        (adc_calls w)
                        (Z.to_nat (Config.AVERAGING_WINDOW cfg))))) with
    | (Ok _, (l', w')) => (Ok tt, (collector_of cfg l' (kz + 1), w'))
    | (Raise e, (l', w')) => (Raise e, (collector_of cfg l' kz, w'))
    end.
Proof.
  intros Hs [Hg Hp].
  unfold Collector.cycle.
  rewrite bind_run, gets_run. cbv beta. cbn [fst].
  rewrite bind_run, collector_on_world_run.
  rewrite (sample_window_run env (collector_of cfg l kz) w
             interval volt len Hs).
  cbn [fst snd].
  set (avg_v := f_div _ len).
  set (w1 := sampled w _ _).
  rewrite bind_run, lift_res_run.
  destruct (calculate_ok
              (Collector.math (collector_of cfg l kz)) avg_v
              Hg Hp) as (rms & power & Hcalc).
  rewrite Hcalc.
  rewrite bind_run, collector_on_world_run.
  rewrite utc_timestamp_run. cbn [fst snd].
  set (record := (_ :: _) : pydict F).
  assert (Hrec : record_of env cfg
                     (window_mean volt len (adc_calls w)
                        (Z.to_nat (Config.AVERAGING_WINDOW cfg)))
                     (clock_calls w) = record).
  { unfold record_of.
    change (window_mean volt len (adc_calls w)
              (Z.to_nat (Config.AVERAGING_WINDOW cfg))) with avg_v.
    change (PowerMath.init (Config.AMPLIFIER_GAIN cfg)
              (Config.CT_RANGE_AMPS cfg) (Config.LINE_VOLTAGE cfg)
              (Config.PHASES cfg))
      with (Collector.math (collector_of cfg l kz)).
    rewrite Hcalc. reflexivity. }
  rewrite Hrec.
  change (ticked (sampled w _ _)) with (ticked w1).
  rewrite bind_run, collector_on_logger_run.
  destruct (CSVLogger.log record (l, ticked w1)) as [[[]|e] [l' w']];
    cbn [fst snd]; [|reflexivity].
  rewrite modify_run. reflexivity.
Qed.

(** The line of a record, with the formulas of the transform in it. *)
Lemma record_of_row (cfg : Config.t F) (avg_v : F) (stamp : nat) :
  transform_ok cfg ->
  to_row (record_of env cfg avg_v stamp)
  = [VStr (utcnow_isoformat env stamp ++ "Z");
     VStr (Config.DEVICE_ID cfg);
     VStr (Config.MACHINE_ID cfg);
     VFloat (round env
               (f_mul (f_mul (f_div avg_v (Config.AMPLIFIER_GAIN cfg))
                             (Config.CT_RANGE_AMPS cfg))
                      PowerMath.ONE_OVER_SQRT2) 4);
     VFloat (round env (Config.LINE_VOLTAGE cfg) 1);
     VFloat (round env
               (f_mul (f_mul (f_of_Z (Config.PHASES cfg))
                         (f_mul (f_mul (f_div avg_v
                                          (Config.AMPLIFIER_GAIN cfg))
                                       (Config.CT_RANGE_AMPS cfg))
                                PowerMath.ONE_OVER_SQRT2))
                      (Config.LINE_VOLTAGE cfg)) 2);
     VStr (StateClassifier.classify
             (StateClassifier.init (Config.IDLE_THRESHOLD cfg)
                (Config.FAULT_THRESHOLD cfg))
             (f_mul (f_mul (f_div avg_v (Config.AMPLIFIER_GAIN cfg))
                           (Config.CT_RANGE_AMPS cfg))
                    PowerMath.ONE_OVER_SQRT2))]%string.
Proof.
  intros [Hg Hp]. unfold record_of.
  rewrite calculate_outcomes.
  cbn [PowerMath.gain PowerMath.phases PowerMath.ct_range
       PowerMath.line_voltage].
  rewrite Hg, Hp. reflexivity.
Qed.

(** A pause too long for [time.sleep] stops the run after its first
    record, unless that record is the last: [OverflowError] is raised
    where the pause would be made, the flush on the way out is never
    reached, and with a flush interval of 2 or more the record is
    still in the buffer, unwritten. *)
Lemma run_pause_overflow (cfg : Config.t F) (w : world F) (fuel : nat)
      interval volt len :
  sampling_ok env (MCP3008ADC.init 0) cfg interval volt len ->
  transform_ok cfg ->
  fs_denied w = false ->
  max_sleep_s < Config.SLEEP_BETWEEN_WINDOWS_S cfg ->
  Config.MAX_RECORDS cfg = 0 \/ 2 <= Config.MAX_RECORDS cfg ->
  exists w0 c' w',
    Collector.init cfg w
    = (Ok (collector_of cfg
             (CSVLogger.mk (Config.CSV_PATH cfg)
                (Config.CSV_FLUSH_INTERVAL cfg) [] 0) 0), w0)
    /\ Collector.run env (S fuel)
         (collector_of cfg
            (CSVLogger.mk (Config.CSV_PATH cfg)
               (Config.CSV_FLUSH_INTERVAL cfg) [] 0) 0, w0)
       = (Raise OverflowError, (c', w'))
    /\ after_cycles_exact env cfg volt len
         (match fs w (Config.CSV_PATH cfg) with
          | Some c => c
          | None => [header_row]
          end)
         (adc_calls w) (clock_calls w) 1 (pauses (trace w)) (c', w')
    /\ (2 <= Config.CSV_FLUSH_INTERVAL cfg ->
        file_at w' (Config.CSV_PATH cfg)
        = match fs w (Config.CSV_PATH cfg) with
          | Some c => c
          | None => [header_row]
          end
        /\ CSVLogger.buffer (Collector.logger c')
           = [record_of env cfg
                (window_mean volt len (adc_calls w)
                   (Z.to_nat (Config.AVERAGING_WINDOW cfg)))
                (clock_calls w)]).
Proof.
  intros Hs Ht Hd Hlong Hmax.
  destruct (collector_init_exact env cfg w volt len Hd)
    as (w0 & Hinit & Hinv).
  set (l0 := CSVLogger.mk (Config.CSV_PATH cfg)
               (Config.CSV_FLUSH_INTERVAL cfg) [] 0 : CSVLogger.t F) in *.
  set (base := match fs w (Config.CSV_PATH cfg) with
               | Some c => c
               | None => [header_row]
               end) in *.
  set (w1 := sampled (sampled w0 0 [Ev_print START]) 0 [Ev_print INFO]).
  assert (Hinv1 : after_cycles_exact env cfg volt len base (adc_calls w)
                    (clock_calls w) 0 (pauses (trace w))
                    (collector_of cfg l0 0, w1)).
  { pose proof (after_cycles_exact_sampled env cfg base (adc_calls w)
                  (clock_calls w) volt len 0 _ _ _ [Ev_print INFO]
                  (after_cycles_exact_sampled env cfg base (adc_calls w)
                     (clock_calls w) volt len 0 _ _ _ [Ev_print START]
                     Hinv)) as Hx.
    change (pauses [Ev_print START]) with 0%nat in Hx.
    change (pauses [Ev_print INFO]) with 0%nat in Hx.
    now rewrite !Nat.add_0_r in Hx. }
  destruct (cycle_step_exact env cfg base (adc_calls w) (clock_calls w)
              interval volt len Hs Ht 0 _ _ Hinv1)
    as ([c1 w2] & Hcyc & Hinv2).
  exists w0, c1, w2. split; [exact Hinit|].
  split.
  { rewrite run_unfold. fold w1. rewrite loop_S, Hcyc. cbv zeta.
    destruct (after_cycles_cfg cfg base (adc_calls w) _ _ (proj1 Hinv2))
      as [Hcfg Hcount].
    cbn [fst] in Hcfg, Hcount. cbn [fst]. rewrite Hcfg, Hcount.
    replace (negb (Config.MAX_RECORDS cfg =? 0)
             && (Z.of_nat 1 >=? Config.MAX_RECORDS cfg)) with false.
    2:{ symmetry. apply andb_false_iff.
        destruct Hmax as [Hzero|Htwo].
        - left. rewrite Hzero. reflexivity.
        - right. rewrite Z.geb_leb. apply Z.leb_gt. lia. }
    replace (Config.SLEEP_BETWEEN_WINDOWS_S cfg >? 0) with true
      by (symmetry; apply Z.gtb_lt; unfold max_sleep_s in Hlong; lia).
    rewrite collector_on_world_run.
    rewrite (time_sleep_raises _ _ OverflowError).
    - reflexivity.
    - rewrite sleep_error_int by (unfold max_sleep_s in Hlong; lia).
      destruct (Z.ltb_spec max_sleep_s
                  (Config.SLEEP_BETWEEN_WINDOWS_S cfg)); [reflexivity|lia]. }
  split; [exact Hinv2|].
  intros Hfi.
  pose proof (cycle_run cfg l0 0 w1 interval volt len Hs Ht) as Hrun.
  rewrite log_run in Hrun.
  replace (Z.of_nat (List.length (CSVLogger.buffer l0 ++ [_]))
           >=? CSVLogger.flush_interval l0) with false in Hrun.
  2:{ symmetry. rewrite Z.geb_leb. apply Z.leb_gt.
      cbn [l0 CSVLogger.buffer CSVLogger.flush_interval app List.length].
      lia. }
  rewrite Hcyc in Hrun. injection Hrun as -> ->.
  destruct Hinv as (_ & _ & Hfile0 & _).
  cbn [fst snd collector_of Collector.logger l0 CSVLogger.buffer map
       cycle_records seq] in Hfile0.
  rewrite !app_nil_r in Hfile0.
  cbn [collector_of Collector.logger appended CSVLogger.buffer l0 app].
  split.
  - unfold w1. cbn [ticked sampled file_at fs]. exact Hfile0.
  - unfold w1. cbn [sampled adc_calls clock_calls].
    rewrite !Nat.add_0_r.
    destruct Hinv1 as ((l & rows & _ & _ & _ & _ & _ & Hadc & _)
                       & Hclock & _).
    unfold w1 in Hadc, Hclock.
    cbn [fst snd sampled adc_calls clock_calls] in Hadc, Hclock.
    assert (Ha : adc_calls w0 = adc_calls w) by lia.
    assert (Hc : clock_calls w0 = clock_calls w) by lia.
    now rewrite Ha, Hc.
Qed.
End CycleOutcomes.

Lemma paused_sampling_ok :
  sampling_ok stub_env (MCP3008ADC.init 0) paused_config
              0.02%float (fun _ => 1%float) 2%float.
Proof. constructor; try intros k; vm_compute; try reflexivity. discriminate. Qed.

Lemma paused_transform_ok : transform_ok paused_config.
Proof. constructor; vm_compute; reflexivity. Qed.

Lemma negative_max_sampling_ok :
  sampling_ok stub_env (MCP3008ADC.init 0) negative_max_config
              0.02%float (fun _ => 1%float) 2%float.
Proof. constructor; try intros k; vm_compute; try reflexivity. discriminate. Qed.

Lemma negative_max_transform_ok : transform_ok negative_max_config.
Proof. constructor; vm_compute; reflexivity. Qed.

Lemma zero_gain_sampling_ok :
  sampling_ok stub_env (MCP3008ADC.init 0) zero_gain_config
              0.02%float (fun _ => 1%float) 1%float.
Proof. constructor; try intros k; vm_compute; try reflexivity. discriminate. Qed.

Lemma eager_sampling_ok :
  sampling_ok stub_env (MCP3008ADC.init 0) eager_config
              0.02%float (fun _ => 1%float) 1%float.
Proof. constructor; try intros k; vm_compute; try reflexivity. discriminate. Qed.

Lemma eager_transform_ok : transform_ok eager_config.
Proof. constructor; vm_compute; reflexivity. Qed.





(** X16. A negative MAX_RECORDS is not "no limit": it is truthy and the
    counter is above it after the first record, so the run makes
    exactly one record, writes it, prints "[END] Wrote 1 records" and
    returns; no pause is made. *)
Theorem negative_max_one_record {F : Type} `{PyFloat F} (env : Env F)
        (cfg : Config.t F) (w : world F) (fuel : nat)
        (interval : F) (volt : nat -> F) (len : F) :
  sampling_ok env (MCP3008ADC.init 0) cfg interval volt len ->
  transform_ok cfg ->
  fs_denied w = false ->
  Config.MAX_RECORDS cfg < 0 ->
  exists c0 w0 c' w',
    Collector.init cfg w = (Ok c0, w0)
    /\ Collector.run env (S fuel) (c0, w0) = (Ok (Some tt), (c', w'))
    /\ Collector.record_count c' = 1
    /\ CSVLogger.total_written (Collector.logger c') = 1
    /\ CSVLogger.buffer (Collector.logger c') = []
    /\ file_at w' (Config.CSV_PATH cfg)
       = match fs w (Config.CSV_PATH cfg) with
         | Some c => c
         | None => [header_row]
         end
         ++ [to_row
               (record_of env cfg
                  (window_mean volt len (adc_calls w)
                     (Z.to_nat (Config.AVERAGING_WINDOW cfg)))
                  (clock_calls w))]
    /\ adc_calls w'
       = (adc_calls w + Z.to_nat (Config.AVERAGING_WINDOW cfg))%nat
    /\ pauses (trace w') = pauses (trace w)
    /\ last (trace w') (Ev_print START) = Ev_print (END 1).
Proof.
  intros Hs Ht Hd Hneg.
  destruct (collector_init_exact env cfg w volt len Hd)
    as (w0 & Hinit & Hinv).
  destruct (run_exact env cfg _ _ _ interval volt len Hs Ht (S fuel)
              _ _ _ Hinv) as [Hstop _].
  assert (Hn : stop_count cfg = 1%nat) by (unfold stop_count; lia).
  rewrite Hn in Hstop.
  destruct (Hstop ltac:(lia) (or_introl eq_refl) ltac:(lia))
    as (c' & w' & Hr & Hrc & Htw & Hb & Hfile & Hadc & _ & Hpz & Hlast).
  eexists _, w0, c', w'.
  split; [exact Hinit|]. split; [exact Hr|].
  split; [exact Hrc|]. split; [exact Htw|]. split; [exact Hb|].
  split.
  { rewrite Hfile. unfold cycle_records. cbn [seq map].
    now rewrite Nat.mul_0_l, !Nat.add_0_r. }
  split; [rewrite Hadc; lia|].
  split; [|exact Hlast].
  rewrite Hpz. destruct (_ >? _); lia.
Qed.

Lemma negative_max_one_record_witness :
  exists c0 w0 c' w',
    Collector.init negative_max_config empty_world = (Ok c0, w0)
    /\ Collector.run stub_env 4 (c0, w0) = (Ok (Some tt), (c', w'))
    /\ Collector.record_count c' = 1
    /\ CSVLogger.total_written (Collector.logger c') = 1
    /\ last (trace w') (Ev_print START) = Ev_print (END 1).
Proof.
  destruct (negative_max_one_record stub_env negative_max_config
              empty_world 3 0.02%float (fun _ => 1%float) 2%float
              negative_max_sampling_ok negative_max_transform_ok eq_refl
              ltac:(vm_compute; reflexivity))
    as (c0 & w0 & c' & w' & Hinit & Hr & Hrc & Htw & _ & _ & _ & _ & Hlast).
  exists c0, w0, c', w'. repeat split; assumption.
Defined.

(** X17. A transform that cannot be computed stops the run in its first
    cycle, after the whole first window was sampled: a gain of zero
    raises ZeroDivisionError, a phase count that no float holds raises
    OverflowError (the division by the gain comes first). The clock
    was not read, the collector is as built and the store holds what
    it held once the collector was built. *)
Theorem transform_failure {F : Type} `{PyFloat F} (env : Env F)
        (cfg : Config.t F) (w : world F) (fuel : nat)
        (interval : F) (volt : nat -> F) (len : F) :
  sampling_ok env (MCP3008ADC.init 0) cfg interval volt len ->
  fs_denied w = false ->
  f_eqb (Config.AMPLIFIER_GAIN cfg) (f_of_Z 0) = true
  \/ f_fits (Config.PHASES cfg) = false ->
  exists c0 w0 w',
    Collector.init cfg w = (Ok c0, w0)
    /\ Collector.run env (S fuel) (c0, w0)
       = (Raise (if f_eqb (Config.AMPLIFIER_GAIN cfg) (f_of_Z 0)
                 then ZeroDivisionError else OverflowError), (c0, w'))
    /\ Collector.record_count c0 = 0
    /\ CSVLogger.buffer (Collector.logger c0) = []
    /\ adc_calls w'
       = (adc_calls w + Z.to_nat (Config.AVERAGING_WINDOW cfg))%nat
    /\ clock_calls w' = clock_calls w
    /\ fs w' = fs w0.
Proof.
  intros Hs Hd Hbad.
  destruct (collector_init_exact env cfg w volt len Hd)
    as (w0 & Hinit & (l & rows & _ & _ & _ & _ & _ & Hadc & _)
        & Hclock & _).
  cbn [snd] in Hadc, Hclock. rewrite Nat.add_0_r in Hadc, Hclock.
  eexists _, w0, _. split; [exact Hinit|].
  split.
  - rewrite run_unfold, loop_S.
    rewrite (cycle_transform_raises env _ _ _ _
               (if f_eqb (Config.AMPLIFIER_GAIN cfg) (f_of_Z 0)
                then ZeroDivisionError else OverflowError)
               (sample_window_run env
                  (collector_of cfg
                     (CSVLogger.mk (Config.CSV_PATH cfg)
                        (Config.CSV_FLUSH_INTERVAL cfg) [] 0) 0)
                  _ interval volt len Hs)).
    + reflexivity.
    + rewrite calculate_outcomes.
      cbn [Collector.math collector_of PowerMath.gain PowerMath.phases].
      destruct (f_eqb _ _); [reflexivity|].
      destruct Hbad as [Hb|Hb]; [discriminate|]. now rewrite Hb.
  - cbn [sampled adc_calls clock_calls fs collector_of
         Collector.record_count Collector.logger CSVLogger.buffer
         Collector.cfg].
    repeat split; lia.
Qed.

Lemma transform_failure_witness :
  exists c0 w0 w',
    Collector.init zero_gain_config empty_world = (Ok c0, w0)
    /\ Collector.run stub_env 5 (c0, w0)
       = (Raise ZeroDivisionError, (c0, w'))
    /\ adc_calls w' = 1%nat
    /\ clock_calls w' = 0%nat.
Proof.
  destruct (transform_failure stub_env zero_gain_config empty_world 4
              0.02%float (fun _ => 1%float) 1%float
              zero_gain_sampling_ok eq_refl (or_introl eq_refl))
    as (c0 & w0 & w' & Hinit & Hr & _ & _ & Hadc & Hclock & _).
  exists c0, w0, w'. repeat split; assumption.
Defined.

(** X18. [main] on a store that does not exist and cannot be created
    raises OSError while the collector is built: from [mkdir] when the
    directory of the store is missing, and then nothing was opened;
    from the open for writing when the directory is there, and then
    that refused open is the one thing that happened. Either way no
    banner is printed, no reading taken, no file made. *)
Theorem main_store_fault {F : Type} `{PyFloat F} (env : Env F)
        (cfg : Config.t F) (w : world F) (fuel : nat) :
  fs w (Config.CSV_PATH cfg) = None ->
  fs_denied w = true ->
  exists w',
    Collector.main env cfg fuel w = (Raise OSError, w')
    /\ trace w'
       = trace w ++ (if dir_missing w (Config.CSV_PATH cfg) then []
                     else [Ev_open (Config.CSV_PATH cfg) "w"])
    /\ adc_calls w' = adc_calls w
    /\ clock_calls w' = clock_calls w
    /\ fs w' (Config.CSV_PATH cfg) = None.
Proof.
  intros Hp Hd.
  destruct (init_fresh (Config.CSV_PATH cfg)
              (Config.CSV_FLUSH_INTERVAL cfg) w Hp)
    as (w' & Hi & (_ & Hadc & Hclock & _) & Htr & Hfs).
  rewrite Hd in Hi, Hfs, Htr. cbn [andb] in Htr.
  exists w'. unfold Collector.main, Collector.init.
  rewrite !bind_run, Hi. auto.
Qed.

Lemma main_store_fault_witness :
  (exists w',
      Collector.main stub_env scenario_config 5 locked_world
      = (Raise OSError, w')
      /\ trace w' = [])
  /\ (exists w',
        Collector.main stub_env scenario_config 5 locked_store_world
        = (Raise OSError, w')
        /\ trace w' = [Ev_open "readings.csv" "w"]).
Proof.
  split.
  - destruct (main_store_fault stub_env scenario_config locked_world 5
                eq_refl eq_refl) as (w' & Hr & Htr & _).
    exists w'. split; [exact Hr|exact Htr].
  - destruct (main_store_fault stub_env scenario_config locked_store_world 5
                eq_refl eq_refl) as (w' & Hr & Htr & _).
    exists w'. split; [exact Hr|exact Htr].
Defined.

(** X19. A store that exists is not opened when the collector is
    built, so a store that cannot be appended to is found out only at
    the first flush. With a flush at every record, the first [log]
    raises OSError after a whole window was sampled and the clock read:
    the record stays in the buffer, the record counter was not
    incremented and is still 0, nothing was written and no "[END]"
    line is printed. *)
Theorem append_refused {F : Type} `{PyFloat F} (env : Env F)
        (cfg : Config.t F) (w : world F) (fuel : nat)
        (interval : F) (volt : nat -> F) (len : F) (content : list (row F)) :
  sampling_ok env (MCP3008ADC.init 0) cfg interval volt len ->
  transform_ok cfg ->
  fs w (Config.CSV_PATH cfg) = Some content ->
  fs_denied w = true ->
  Config.CSV_FLUSH_INTERVAL cfg <= 1 ->
  exists c0 c' w',
    Collector.init cfg w = (Ok c0, w)
    /\ Collector.run env (S fuel) (c0, w) = (Raise OSError, (c', w'))
    /\ Collector.record_count c' = 0
    /\ CSVLogger.total_written (Collector.logger c') = 0
    /\ CSVLogger.buffer (Collector.logger c')
       = [record_of env cfg
            (window_mean volt len (adc_calls w)
               (Z.to_nat (Config.AVERAGING_WINDOW cfg)))
            (clock_calls w)]
    /\ file_at w' (Config.CSV_PATH cfg) = content
    /\ adc_calls w'
       = (adc_calls w + Z.to_nat (Config.AVERAGING_WINDOW cfg))%nat
    /\ clock_calls w' = S (clock_calls w)
    /\ last (trace w') (Ev_print START)
       = Ev_open (Config.CSV_PATH cfg) "a".
Proof.
  intros Hs Ht Hp Hd Hfi.
  set (l0 := CSVLogger.mk (Config.CSV_PATH cfg)
               (Config.CSV_FLUSH_INTERVAL cfg) [] 0 : CSVLogger.t F).
  assert (Hinit : Collector.init cfg w = (Ok (collector_of cfg l0 0), w)).
  { unfold Collector.init. rewrite bind_run.
    rewrite (init_existing _ _ _ _ Hp). reflexivity. }
  set (w1 := sampled (sampled w 0 [Ev_print START]) 0 [Ev_print INFO]).
  set (r := record_of env cfg
              (window_mean volt len (adc_calls w1)
                 (Z.to_nat (Config.AVERAGING_WINDOW cfg)))
              (clock_calls w1)).
  set (w2 := ticked
               (sampled w1 (Z.to_nat (Config.AVERAGING_WINDOW cfg))
                  (window_events env (MCP3008ADC.init 0) interval
                     (adc_calls w1)
                     (Z.to_nat (Config.AVERAGING_WINDOW cfg))))).
  assert (Hne : CSVLogger.buffer (appended l0 r) <> []) by discriminate.
  destruct (flush_nonempty (appended l0 r) w2 Hne)
    as (w' & Hfl & (_ & Hadc & Hclock & _) & Htr & Hfs).
  assert (Hd2 : fs_denied w2 = true) by exact Hd.
  rewrite Hd2 in Hfl, Hfs.
  assert (Hlog : CSVLogger.log r (l0, w2)
                 = (Raise OSError, (appended l0 r, w'))).
  { rewrite log_run.
    replace (_ >=? _) with true; [exact Hfl|].
    symmetry. rewrite Z.geb_leb. apply Z.leb_le.
    cbn [l0 CSVLogger.buffer CSVLogger.flush_interval app List.length].
    lia. }
  exists (collector_of cfg l0 0), (collector_of cfg (appended l0 r) 0), w'.
  split; [exact Hinit|].
  split.
  { rewrite run_unfold, loop_S.
    rewrite (cycle_run env cfg l0 0 _ interval volt len Hs Ht).
    fold w1. fold r. fold w2. rewrite Hlog. reflexivity. }
  cbn [collector_of Collector.record_count Collector.logger appended
       CSVLogger.total_written CSVLogger.buffer l0 app].
  split; [reflexivity|]. split; [reflexivity|].
  split.
  { unfold r, w1. cbn [sampled adc_calls clock_calls].
    now rewrite !Nat.add_0_r. }
  split.
  { apply file_at_fs. cbn [appended CSVLogger.path l0] in Hfs.
    rewrite Hfs. exact Hp. }
  split; [rewrite Hadc; cbn; lia|].
  split; [rewrite Hclock; reflexivity|].
  rewrite Htr, last_last. reflexivity.
Qed.

Lemma append_refused_witness :
  exists c0 c' w',
    Collector.init eager_config readonly_world = (Ok c0, readonly_world)
    /\ Collector.run stub_env 5 (c0, readonly_world)
       = (Raise OSError, (c', w'))
    /\ Collector.record_count c' = 0
    /\ List.length (CSVLogger.buffer (Collector.logger c')) = 1%nat
    /\ file_at w' "readings.csv" = [header_row].
Proof.
  destruct (append_refused stub_env eager_config readonly_world 4
              0.02%float (fun _ => 1%float) 1%float [header_row]
              eager_sampling_ok eager_transform_ok eq_refl eq_refl
              ltac:(vm_compute; discriminate))
    as (c0 & c' & w' & Hinit & Hr & Hrc & _ & Hb & Hfile & _).
  exists c0, c', w'. rewrite Hb. repeat split; assumption.
Defined.
